(** * nobuild: a shallow embedding of nobuild.h and the properties of its core

    The header builds linked lists of flags and objects on the C heap,
    assembles them into a build rule and runs the compiler as a child
    process.  The embedding keeps the heap explicit: every struct lives in a
    cell of a finite map from addresses to cells, pointers are addresses
    (NULL is 0), and every function of the header is a computation in a
    small state-and-fault monad.  What the C standard leaves undefined
    (dereferencing NULL or a dangling pointer, writing outside an array,
    signed overflow) is the outcome [Fault].  Loops over heap lists take
    fuel, since nothing in a raw heap forbids a cyclic list. *)

From Stdlib Require Import ZArith List Ascii String Lia.
From stdpp Require Import base gmap list strings.

Local Open Scope Z_scope.

(** ** Constants of the header *)

Abbreviation pointer := Z (only parsing).
Definition NULL : pointer := 0.

Definition DEFAULT_CAPACITY : nat := 128 - 8.
Definition FLAG_CAPACITY : nat := DEFAULT_CAPACITY.
Definition OBJECT_CAPACITY : nat := DEFAULT_CAPACITY.
Definition CC_CAPACITY : nat := DEFAULT_CAPACITY.
Definition OUT_CAPACITY : nat := DEFAULT_CAPACITY.

Definition INT_MAX : Z := 2147483647.
Definition EXIT_FAILURE : Z := 1.

(** ** Characters, buffers and C strings

    A [char] array is a list of characters.  A C string argument
    ([const char *], or the [name] of a struct passed by value) is the list
    of characters found from the pointer on; it ends at its first NUL, or at
    the end of the list, where the terminator is implicit. *)

Definition NUL : ascii := Ascii.zero.

Definition lit (s : string) : list ascii := list_ascii_of_string s.

Fixpoint strlen (s : list ascii) : nat :=
  match s with
  | [] => 0%nat
  | c :: s' => if Ascii.eqb c NUL then 0%nat else S (strlen s')
  end.

(** The string a reader sees in buffer [b]. *)
Definition c_str (b : list ascii) : list ascii := firstn (strlen b) b.

(** A buffer is terminated when a NUL lies inside it. *)
Definition terminated (b : list ascii) : bool := (strlen b <? length b)%nat.

(** [memcpy(dst, src, n)]. *)
Definition memcpy (dst src : list ascii) (n : nat) : list ascii :=
  firstn n src ++ skipn n dst.

(** [strncpy(dst, src, n)]: at most [n] characters of [src] are copied; when
    [src] is shorter than [n] the rest of the [n] characters is filled with
    NUL, and when it is not, no terminator is written. *)
Definition strncpy (dst src : list ascii) (n : nat) : list ascii :=
  firstn n (c_str src) ++ repeat NUL (n - strlen src) ++ skipn n dst.

(** [memset(dst, c, n)]. *)
Definition memset (dst : list ascii) (c : ascii) (n : nat) : list ascii :=
  repeat c n ++ skipn n dst.

(** ** The structs *)

(** [flag_t] and [object_t] have the same shape; the macros of the header
    take the type as a parameter, and so do the definitions below. *)
Inductive TYPE := flag_t | object_t.

#[global] Instance TYPE_eq_dec : EqDecision TYPE.
Proof. solve_decision. Defined.

Record item := Item { name : list ascii; __next : pointer }.

Record compiler_t := CompilerT { cmd : list ascii; flags : pointer }.

Record build_rule_t := BuildRule {
  target : pointer;
  dependencies : pointer;
  cc : pointer;
  output : list ascii
}.

(** A [char *] stored in the argument vector: it points to a field of a
    cell, to a string literal, or nowhere. *)
Inductive charp :=
| CharNull
| CharLit (s : list ascii)
| CharCmd (c : pointer)          (* c->cmd *)
| CharName (n : pointer)         (* n->name *)
| CharOutput (r : pointer).      (* r->output *)

Inductive cell :=
| Node (T : TYPE) (n : item)
| Compiler (c : compiler_t)
| Rule (r : build_rule_t)
| PtrVar (p : pointer)           (* a variable holding a list head *)
| Argv (slots : list charp).

(** What the process does to the outside. *)
Inductive event :=
| Perror (msg : string)
| Fork (pid : Z)
| Execvp (file : charp) (argv : list charp)
| Exit (code : Z).

Record state := State { heap : gmap Z cell; trace : list event }.

(** ** The monad *)

Inductive outcome (A : Type) : Type :=
| Ok (a : A) (s : state)     (* the call returned a *)
| Fault                      (* undefined behaviour *)
| Timeout                    (* the fuel ran out *)
| Halt (s : state).          (* the process left this program: exec or exit *)
Arguments Ok {A} a s.
Arguments Fault {A}.
Arguments Timeout {A}.
Arguments Halt {A} s.

Definition M (A : Type) : Type := state -> outcome A.

Definition ret {A} (a : A) : M A := fun s => Ok a s.

Definition bind {A B} (m : M A) (f : A -> M B) : M B :=
  fun s =>
    match m s with
    | Ok a s' => f a s'
    | Fault => Fault
    | Timeout => Timeout
    | Halt s' => Halt s'
    end.

Definition fault {A} : M A := fun _ => Fault.
Definition timeout {A} : M A := fun _ => Timeout.
Definition halt {A} : M A := fun s => Halt s.

Declare Scope c_scope.
Delimit Scope c_scope with C.
Notation "x <- m ;; k" := (bind m (fun x => k))
  (at level 100, m at next level, right associativity) : c_scope.
Notation "m ;;; k" := (bind m (fun _ => k))
  (at level 100, right associativity) : c_scope.
Local Open Scope c_scope.

(** The value a call returned, if it returned. *)
Definition returned {A} (o : outcome A) : option A :=
  match o with Ok a _ => Some a | _ => None end.

(** The state a call returned in, if it returned. *)
Definition final {A} (o : outcome A) : option state :=
  match o with Ok _ s => Some s | _ => None end.

(** ** Memory operations *)

Definition load_item (T : TYPE) (p : pointer) : M item :=
  fun s =>
    match heap s !! p with
    | Some (Node T' n) => if decide (T' = T) then Ok n s else Fault
    | _ => Fault
    end.

Definition load_compiler (p : pointer) : M compiler_t :=
  fun s => match heap s !! p with Some (Compiler c) => Ok c s | _ => Fault end.

Definition load_rule (p : pointer) : M build_rule_t :=
  fun s => match heap s !! p with Some (Rule r) => Ok r s | _ => Fault end.

Definition load_var (p : pointer) : M pointer :=
  fun s => match heap s !! p with Some (PtrVar q) => Ok q s | _ => Fault end.

Definition load_argv (p : pointer) : M (list charp) :=
  fun s => match heap s !! p with Some (Argv l) => Ok l s | _ => Fault end.

Definition put (p : pointer) (c : cell) : M unit :=
  fun s => Ok tt (State (<[p := c]> (heap s)) (trace s)).

Definition store_item (T : TYPE) (p : pointer) (n : item) : M unit :=
  _ <- load_item T p ;; put p (Node T n).

Definition store_compiler (p : pointer) (c : compiler_t) : M unit :=
  _ <- load_compiler p ;; put p (Compiler c).

Definition store_rule (p : pointer) (r : build_rule_t) : M unit :=
  _ <- load_rule p ;; put p (Rule r).

Definition store_var (p : pointer) (q : pointer) : M unit :=
  _ <- load_var p ;; put p (PtrVar q).

(** [argv[i] = v]: outside the vector the write is undefined. *)
Definition store_slot (p : pointer) (i : Z) (v : charp) : M unit :=
  l <- load_argv p ;;
  if decide (0 <= i < Z.of_nat (length l))
  then put p (Argv (<[Z.to_nat i := v]> l))
  else fault.

Definition emit (e : event) : M unit :=
  fun s => Ok tt (State (heap s) (trace s ++ [e])).

(** [x + 1] on an [int]: overflow is undefined. *)
Definition int_add (x y : Z) : M Z :=
  if decide (x + y <= INT_MAX) then ret (x + y) else fault.

(** *** The allocator

    [malloc] is decided by the environment: it fails, or it hands out an
    address together with the junk found there.  Every character and
    pointer of a fresh block is junk until the program writes it. *)
Record junk := Junk { junk_char : nat -> ascii; junk_ptr : nat -> pointer }.

Definition malloc_result : Type := option (pointer * junk).

Definition junk_buf (j : junk) : list ascii :=
  map (junk_char j) (seq 0 DEFAULT_CAPACITY).

Definition junk_item (j : junk) : item :=
  Item (junk_buf j) (junk_ptr j 0%nat).

Definition junk_compiler (j : junk) : compiler_t :=
  CompilerT (junk_buf j) (junk_ptr j 0%nat).

Definition junk_rule (j : junk) : build_rule_t :=
  BuildRule (junk_ptr j 0%nat) (junk_ptr j 1%nat) (junk_ptr j 2%nat) (junk_buf j).

(** The environment keeps its side of the contract when the address it
    hands out is not NULL and not in use. *)
Definition valid_malloc (s : state) (m : malloc_result) : Prop :=
  match m with
  | None => True
  | Some (p, _) => p <> NULL /\ heap s !! p = None
  end.

Definition malloc (m : malloc_result) (init : junk -> cell) : M pointer :=
  match m with
  | None => ret NULL
  | Some (p, j) => put p (init j) ;;; ret p
  end.

(** [calloc(n, sizeof(char * ))]: the vector comes zeroed. *)
Definition calloc (m : option pointer) (n : Z) : M pointer :=
  match m with
  | None => ret NULL
  | Some p => put p (Argv (replicate (Z.to_nat n) CharNull)) ;;; ret p
  end.

(** [free(p)]: nothing for NULL, undefined for an address not in use. *)
Definition free (p : pointer) : M unit :=
  fun s =>
    if decide (p = NULL) then Ok tt s
    else match heap s !! p with
         | Some _ => Ok tt (State (delete p (heap s)) (trace s))
         | None => Fault
         end.

(** [b[i] = c] on a [char] array. *)
Definition poke (b : list ascii) (i : nat) (c : ascii) : M (list ascii) :=
  if decide (i < length b)%nat then ret (<[i := c]> b) else fault.

(** ** Initialiser and setter macros *)

(** [INIT_CC]: the result of [malloc] is used unchecked, and [memset]
    clears [sizeof( *cmd)], one character. *)
Definition INIT_CC (m : malloc_result) : M pointer :=
  __CC_PTR__ <- malloc m (fun j => Compiler (junk_compiler j)) ;;
  c <- load_compiler __CC_PTR__ ;;
  store_compiler __CC_PTR__ (CompilerT (cmd c) NULL) ;;;
  c <- load_compiler __CC_PTR__ ;;
  store_compiler __CC_PTR__ (CompilerT (memset (cmd c) NUL 1) (flags c)) ;;;
  ret __CC_PTR__.

Definition INIT_RULE (m : malloc_result) : M pointer :=
  __RULE_PTR__ <- malloc m (fun j => Rule (junk_rule j)) ;;
  r <- load_rule __RULE_PTR__ ;;
  store_rule __RULE_PTR__ (BuildRule NULL (dependencies r) (cc r) (output r)) ;;;
  r <- load_rule __RULE_PTR__ ;;
  store_rule __RULE_PTR__ (BuildRule (target r) NULL (cc r) (output r)) ;;;
  r <- load_rule __RULE_PTR__ ;;
  store_rule __RULE_PTR__ (BuildRule (target r) (dependencies r) NULL (output r)) ;;;
  r <- load_rule __RULE_PTR__ ;;
  store_rule __RULE_PTR__
    (BuildRule (target r) (dependencies r) (cc r) (memset (output r) NUL 1)) ;;;
  ret __RULE_PTR__.

Definition SET_CC (__CC_PTR__ : pointer) (__CC_STR__ : list ascii) : M unit :=
  c <- load_compiler __CC_PTR__ ;;
  store_compiler __CC_PTR__
    (CompilerT (strncpy (cmd c) __CC_STR__ CC_CAPACITY) (flags c)).

Definition SET_OUT (__RULE_PTR__ : pointer) (__OUT_STR__ : list ascii) : M unit :=
  r <- load_rule __RULE_PTR__ ;;
  store_rule __RULE_PTR__
    (BuildRule (target r) (dependencies r) (cc r)
               (strncpy (output r) __OUT_STR__ CC_CAPACITY)).

(** ** The lists *)

Definition DEFINE_ALLOC_FN (T : TYPE) (__CAPACITY__ : nat)
    (m : malloc_result) (copy : item) : M pointer :=
  allocated <- malloc m (fun j => Node T (junk_item j)) ;;
  if decide (allocated = NULL) then ret NULL
  else
    let len := strlen (name copy) in
    if decide (__CAPACITY__ - 1 < len)%nat then
      free allocated ;;; ret NULL
    else
      a <- load_item T allocated ;;
      store_item T allocated (Item (memcpy (name a) (name copy) len) (__next a)) ;;;
      a <- load_item T allocated ;;
      b <- poke (name a) len NUL ;;
      store_item T allocated (Item b (__next a)) ;;;
      a <- load_item T allocated ;;
      store_item T allocated (Item (name a) NULL) ;;;
      ret allocated.

Definition __flag_t_alloc := DEFINE_ALLOC_FN flag_t FLAG_CAPACITY.
Definition __object_t_alloc := DEFINE_ALLOC_FN object_t OBJECT_CAPACITY.

Definition __TYPE_alloc (T : TYPE) : malloc_result -> item -> M pointer :=
  match T with flag_t => __flag_t_alloc | object_t => __object_t_alloc end.

(** The [for] loop of [LIST_PUSH_BACK]: it returns [prev]. *)
Fixpoint LIST_PUSH_BACK_loop (T : TYPE) (fuel : nat) (ptr prev : pointer)
    : M pointer :=
  if decide (ptr = NULL) then ret prev
  else match fuel with
       | O => timeout
       | S fuel' =>
           n <- load_item T ptr ;;
           LIST_PUSH_BACK_loop T fuel' (__next n) ptr
       end.

(** [HEAD] is an lvalue; the embedding takes the address it lives at. *)
Definition LIST_PUSH_BACK (T : TYPE) (fuel : nat) (m : malloc_result)
    (HEAD : pointer) (OBJECT : item) : M unit :=
  ptr <- load_var HEAD ;;
  prev <- LIST_PUSH_BACK_loop T fuel ptr NULL ;;
  if decide (prev = NULL) then
    a <- __TYPE_alloc T m OBJECT ;;
    store_var HEAD a
  else
    a <- __TYPE_alloc T m OBJECT ;;
    n <- load_item T prev ;;
    store_item T prev (Item (name n) a).

Definition ADD_FLAG (fuel : nat) (m : malloc_result)
    (__flags : pointer) (__flag : item) : M unit :=
  LIST_PUSH_BACK flag_t fuel m __flags __flag.

Definition ADD_OBJECT (fuel : nat) (m : malloc_result)
    (__objects : pointer) (__object : item) : M unit :=
  LIST_PUSH_BACK object_t fuel m __objects __object.

(** A [char] array of [DEFAULT_CAPACITY] characters initialised from a string
    literal: the characters of the literal, then NUL to the end.  A literal
    of exactly [DEFAULT_CAPACITY] characters leaves no room for a terminator,
    and a compiler that accepts a longer one cuts it. *)
Definition char_array (s : list ascii) : list ascii :=
  firstn DEFAULT_CAPACITY (s ++ repeat NUL DEFAULT_CAPACITY).

(** [FLAG(s)] and [OBJECT(s)]. *)
Definition FLAG (__FLAG__ : list ascii) : item := Item (char_array __FLAG__) NULL.
Definition OBJECT (__NAME__ : list ascii) : item := Item (char_array __NAME__) NULL.

(** ** Assembly and release *)

Definition MAKE_RULE (__rule __compiler __flags __target __dependencies : pointer)
    (output' : list ascii) : M unit :=
  if decide (__rule = NULL \/ __compiler = NULL \/ __dependencies = NULL)
  then ret tt
  else
    r <- load_rule __rule ;;
    store_rule __rule (BuildRule (target r) (dependencies r) __compiler (output r)) ;;;
    r <- load_rule __rule ;;
    c <- load_compiler (cc r) ;;
    store_compiler (cc r) (CompilerT (cmd c) __flags) ;;;
    SET_OUT __rule output' ;;;
    r <- load_rule __rule ;;
    store_rule __rule (BuildRule __target (dependencies r) (cc r) (output r)) ;;;
    r <- load_rule __rule ;;
    store_rule __rule (BuildRule (target r) __dependencies (cc r) (output r)).

(** The two [while] loops of [cleanup]. *)
Fixpoint cleanup_loop (T : TYPE) (fuel : nat) (p : pointer) : M unit :=
  if decide (p = NULL) then ret tt
  else match fuel with
       | O => timeout
       | S fuel' =>
           n <- load_item T p ;;
           free p ;;;
           cleanup_loop T fuel' (__next n)
       end.

Definition cleanup (fuel : nat) (rule : pointer) : M unit :=
  if decide (rule = NULL) then ret tt
  else
    r <- load_rule rule ;;
    cleanup_loop object_t fuel (dependencies r) ;;;
    r <- load_rule rule ;;
    c <- load_compiler (cc r) ;;
    cleanup_loop flag_t fuel (flags c) ;;;
    r <- load_rule rule ;;
    (if decide (cc r <> NULL) then free (cc r) else ret tt) ;;;
    free rule.

(** ** The execution engine *)

(** How a child process ends. [waitpid] is called without [WUNTRACED], so
    it reports nothing else. *)
Inductive termination :=
| Exited (code : Z)                   (* exit code, 0..255 *)
| Signaled (sig : Z) (core : bool).   (* killed by signal sig, 1..126 *)


(** The wait status as [<sys/wait.h>] of Linux encodes it: the low seven
    bits hold the signal (zero for a normal exit), bit 7 the core flag and
    the next eight bits the exit code. *)
Definition wstatus (t : termination) : Z :=
  match t with
  | Exited c => Z.shiftl (Z.land c 255) 8
  | Signaled sg core => Z.lor (Z.land sg 127) (if core then 128 else 0)
  end.

Definition WIFEXITED (status : Z) : bool := Z.land status 127 =? 0.
Definition WEXITSTATUS (status : Z) : Z := Z.shiftr (Z.land status 65280) 8.

(** What the environment decides during one call of [__build]: the result
    of [calloc], the result of [fork], and whether [execvp] in the child
    finds the program, which then runs and ends as [t], or fails. *)
Record world := World {
  w_calloc : option pointer;
  w_fork : Z;
  w_execvp : option termination
}.

(** The child runs lines 407-412: its image is replaced by the compiler, or
    [execvp] returns and the child leaves with [EXIT_FAILURE]. *)
Definition child_termination (w : world) : termination :=
  match w_execvp w with
  | Some t => t
  | None => Exited EXIT_FAILURE
  end.

(** The first two loops of [__build] count the nodes. *)
Fixpoint count_loop (T : TYPE) (fuel : nat) (p : pointer) (argc : Z) : M Z :=
  if decide (p = NULL) then ret argc
  else match fuel with
       | O => timeout
       | S fuel' =>
           argc' <- int_add argc 1 ;;
           n <- load_item T p ;;
           count_loop T fuel' (__next n) argc'
       end.

(** The last two store [argv[i++] = p->name] for every node. *)
Fixpoint fill_loop (T : TYPE) (fuel : nat) (argv p : pointer) (i : Z) : M Z :=
  if decide (p = NULL) then ret i
  else match fuel with
       | O => timeout
       | S fuel' =>
           store_slot argv i (CharName p) ;;;
           i' <- int_add i 1 ;;
           n <- load_item T p ;;
           fill_loop T fuel' argv (__next n) i'
       end.

(** Lines 358-397: the argument vector.  The result is NULL when [calloc]
    failed, after the [perror]. *)
Definition __build_argv (fuel : nat) (w : world) (rule : pointer) : M pointer :=
  let argc := 0 in
  r <- load_rule rule ;;
  c <- load_compiler (cc r) ;;
  argc <- count_loop flag_t fuel (flags c) argc ;;
  r <- load_rule rule ;;
  argc <- count_loop object_t fuel (dependencies r) argc ;;
  argc <- int_add argc (1 + 1 + 1 + 1 + 1) ;;
  argv <- calloc (w_calloc w) argc ;;
  if decide (argv = NULL) then
    emit (Perror "calloc") ;;; ret NULL
  else
    let i := 0 in
    r <- load_rule rule ;;
    store_slot argv i (CharCmd (cc r)) ;;;
    i <- int_add i 1 ;;
    r <- load_rule rule ;;
    c <- load_compiler (cc r) ;;
    i <- fill_loop flag_t fuel argv (flags c) i ;;
    store_slot argv i (CharLit (lit "-o")) ;;;
    i <- int_add i 1 ;;
    store_slot argv i (CharOutput rule) ;;;
    i <- int_add i 1 ;;
    r <- load_rule rule ;;
    store_slot argv i (CharName (target r)) ;;;
    i <- int_add i 1 ;;
    r <- load_rule rule ;;
    i <- fill_loop object_t fuel argv (dependencies r) i ;;
    store_slot argv i CharNull ;;;
    ret argv.

(** Lines 399-425: fork, exec in the child, wait in the parent.  [waitpid]
    is taken to do its work: it returns when the child has ended and stores
    the status of that child (the source does not look at its result). *)
Definition __build_run (w : world) (argv : pointer) : M Z :=
  let pid := w_fork w in
  emit (Fork pid) ;;;
  if decide (pid < 0) then
    emit (Perror "fork") ;;;
    free argv ;;;
    ret (-1)
  else if decide (pid = 0) then
    slots <- load_argv argv ;;
    emit (Execvp (default CharNull (slots !! 0%nat)) slots) ;;;
    match w_execvp w with
    | Some _ => halt
    | None =>
        emit (Perror "execvp") ;;;
        emit (Exit EXIT_FAILURE) ;;;
        halt
    end
  else
    let status := wstatus (child_termination w) in
    free argv ;;;
    if WIFEXITED status && (WEXITSTATUS status =? 0) then ret 0
    else ret (-1).

Definition __build (fuel : nat) (w : world) (rule : pointer) : M Z :=
  if decide (rule = NULL) then ret (-1)
  else
    r <- load_rule rule ;;
    if decide (cc r = NULL \/ target r = NULL \/ dependencies r = NULL)
    then ret (-1)
    else
      argv <- __build_argv fuel w rule ;;
      if decide (argv = NULL) then ret (-1)
      else __build_run w argv.

(** [BUILD] without [DEBUG]: the guard, then [__build]. *)
Definition BUILD (fuel : nat) (w : world) (rule : pointer) : M Z :=
  if decide (rule = NULL) then ret (-1)
  else
    r <- load_rule rule ;;
    if decide (cc r = NULL \/ target r = NULL \/ dependencies r = NULL)
    then ret (-1)
    else __build fuel w rule.

(** ** example.c *)

(** Where the locals of [main] whose address is taken live, and what the
    environment answers to the six calls of [malloc] and to [BUILD]. *)
Record frame := Frame {
  flag_list_at : pointer;
  target_at : pointer;
  dependencies_at : pointer
}.

Record answers := Answers {
  a_cc : malloc_result;
  a_flag1 : malloc_result;
  a_flag2 : malloc_result;
  a_dep1 : malloc_result;
  a_dep2 : malloc_result;
  a_rule : malloc_result;
  a_world : world
}.

(** [assert(e)]: the process aborts when [e] is false. *)
Definition assert (e : bool) : M unit := if e then ret tt else halt.

Definition strcmp_eq (a b : list ascii) : bool :=
  bool_decide (c_str a = c_str b).

(** [main] up to the call of [MAKE_RULE]; it yields [cc] and [rule]. *)
Definition main_setup (fuel : nat) (f : frame) (a : answers) : M (Z * Z) :=
  cc <- INIT_CC (a_cc a) ;;
  SET_CC cc (lit "gcc") ;;;
  put (flag_list_at f) (PtrVar NULL) ;;;
  ADD_FLAG fuel (a_flag1 a) (flag_list_at f) (FLAG (lit "-Wall")) ;;;
  flag_list <- load_var (flag_list_at f) ;;
  n <- load_item flag_t flag_list ;;
  assert (strcmp_eq (name n) (lit "-Wall")) ;;;
  ADD_FLAG fuel (a_flag2 a) (flag_list_at f) (FLAG (lit "-Wextra")) ;;;
  flag_list <- load_var (flag_list_at f) ;;
  n <- load_item flag_t flag_list ;;
  n <- load_item flag_t (__next n) ;;
  assert (strcmp_eq (name n) (lit "-Wextra")) ;;;
  put (target_at f) (Node object_t (OBJECT (lit "test/main.c"))) ;;;
  put (dependencies_at f) (PtrVar NULL) ;;;
  ADD_OBJECT fuel (a_dep1 a) (dependencies_at f) (OBJECT (lit "test/foo.c")) ;;;
  dependencies <- load_var (dependencies_at f) ;;
  n <- load_item object_t dependencies ;;
  assert (strcmp_eq (name n) (lit "test/foo.c")) ;;;
  ADD_OBJECT fuel (a_dep2 a) (dependencies_at f) (OBJECT (lit "test/bar.c")) ;;;
  dependencies <- load_var (dependencies_at f) ;;
  n <- load_item object_t dependencies ;;
  n <- load_item object_t (__next n) ;;
  assert (strcmp_eq (name n) (lit "test/bar.c")) ;;;
  rule <- INIT_RULE (a_rule a) ;;
  ret (cc, rule).

Definition main (fuel : nat) (f : frame) (a : answers) : M Z :=
  x <- main_setup fuel f a ;;
  let cc := x.1 in
  let rule := x.2 in
  flag_list <- load_var (flag_list_at f) ;;
  dependencies <- load_var (dependencies_at f) ;;
  MAKE_RULE rule cc flag_list (target_at f) dependencies (lit "out") ;;;
  assert (negb (rule =? NULL)) ;;;
  BUILD fuel (a_world a) rule ;;;
  cleanup fuel rule ;;;
  ret 0.

(** ** Reading the heap *)

(** The nodes of the list that starts at [p], with their addresses. *)
Fixpoint is_list (T : TYPE) (h : gmap Z cell) (p : pointer)
    (l : list (Z * item)) : Prop :=
  match l with
  | [] => p = NULL
  | (q, n) :: l' =>
      p = q /\ q <> NULL /\ h !! q = Some (Node T n) /\ is_list T h (__next n) l'
  end.

(** The iteration [for (f = p; f; f = f->__next)] collecting [f->name]. *)
Fixpoint iterate (T : TYPE) (fuel : nat) (p : pointer) : M (list (list ascii)) :=
  if decide (p = NULL) then ret []
  else match fuel with
       | O => timeout
       | S fuel' =>
           n <- load_item T p ;;
           rest <- iterate T fuel' (__next n) ;;
           ret (c_str (name n) :: rest)
       end.

Definition c_names (l : list (Z * item)) : list (list ascii) :=
  map (fun x => c_str (name x.2)) l.

(** The name read through [rule->target->name]. *)
Definition target_name (rule : pointer) : M (list ascii) :=
  r <- load_rule rule ;;
  n <- load_item object_t (target r) ;;
  ret (c_str (name n)).

(** The string behind a [char *]; reading a buffer that holds no NUL runs
    out of the array. *)
Definition load_string (h : gmap Z cell) (p : charp) : option (list ascii) :=
  match p with
  | CharNull => None
  | CharLit s => Some s
  | CharCmd c =>
      match h !! c with
      | Some (Compiler k) => if terminated (cmd k) then Some (c_str (cmd k)) else None
      | _ => None
      end
  | CharName n =>
      match h !! n with
      | Some (Node _ k) => if terminated (name k) then Some (c_str (name k)) else None
      | _ => None
      end
  | CharOutput r =>
      match h !! r with
      | Some (Rule k) => if terminated (output k) then Some (c_str (output k)) else None
      | _ => None
      end
  end.

(** The arguments [execvp] reads from a vector: the strings up to the first
    NULL slot.  A vector without a NULL slot has no reading. *)
Fixpoint argv_strings (h : gmap Z cell) (slots : list charp)
    : option (list (list ascii)) :=
  match slots with
  | [] => None
  | CharNull :: _ => Some []
  | p :: rest =>
      s ← load_string h p;
      l ← argv_strings h rest;
      Some (s :: l)
  end.

(** ** Vocabulary of the statements *)

(** The [name] of a node that [DEFINE_ALLOC_FN] filled from [src] over the
    junk [j]. *)
Definition node_name (j : junk) (src : list ascii) : list ascii :=
  <[strlen src := NUL]> (memcpy (junk_buf j) src (strlen src)).

(** The nodes of a list after a node at [p] was linked behind the last. *)
Fixpoint link_tail (l : list (Z * item)) (p : pointer) : list (Z * item) :=
  match l with
  | [] => []
  | (q, n) :: l' =>
      match l' with
      | [] => [(q, Item (name n) p)]
      | _ :: _ => (q, n) :: link_tail l' p
      end
  end.

(** The heap after a successful append of the node [new] at address [p]:
    the head variable, or the [__next] of the last node, now holds [p]. *)
Definition pushed (T : TYPE) (h : gmap Z cell) (HEAD : pointer)
    (l : list (Z * item)) (p : pointer) (new : item) : gmap Z cell :=
  match last l with
  | None => <[HEAD := PtrVar p]> (<[p := Node T new]> h)
  | Some (q, n) => <[q := Node T (Item (name n) p)]> (<[p := Node T new]> h)
  end.

(** [ADD_FLAG] or [ADD_OBJECT], by the type of the list. *)
Definition ADD (T : TYPE) : nat -> malloc_result -> pointer -> item -> M unit :=
  match T with flag_t => ADD_FLAG | object_t => ADD_OBJECT end.

(** A caller that appends one item after the other, as [main] of example.c
    does.  Each call comes with what [malloc] answers to it. *)
Fixpoint appends (T : TYPE) (fuel : nat) (HEAD : pointer)
    (calls : list (malloc_result * item)) : M unit :=
  match calls with
  | [] => ret tt
  | (m, it) :: rest => ADD T fuel m HEAD it ;;; appends T fuel HEAD rest
  end.

(** A call that succeeds in heap [h]: memory is handed out at a usable
    address and the name fits. *)
Definition succeeds (h : gmap Z cell) (c : Z * junk * item) : Prop :=
  c.1.1 <> NULL /\ h !! c.1.1 = None /\ (strlen (name c.2) < DEFAULT_CAPACITY)%nat.

Definition call_of (c : Z * junk * item) : malloc_result * item :=
  (Some (c.1.1, c.1.2), c.2).

(** A rule that [BUILD] accepts, with the lists it leads to. *)
Record complete (h : gmap Z cell) (rule : pointer) (r : build_rule_t)
    (c : compiler_t) (fl dl : list (Z * item)) : Prop := Complete {
  complete_rule_nn : rule <> NULL;
  complete_rule : h !! rule = Some (Rule r);
  complete_cc_nn : cc r <> NULL;
  complete_cc : h !! cc r = Some (Compiler c);
  complete_target_nn : target r <> NULL;
  complete_deps_nn : dependencies r <> NULL;
  complete_flags : is_list flag_t h (flags c) fl;
  complete_deps : is_list object_t h (dependencies r) dl
}.

(** The buffers of a complete rule hold C strings. *)
Record readable (h : gmap Z cell) (r : build_rule_t) (c : compiler_t)
    (tn : item) (fl dl : list (Z * item)) : Prop := Readable {
  readable_cmd : terminated (cmd c) = true;
  readable_output : terminated (output r) = true;
  readable_target : h !! target r = Some (Node object_t tn);
  readable_target_name : terminated (name tn) = true;
  readable_flags : Forall (fun n => terminated (name n.2) = true) fl;
  readable_deps : Forall (fun n => terminated (name n.2) = true) dl
}.

(** A rule that the guard of [BUILD] turns away. *)
Definition malformed (h : gmap Z cell) (rule : pointer) : Prop :=
  rule = NULL \/
  exists r, h !! rule = Some (Rule r) /\
            (cc r = NULL \/ target r = NULL \/ dependencies r = NULL).

(** The vector the specification describes, as pointers. *)
Definition expected_argv (rule : pointer) (r : build_rule_t)
    (fl dl : list (Z * item)) : list charp :=
  [CharCmd (cc r)] ++ map CharName fl.*1
  ++ [CharLit (lit "-o"); CharOutput rule; CharName (target r)]
  ++ map CharName dl.*1 ++ [CharNull].

(** The child there is, if any: none when [calloc] or [fork] failed. *)
Definition spawned (w : world) : option termination :=
  match w_calloc w with
  | None => None
  | Some _ => if decide (w_fork w < 0) then None else Some (child_termination w)
  end.

(** What [__build] leaves in the trace. *)
Definition build_trace (w : world) : list event :=
  match w_calloc w with
  | None => [Perror "calloc"]
  | Some _ => if decide (w_fork w < 0) then [Fork (w_fork w); Perror "fork"]
              else [Fork (w_fork w)]
  end.

Definition build_result (w : world) : Z :=
  match spawned w with
  | Some tm => if WIFEXITED (wstatus tm) && (WEXITSTATUS (wstatus tm) =? 0) then 0 else -1
  | None => -1
  end.

(** ** Sample data: the run of example.c *)

(** Junk as a debugging allocator leaves it. *)
Definition sample_junk : junk := Junk (fun _ => "x"%char) (fun _ => 57005).

Definition long_name : list ascii := repeat "a"%char 120.

(** A head variable at address 1 and a flag list holding ["-Wall"]. *)
Definition one_flag : state :=
  State {[ 1 := PtrVar 11;
           11 := Node flag_t (Item (node_name sample_junk (lit "-Wall")) NULL) ]} [].

(** An empty flag list behind the head variable at address 1. *)
Definition no_flag : state := State {[ 1 := PtrVar NULL ]} [].

Definition sample_frame : frame := Frame 1 3 2.

Definition sample_answers (w : world) : answers :=
  Answers (Some (10, sample_junk)) (Some (11, sample_junk)) (Some (12, sample_junk))
          (Some (13, sample_junk)) (Some (14, sample_junk)) (Some (15, sample_junk)) w.

Definition empty_state : state := State ∅ [].

(** The state in which [main] calls [MAKE_RULE], and the one after it. *)
Definition before_assembly : state :=
  default empty_state
    (final (main_setup 2 sample_frame (sample_answers (World None 0 None)) empty_state)).

Definition assembled : state :=
  default empty_state
    (final (MAKE_RULE 15 10 11 3 13 (lit "out") before_assembly)).

Definition example_rule : build_rule_t :=
  BuildRule 3 13 10 (strncpy (memset (junk_buf sample_junk) NUL 1) (lit "out") CC_CAPACITY).

Definition example_compiler : compiler_t :=
  CompilerT (strncpy (memset (junk_buf sample_junk) NUL 1) (lit "gcc") CC_CAPACITY) 11.

Definition example_flags : list (Z * item) :=
  [(11, Item (node_name sample_junk (lit "-Wall")) 12);
   (12, Item (node_name sample_junk (lit "-Wextra")) NULL)].

Definition example_deps : list (Z * item) :=
  [(13, Item (node_name sample_junk (lit "test/foo.c")) 14);
   (14, Item (node_name sample_junk (lit "test/bar.c")) NULL)].

(** The heap after [MAKE_RULE] has assembled the rule [r] at [__rule] with
    the compiler [c] at [__compiler]. *)
Definition assembly (h : gmap Z cell)
    (__rule __compiler __flags __target __dependencies : pointer)
    (out : list ascii) (r : build_rule_t) (c : compiler_t) : gmap Z cell :=
  <[__rule := Rule (BuildRule __target __dependencies __compiler
                              (strncpy (output r) out CC_CAPACITY))]>
    (<[__compiler := Compiler (CompilerT (cmd c) __flags)]> h).


(** The rule of example.c assembled with the empty flag list of a head
    variable at address 4 in place of the list at address 1. *)
Definition assembled_without_flags : state :=
  default empty_state
    (final ((put 4 (PtrVar NULL) ;;;
             MAKE_RULE 15 10 NULL 3 13 (lit "out")) before_assembly)).

(** A string without NUL inside. *)
Definition nul_free (s : list ascii) : Prop := strlen s = length s.

(** ** The diagnostic mode of [BUILD]

    With [DEBUG] defined, [BUILD] composes the command line in a local
    array of 1024 characters and prints it before it calls [__build] (lines
    320-347).  The array is kept as the string it holds; a write that would
    not fit the array, and a read that would leave the array read from, are
    undefined.  What the call prints is returned with its result. *)

Definition COMMAND_SIZE : nat := 1024.

(** A string literal as the array it is: its characters and the terminator. *)
Definition literal (s : string) : list ascii := lit s ++ [NUL].

Definition LF : ascii := "010"%char.

(** [sizeof(command) - strlen(command) - 1], computed in [size_t]. *)
Definition room (command : list ascii) : Z :=
  (Z.of_nat COMMAND_SIZE - Z.of_nat (strlen command) - 1) mod 2 ^ 64.

(** [snprintf(command, sizeof(command), "%s ", arg)]: [arg] is read to its
    terminator, and at most [sizeof(command) - 1] characters are stored. *)
Definition snprintf_s_space (arg : list ascii) : M (list ascii) :=
  if terminated arg
  then ret (firstn (COMMAND_SIZE - 1) (c_str arg ++ lit " "))
  else fault.

(** [strncat(command, src, n)]: at most [n] characters of [src], up to its
    terminator, are put behind the string in [command], and a terminator
    behind them. *)
Definition strncat (command src : list ascii) (n : Z) : M (list ascii) :=
  if decide (terminated src = true \/ n <= Z.of_nat (length src))
  then
    let d := command ++ firstn (Z.to_nat n) (c_str src) in
    if decide (length d < COMMAND_SIZE)%nat then ret d else fault
  else fault.

(** The two loops of the block: name and a space for every node. *)
Fixpoint DEBUG_loop (T : TYPE) (fuel : nat) (p : pointer) (command : list ascii)
    : M (list ascii) :=
  if decide (p = NULL) then ret command
  else match fuel with
       | O => timeout
       | S fuel' =>
           n <- load_item T p ;;
           command <- strncat command (name n) (room command) ;;
           command <- strncat command (literal " ") (room command) ;;
           DEBUG_loop T fuel' (__next n) command
       end.

(** Lines 321-344: the string that line 346 prints. *)
Definition DEBUG_command (fuel : nat) (rule : pointer) : M (list ascii) :=
  r <- load_rule rule ;;
  c <- load_compiler (cc r) ;;
  command <- snprintf_s_space (cmd c) ;;
  r <- load_rule rule ;;
  c <- load_compiler (cc r) ;;
  command <- DEBUG_loop flag_t fuel (flags c) command ;;
  command <- strncat command (literal "-o ") (room command) ;;
  r <- load_rule rule ;;
  command <- strncat command (output r) (room command) ;;
  command <- strncat command (literal " ") (room command) ;;
  r <- load_rule rule ;;
  tn <- load_item object_t (target r) ;;
  command <- strncat command (name tn) (room command) ;;
  r <- load_rule rule ;;
  command <- DEBUG_loop object_t fuel (dependencies r) command ;;
  ret command.

(** [BUILD] with [DEBUG]: the text printed, and the result. *)
Definition BUILD_DEBUG (fuel : nat) (w : world) (rule : pointer)
    : M (list ascii * Z) :=
  if decide (rule = NULL) then ret ([], -1)
  else
    r <- load_rule rule ;;
    if decide (cc r = NULL \/ target r = NULL \/ dependencies r = NULL)
    then ret ([], -1)
    else
      command <- DEBUG_command fuel rule ;;
      v <- __build fuel w rule ;;
      ret (command ++ [LF], v).

(** The command line in full: a space behind the compiler, behind every
    flag, behind ["-o"], behind the output and behind every dependency -
    and none behind the target. *)
Definition debug_text (compiler : list ascii) (fl : list (list ascii))
    (out tgt : list ascii) (dl : list (list ascii)) : list ascii :=
  compiler ++ lit " " ++ concat (map (fun x => x ++ lit " ") fl)
  ++ lit "-o " ++ out ++ lit " " ++ tgt ++ concat (map (fun x => x ++ lit " ") dl).

(** A set of nodes of type [T] that the [__next] links never leave: a list
    that runs into it has a cycle and no end. *)
Definition endless (T : TYPE) (h : gmap Z cell) (S : Z -> Prop) : Prop :=
  forall q, S q -> q <> NULL /\ exists n, h !! q = Some (Node T n) /\ S (__next n).

(** A flag list of one node whose [__next] is the node itself. *)
Definition looping_flag : state :=
  State {[ 1 := PtrVar 11;
           11 := Node flag_t (Item (node_name sample_junk (lit "-Wall")) 11) ]} [].

(** * Properties *)

(** ** Strings and buffers *)

Lemma strlen_le_length (s : list ascii) : (strlen s <= length s)%nat.
Proof.
  induction s as [|c s IH]; simpl; [lia|].
  destruct (Ascii.eqb c NUL); lia.
Qed.

Lemma strlen_c_str_app (s r : list ascii) :
  strlen (c_str s ++ NUL :: r) = strlen s.
Proof.
  unfold c_str. induction s as [|c s IH]; simpl; [reflexivity|].
  destruct (Ascii.eqb c NUL) eqn:E; simpl; [reflexivity|].
  rewrite E. f_equal. exact IH.
Qed.

Lemma c_str_app_nul (s r : list ascii) :
  c_str (c_str s ++ NUL :: r) = c_str s.
Proof.
  unfold c_str at 1. rewrite strlen_c_str_app.
  assert (H : length (c_str s) = strlen s).
  { unfold c_str. rewrite length_firstn. pose proof (strlen_le_length s). lia. }
  rewrite <- H at 1. rewrite firstn_app, Nat.sub_diag, firstn_all. simpl.
  apply app_nil_r.
Qed.

Lemma length_c_str (s : list ascii) : length (c_str s) = strlen s.
Proof.
  unfold c_str. rewrite length_firstn. pose proof (strlen_le_length s). lia.
Qed.

Lemma c_str_idemp (s : list ascii) : c_str (c_str s) = c_str s.
Proof.
  unfold c_str. induction s as [|c s IH]; simpl; [reflexivity|].
  destruct (Ascii.eqb c NUL) eqn:E; simpl; [reflexivity|].
  rewrite E. simpl. f_equal. exact IH.
Qed.

Lemma strlen_c_str (s : list ascii) : strlen (c_str s) = strlen s.
Proof.
  unfold c_str. induction s as [|c s IH]; simpl; [reflexivity|].
  destruct (Ascii.eqb c NUL) eqn:E; simpl; [reflexivity|].
  rewrite E. f_equal. exact IH.
Qed.

(** A string without NUL, followed by anything: [strlen] when the string
    fills the array. *)
Lemma strlen_no_nul_app (s r : list ascii) :
  strlen s = length s -> strlen (s ++ r) = (length s + strlen r)%nat.
Proof.
  induction s as [|c s IH]; simpl; [reflexivity|].
  destruct (Ascii.eqb c NUL) eqn:E; [discriminate|].
  intros H. f_equal. apply IH. lia.
Qed.

Lemma strlen_firstn_c_str (s : list ascii) (n : nat) :
  strlen (firstn n (c_str s)) = length (firstn n (c_str s)).
Proof.
  unfold c_str. revert n. induction s as [|c s IH]; intros n; simpl.
  - destruct n; reflexivity.
  - destruct (Ascii.eqb c NUL) eqn:E; simpl.
    + destruct n; reflexivity.
    + destruct n; simpl; [reflexivity|]. rewrite E. f_equal. apply IH.
Qed.

Lemma DEFAULT_CAPACITY_eq : DEFAULT_CAPACITY = 120%nat.
Proof. reflexivity. Qed.

Lemma length_junk_buf (j : junk) : length (junk_buf j) = DEFAULT_CAPACITY.
Proof. unfold junk_buf. rewrite length_map, length_seq. reflexivity. Qed.

Lemma node_name_eq (j : junk) (src : list ascii) :
  (strlen src < DEFAULT_CAPACITY)%nat ->
  node_name j src = c_str src ++ NUL :: skipn (S (strlen src)) (junk_buf j).
Proof.
  intros Hlen. unfold node_name, memcpy. fold (c_str src).
  pose proof (length_c_str src) as Hc. pose proof (length_junk_buf j) as Hj.
  replace (<[strlen src := NUL]> (c_str src ++ skipn (strlen src) (junk_buf j)))
    with (<[(length (c_str src) + 0)%nat := NUL]>
            (c_str src ++ skipn (strlen src) (junk_buf j)))
    by (f_equal; lia).
  rewrite insert_app_r. f_equal.
  assert (Hs : length (skipn (strlen src) (junk_buf j))
               = (DEFAULT_CAPACITY - strlen src)%nat)
    by (rewrite length_skipn, Hj; reflexivity).
  destruct (skipn (strlen src) (junk_buf j)) as [|x rest] eqn:E.
  - simpl in Hs. lia.
  - simpl. f_equal.
    transitivity (skipn 1 (skipn (strlen src) (junk_buf j))).
    + rewrite E. reflexivity.
    + rewrite skipn_skipn. reflexivity.
Qed.

Lemma c_str_node_name (j : junk) (src : list ascii) :
  (strlen src < DEFAULT_CAPACITY)%nat -> c_str (node_name j src) = c_str src.
Proof. intros H. rewrite node_name_eq by exact H. apply c_str_app_nul. Qed.

Lemma length_node_name (j : junk) (src : list ascii) :
  (strlen src < DEFAULT_CAPACITY)%nat ->
  length (node_name j src) = DEFAULT_CAPACITY.
Proof.
  intros Hlen. unfold node_name, memcpy.
  rewrite length_insert, length_app, length_firstn, length_skipn.
  pose proof (strlen_le_length src). rewrite length_junk_buf. lia.
Qed.

Lemma terminated_node_name (j : junk) (src : list ascii) :
  (strlen src < DEFAULT_CAPACITY)%nat -> terminated (node_name j src) = true.
Proof.
  intros H. unfold terminated. rewrite length_node_name by exact H.
  rewrite node_name_eq by exact H. rewrite strlen_c_str_app.
  apply Nat.ltb_lt. exact H.
Qed.

(** ** Running the memory operations *)

Lemma state_eta (s : state) : State (heap s) (trace s) = s.
Proof. destruct s; reflexivity. Qed.

Lemma bind_Ok {A B} (m : M A) (f : A -> M B) (s s' : state) (a : A) :
  m s = Ok a s' -> bind m f s = f a s'.
Proof. intros H. unfold bind. rewrite H. reflexivity. Qed.

Lemma load_item_Some (T : TYPE) (p : pointer) (n : item) (s : state) :
  heap s !! p = Some (Node T n) -> load_item T p s = Ok n s.
Proof. intros H. unfold load_item. rewrite H. rewrite decide_True by reflexivity. reflexivity. Qed.

Lemma load_compiler_Some (p : pointer) (c : compiler_t) (s : state) :
  heap s !! p = Some (Compiler c) -> load_compiler p s = Ok c s.
Proof. intros H. unfold load_compiler. rewrite H. reflexivity. Qed.

Lemma load_rule_Some (p : pointer) (r : build_rule_t) (s : state) :
  heap s !! p = Some (Rule r) -> load_rule p s = Ok r s.
Proof. intros H. unfold load_rule. rewrite H. reflexivity. Qed.

Lemma load_var_Some (p q : pointer) (s : state) :
  heap s !! p = Some (PtrVar q) -> load_var p s = Ok q s.
Proof. intros H. unfold load_var. rewrite H. reflexivity. Qed.

Lemma load_argv_Some (p : pointer) (l : list charp) (s : state) :
  heap s !! p = Some (Argv l) -> load_argv p s = Ok l s.
Proof. intros H. unfold load_argv. rewrite H. reflexivity. Qed.

Lemma store_item_Some (T : TYPE) (p : pointer) (n n' : item) (s : state) :
  heap s !! p = Some (Node T n) ->
  store_item T p n' s = Ok tt (State (<[p := Node T n']> (heap s)) (trace s)).
Proof.
  intros H. unfold store_item. rewrite (bind_Ok _ _ _ _ _ (load_item_Some _ _ _ _ H)).
  reflexivity.
Qed.

Lemma store_compiler_Some (p : pointer) (c c' : compiler_t) (s : state) :
  heap s !! p = Some (Compiler c) ->
  store_compiler p c' s = Ok tt (State (<[p := Compiler c']> (heap s)) (trace s)).
Proof.
  intros H. unfold store_compiler.
  rewrite (bind_Ok _ _ _ _ _ (load_compiler_Some _ _ _ H)). reflexivity.
Qed.

Lemma store_rule_Some (p : pointer) (r r' : build_rule_t) (s : state) :
  heap s !! p = Some (Rule r) ->
  store_rule p r' s = Ok tt (State (<[p := Rule r']> (heap s)) (trace s)).
Proof.
  intros H. unfold store_rule.
  rewrite (bind_Ok _ _ _ _ _ (load_rule_Some _ _ _ H)). reflexivity.
Qed.

Lemma store_var_Some (p q q' : pointer) (s : state) :
  heap s !! p = Some (PtrVar q) ->
  store_var p q' s = Ok tt (State (<[p := PtrVar q']> (heap s)) (trace s)).
Proof.
  intros H. unfold store_var.
  rewrite (bind_Ok _ _ _ _ _ (load_var_Some _ _ _ H)). reflexivity.
Qed.

Lemma store_slot_Some (p : pointer) (i : Z) (v : charp) (l : list charp) (s : state) :
  heap s !! p = Some (Argv l) ->
  0 <= i < Z.of_nat (length l) ->
  store_slot p i v s
  = Ok tt (State (<[p := Argv (<[Z.to_nat i := v]> l)]> (heap s)) (trace s)).
Proof.
  intros H Hi. unfold store_slot.
  rewrite (bind_Ok _ _ _ _ _ (load_argv_Some _ _ _ H)).
  rewrite decide_True by exact Hi. reflexivity.
Qed.

Lemma int_add_ok (x y : Z) (s : state) :
  x + y <= INT_MAX -> int_add x y s = Ok (x + y) s.
Proof. intros H. unfold int_add. rewrite decide_True by exact H. reflexivity. Qed.

(** ** The allocation function *)

(** A name that fits and memory at hand: the node is filled and returned. *)
Lemma alloc_success (T : TYPE) (p : pointer) (j : junk) (copy : item)
    (h : gmap Z cell) (t : list event) :
  p <> NULL ->
  (strlen (name copy) < DEFAULT_CAPACITY)%nat ->
  __TYPE_alloc T (Some (p, j)) copy (State h t)
  = Ok p (State (<[p := Node T (Item (node_name j (name copy)) NULL)]> h) t).
Proof.
  intros Hp Hlen. pose proof DEFAULT_CAPACITY_eq as Hcap.
  assert (E : DEFINE_ALLOC_FN T DEFAULT_CAPACITY (Some (p, j)) copy (State h t)
              = Ok p (State (<[p := Node T (Item (node_name j (name copy)) NULL)]> h) t)).
  { unfold DEFINE_ALLOC_FN, malloc.
    unfold bind at 1. unfold bind at 1. simpl.
    rewrite decide_False by exact Hp.
    rewrite decide_False by lia.
    erewrite bind_Ok by (apply load_item_Some; simpl; apply lookup_insert_eq).
    erewrite bind_Ok by (eapply store_item_Some; simpl; apply lookup_insert_eq).
    erewrite bind_Ok by (apply load_item_Some; simpl; apply lookup_insert_eq).
    simpl. unfold poke.
    rewrite decide_True.
    2:{ unfold memcpy. rewrite length_app, length_firstn, length_skipn, length_junk_buf.
        pose proof (strlen_le_length (name copy)). lia. }
    unfold bind at 1. unfold ret at 1.
    erewrite bind_Ok by (eapply store_item_Some; simpl; apply lookup_insert_eq).
    erewrite bind_Ok by (apply load_item_Some; simpl; apply lookup_insert_eq).
    erewrite bind_Ok by (eapply store_item_Some; simpl; apply lookup_insert_eq).
    simpl. unfold ret. rewrite !insert_insert_eq. reflexivity. }
  destruct T; exact E.
Qed.

(** No memory: NULL, and nothing has changed. *)
Lemma alloc_no_memory (T : TYPE) (copy : item) (s : state) :
  __TYPE_alloc T None copy s = Ok NULL s.
Proof. destruct T; reflexivity. Qed.

(** A name that does not fit: the fresh block is given back, NULL is
    returned, and the heap is what it was. *)
Lemma alloc_too_long (T : TYPE) (p : pointer) (j : junk) (copy : item) (s : state) :
  valid_malloc s (Some (p, j)) ->
  (DEFAULT_CAPACITY <= strlen (name copy))%nat ->
  __TYPE_alloc T (Some (p, j)) copy s = Ok NULL s.
Proof.
  intros [Hp Hfresh] Hlen. pose proof DEFAULT_CAPACITY_eq as Hcap.
  assert (E : DEFINE_ALLOC_FN T DEFAULT_CAPACITY (Some (p, j)) copy s = Ok NULL s).
  { unfold DEFINE_ALLOC_FN, malloc.
    unfold bind at 1. unfold bind at 1. simpl.
    rewrite decide_False by exact Hp.
    rewrite decide_True by lia.
    unfold bind, free. simpl.
    rewrite decide_False by exact Hp.
    rewrite lookup_insert_eq. unfold ret.
    rewrite delete_insert_eq, delete_id by exact Hfresh.
    rewrite state_eta. reflexivity. }
  destruct T; exact E.
Qed.

(** ** Lists in the heap *)

Section Lists.
Variable T : TYPE.

Lemma is_list_nil (h : gmap Z cell) (p : pointer) :
  is_list T h p [] <-> p = NULL.
Proof. reflexivity. Qed.

Lemma is_list_null (h : gmap Z cell) (l : list (Z * item)) :
  is_list T h NULL l -> l = [].
Proof. destruct l as [|[q n] l]; [reflexivity|]. simpl. intros (-> & Hq & _). congruence. Qed.

(** A heap list is determined by its head. *)
Lemma is_list_unique (h : gmap Z cell) (p : pointer) (l1 l2 : list (Z * item)) :
  is_list T h p l1 -> is_list T h p l2 -> l1 = l2.
Proof.
  revert p l2. induction l1 as [|[q n] l1 IH]; intros p [|[q' n'] l2]; simpl.
  - reflexivity.
  - intros -> (<- & Hq & _). congruence.
  - intros (<- & Hq & _) ->. congruence.
  - intros (<- & Hq & Hn & Hl) (<- & _ & Hn' & Hl').
    rewrite Hn in Hn'. injection Hn' as <-. f_equal. eapply IH; eassumption.
Qed.

(** Every node of a list is a cell of the heap. *)
Lemma is_list_lookup (h : gmap Z cell) (p : pointer) (l : list (Z * item))
    (q : Z) (n : item) :
  is_list T h p l -> (q, n) ∈ l -> q <> NULL /\ h !! q = Some (Node T n).
Proof.
  revert p. induction l as [|[q' n'] l IH]; intros p; simpl.
  - intros _ Hin. inversion Hin.
  - intros (<- & Hq & Hn & Hl) Hin. apply elem_of_cons in Hin as [Heq|Hin].
    + injection Heq as -> ->. split; assumption.
    + eapply IH; eassumption.
Qed.

(** Writing a cell that is no node of the list leaves the list alone. *)
Lemma is_list_insert (h : gmap Z cell) (p : pointer) (l : list (Z * item))
    (a : Z) (c : cell) :
  is_list T h p l -> a ∉ l.*1 -> is_list T (<[a := c]> h) p l.
Proof.
  revert p. induction l as [|[q n] l IH]; intros p; simpl; [tauto|].
  intros (<- & Hq & Hn & Hl) Hnotin.
  apply not_elem_of_cons in Hnotin as [Hne Hnotin].
  repeat split; try assumption.
  - rewrite lookup_insert_ne by congruence. exact Hn.
  - apply IH; assumption.
Qed.

(** An address that holds no node of type [T] is on no list. *)
Lemma is_list_not_elem (h : gmap Z cell) (p : pointer) (l : list (Z * item)) (a : Z) :
  is_list T h p l -> (forall n, h !! a <> Some (Node T n)) -> a ∉ l.*1.
Proof.
  intros Hl Ha Hin. apply list_elem_of_fmap in Hin as ([q n] & -> & Hin).
  destruct (is_list_lookup _ _ _ _ _ Hl Hin) as [_ Hq]. exact (Ha _ Hq).
Qed.

Lemma is_list_fresh (h : gmap Z cell) (p : pointer) (l : list (Z * item)) (a : Z) :
  is_list T h p l -> h !! a = None -> a ∉ l.*1.
Proof. intros Hl Ha. eapply is_list_not_elem; [exact Hl|]. intros n. rewrite Ha. discriminate. Qed.

(** The loop of [LIST_PUSH_BACK] stops at the last node. *)
Lemma LIST_PUSH_BACK_loop_last (fuel : nat) (s : state) (l : list (Z * item))
    (p prev : pointer) :
  is_list T (heap s) p l -> (length l <= fuel)%nat ->
  LIST_PUSH_BACK_loop T fuel p prev s = Ok (List.last l.*1 prev) s.
Proof.
  revert p prev fuel. induction l as [|[q n] l IH]; intros p prev fuel; simpl.
  - intros -> _. destruct fuel; reflexivity.
  - intros (<- & Hq & Hn & Hl) Hfuel.
    destruct fuel as [|fuel]; [lia|]. simpl.
    rewrite decide_False by exact Hq.
    rewrite (bind_Ok _ _ _ _ _ (load_item_Some _ _ _ _ Hn)).
    rewrite (IH _ p fuel Hl) by lia.
    f_equal. destruct l as [|[q' n'] l]; [reflexivity|]. simpl.
    clear. revert q'. induction l as [|[q'' n''] l IH]; intros q'; [reflexivity|].
    simpl. apply IH.
Qed.

(** The iteration reads the names of the list in order. *)
Lemma iterate_is_list (fuel : nat) (s : state) (l : list (Z * item)) (p : pointer) :
  is_list T (heap s) p l -> (length l <= fuel)%nat ->
  iterate T fuel p s = Ok (map (fun x => c_str (name x.2)) l) s.
Proof.
  revert p fuel. induction l as [|[q n] l IH]; intros p fuel; simpl.
  - intros -> _. destruct fuel; reflexivity.
  - intros (<- & Hq & Hn & Hl) Hfuel.
    destruct fuel as [|fuel]; [lia|]. simpl.
    rewrite decide_False by exact Hq.
    rewrite (bind_Ok _ _ _ _ _ (load_item_Some _ _ _ _ Hn)).
    rewrite (bind_Ok _ _ _ _ _ (IH _ fuel Hl ltac:(lia))).
    reflexivity.
Qed.
End Lists.

(** ** Appending *)

Lemma link_tail_addresses (l : list (Z * item)) (p : pointer) :
  (link_tail l p).*1 = l.*1.
Proof.
  induction l as [|[q n] l IH]; [reflexivity|].
  destruct l as [|x l]; [reflexivity|].
  change ((q :: (link_tail (x :: l) p).*1) = q :: (x :: l).*1). rewrite IH. reflexivity.
Qed.

Lemma link_tail_names (l : list (Z * item)) (p : pointer) :
  map (fun x => name x.2) (link_tail l p) = map (fun x => name x.2) l.
Proof.
  induction l as [|[q n] l IH]; [reflexivity|].
  destruct l as [|x l]; [reflexivity|].
  change (name n :: map (fun x => name x.2) (link_tail (x :: l) p)
          = name n :: map (fun x => name x.2) (x :: l)).
  rewrite IH. reflexivity.
Qed.

(** All nodes but the last are the very same after the link. *)
Lemma link_tail_front (l : list (Z * item)) (x : Z * item) (p : pointer) :
  link_tail (l ++ [x]) p = l ++ [(x.1, Item (name x.2) p)].
Proof.
  induction l as [|[q n] l IH]; [destruct x; reflexivity|].
  simpl. destruct (l ++ [x]) eqn:E.
  - destruct l; discriminate.
  - rewrite <- E, <- IH. rewrite E. reflexivity.
Qed.

Section Append.
Variable T : TYPE.

Lemma is_list_last (h : gmap Z cell) (hd : pointer) (l : list (Z * item))
    (q : Z) (nq : item) :
  is_list T h hd l -> last l = Some (q, nq) ->
  q <> NULL /\ h !! q = Some (Node T nq) /\ __next nq = NULL.
Proof.
  revert hd. induction l as [|[a na] l IH]; intros hd; [discriminate|].
  destruct l as [|x l].
  - simpl. intros (<- & Ha & Hn & Hnil) [= <- <-]. auto.
  - intros (<- & Ha & Hn & Hl) Hlast. exact (IH _ Hl Hlast).
Qed.

Lemma last_address (l : list (Z * item)) (q : Z) (nq : item) (d : Z) :
  last l = Some (q, nq) -> List.last l.*1 d = q.
Proof.
  induction l as [|[a na] l IH]; [discriminate|].
  destruct l as [|x l].
  - intros [= <- <-]. reflexivity.
  - intros Hlast. specialize (IH Hlast). exact IH.
Qed.

Lemma is_list_link (h : gmap Z cell) (hd : pointer) (l : list (Z * item))
    (q : Z) (nq : item) (p : pointer) (new : item) :
  is_list T h hd l -> last l = Some (q, nq) ->
  p <> NULL -> h !! p = None -> __next new = NULL ->
  is_list T (<[q := Node T (Item (name nq) p)]> (<[p := Node T new]> h)) hd
          (link_tail l p ++ [(p, new)]).
Proof.
  intros Hl Hlast Hp Hfresh Hnew.
  destruct (is_list_last _ _ _ _ _ Hl Hlast) as (Hq & Hhq & Hnq).
  assert (Hpq : p <> q) by (intros ->; congruence).
  revert hd Hl Hlast. induction l as [|[a na] l IH]; intros hd Hl Hlast; [discriminate|].
  destruct l as [|x l].
  - simpl in Hl, Hlast. destruct Hl as (<- & Ha & Hn & _). injection Hlast as <- <-.
    simpl. repeat split; try assumption.
    + apply lookup_insert_eq.
    + rewrite lookup_insert_ne by congruence. apply lookup_insert_eq.
  - destruct Hl as (<- & Ha & Hn & Hl).
    change (is_list T (<[q := Node T (Item (name nq) p)]> (<[p := Node T new]> h)) hd
              ((hd, na) :: (link_tail (x :: l) p ++ [(p, new)]))).
    assert (Hne : hd <> q).
    { intros ->. rewrite Hhq in Hn. injection Hn as <-.
      destruct x as [b nb]. destruct Hl as (Hb & Hb' & _). congruence. }
    simpl. repeat split; try assumption.
    + rewrite lookup_insert_ne by congruence.
      rewrite lookup_insert_ne by (intros ->; congruence). exact Hn.
    + apply IH; assumption.
Qed.

(** A successful append: the name fits and [malloc] hands out a block. *)
Lemma LIST_PUSH_BACK_success (fuel : nat) (p : pointer) (j : junk)
    (HEAD : pointer) (OBJECT : item) (h : gmap Z cell) (t : list event)
    (hd : pointer) (l : list (Z * item)) :
  h !! HEAD = Some (PtrVar hd) ->
  is_list T h hd l -> (length l <= fuel)%nat ->
  valid_malloc (State h t) (Some (p, j)) ->
  (strlen (name OBJECT) < DEFAULT_CAPACITY)%nat ->
  LIST_PUSH_BACK T fuel (Some (p, j)) HEAD OBJECT (State h t)
  = Ok tt (State (pushed T h HEAD l p (Item (node_name j (name OBJECT)) NULL)) t).
Proof.
  intros HH Hl Hfuel [Hp Hfresh] Hlen. simpl in Hfresh.
  unfold LIST_PUSH_BACK, pushed.
  rewrite (bind_Ok _ _ _ _ _ (load_var_Some _ _ (State h t) HH)).
  rewrite (bind_Ok _ _ _ _ _ (LIST_PUSH_BACK_loop_last T fuel (State h t) l hd NULL Hl Hfuel)).
  destruct (last l) as [[q nq]|] eqn:Hlast.
  - destruct (is_list_last _ _ _ _ _ Hl Hlast) as (Hq & Hhq & Hnq).
    rewrite (last_address _ _ _ _ Hlast).
    rewrite decide_False by exact Hq.
    rewrite (bind_Ok _ _ _ _ _ (alloc_success T p j OBJECT h t Hp Hlen)).
    assert (Hpq : p <> q) by (intros ->; congruence).
    erewrite bind_Ok
      by (apply load_item_Some; simpl; rewrite lookup_insert_ne by exact Hpq; exact Hhq).
    erewrite store_item_Some
      by (simpl; rewrite lookup_insert_ne by exact Hpq; exact Hhq).
    reflexivity.
  - apply last_None in Hlast. subst l. simpl in Hl. subst hd. simpl.
    rewrite (bind_Ok _ _ _ _ _ (alloc_success T p j OBJECT h t Hp Hlen)).
    erewrite store_var_Some
      by (simpl; rewrite lookup_insert_ne by (intros ->; congruence); exact HH).
    reflexivity.
Qed.

(** After it the head variable leads to the old nodes, relinked, and then
    to the new one. *)
Lemma pushed_is_list (h : gmap Z cell) (HEAD hd : pointer) (l : list (Z * item))
    (p : pointer) (new : item) :
  h !! HEAD = Some (PtrVar hd) -> is_list T h hd l ->
  p <> NULL -> h !! p = None -> __next new = NULL ->
  exists hd',
    pushed T h HEAD l p new !! HEAD = Some (PtrVar hd') /\
    is_list T (pushed T h HEAD l p new) hd' (link_tail l p ++ [(p, new)]).
Proof.
  intros HH Hl Hp Hfresh Hnew. unfold pushed.
  destruct (last l) as [[q nq]|] eqn:Hlast.
  - exists hd. destruct (is_list_last _ _ _ _ _ Hl Hlast) as (Hq & Hhq & Hnq). split.
    + rewrite lookup_insert_ne by (intros ->; congruence).
      rewrite lookup_insert_ne by (intros ->; congruence). exact HH.
    + apply is_list_link; assumption.
  - apply last_None in Hlast. subst l. exists p. split.
    + apply lookup_insert_eq.
    + simpl. repeat split; try assumption.
      rewrite lookup_insert_ne by (intros ->; congruence). apply lookup_insert_eq.
Qed.

(** A failed append - no memory, or a name of [DEFAULT_CAPACITY] characters
    or more - changes nothing at all. *)
Lemma LIST_PUSH_BACK_failure (fuel : nat) (m : malloc_result)
    (HEAD : pointer) (OBJECT : item) (s : state)
    (hd : pointer) (l : list (Z * item)) :
  heap s !! HEAD = Some (PtrVar hd) ->
  is_list T (heap s) hd l -> (length l <= fuel)%nat ->
  valid_malloc s m ->
  m = None \/ (DEFAULT_CAPACITY <= strlen (name OBJECT))%nat ->
  LIST_PUSH_BACK T fuel m HEAD OBJECT s = Ok tt s.
Proof.
  intros HH Hl Hfuel Hvalid Hfail.
  assert (Halloc : __TYPE_alloc T m OBJECT s = Ok NULL s).
  { destruct m as [[p j]|]; [|apply alloc_no_memory].
    destruct Hfail as [Hnone|Hlong]; [discriminate|].
    apply alloc_too_long; assumption. }
  unfold LIST_PUSH_BACK.
  rewrite (bind_Ok _ _ _ _ _ (load_var_Some _ _ _ HH)).
  rewrite (bind_Ok _ _ _ _ _ (LIST_PUSH_BACK_loop_last T fuel _ l hd NULL Hl Hfuel)).
  destruct (last l) as [[q nq]|] eqn:Hlast.
  - destruct (is_list_last _ _ _ _ _ Hl Hlast) as (Hq & Hhq & Hnq).
    rewrite (last_address _ _ _ _ Hlast).
    rewrite decide_False by exact Hq.
    rewrite (bind_Ok _ _ _ _ _ Halloc).
    rewrite (bind_Ok _ _ _ _ _ (load_item_Some _ _ _ _ Hhq)).
    rewrite (store_item_Some _ _ _ _ _ Hhq).
    rewrite <- Hnq. replace (Item (name nq) (__next nq)) with nq by (destruct nq; reflexivity).
    rewrite insert_id by exact Hhq. rewrite state_eta. reflexivity.
  - apply last_None in Hlast. subst l. simpl in Hl. subst hd. simpl.
    rewrite (bind_Ok _ _ _ _ _ Halloc).
    rewrite (store_var_Some _ _ _ _ HH).
    rewrite insert_id by exact HH. rewrite state_eta. reflexivity.
Qed.
End Append.

Lemma ADD_eq (T : TYPE) : ADD T = LIST_PUSH_BACK T.
Proof. destruct T; reflexivity. Qed.

Lemma link_tail_c_names (l : list (Z * item)) (p : pointer) :
  c_names (link_tail l p) = c_names l.
Proof.
  unfold c_names. pose proof (link_tail_names l p) as H.
  apply (f_equal (map c_str)) in H. rewrite !map_map in H. exact H.
Qed.

Lemma link_tail_length (l : list (Z * item)) (p : pointer) :
  length (link_tail l p) = length l.
Proof.
  pose proof (f_equal (@length Z) (link_tail_addresses l p)) as H.
  rewrite !length_fmap in H. exact H.
Qed.

Section Appends.
Variable T : TYPE.

Lemma pushed_lookup_other (h : gmap Z cell) (HEAD hd : pointer)
    (l : list (Z * item)) (p : pointer) (new : item) (a : Z) :
  h !! HEAD = Some (PtrVar hd) -> is_list T h hd l ->
  h !! a = None -> a <> p -> pushed T h HEAD l p new !! a = None.
Proof.
  intros HH Hl Ha Hap. unfold pushed.
  destruct (last l) as [[q nq]|] eqn:Hlast.
  - destruct (is_list_last _ _ _ _ _ _ Hl Hlast) as (Hq & Hhq & Hnq).
    rewrite lookup_insert_ne by (intros ->; congruence).
    rewrite lookup_insert_ne by congruence. exact Ha.
  - rewrite lookup_insert_ne by (intros ->; congruence).
    rewrite lookup_insert_ne by congruence. exact Ha.
Qed.

Lemma pushed_lookup_old (h : gmap Z cell) (HEAD : pointer)
    (l : list (Z * item)) (p : pointer) (new : item) (a : Z) :
  a <> HEAD -> a <> p -> last l.*1 <> Some a ->
  pushed T h HEAD l p new !! a = h !! a.
Proof.
  intros HaH Hap Hlast. unfold pushed. rewrite fmap_last in Hlast.
  destruct (last l) as [[q nq]|].
  - rewrite lookup_insert_ne by (intros ->; apply Hlast; reflexivity).
    rewrite lookup_insert_ne by congruence. reflexivity.
  - rewrite lookup_insert_ne by congruence.
    rewrite lookup_insert_ne by congruence. reflexivity.
Qed.

(** Successful appends to a list [l]: the head variable then leads to a
    list whose addresses and names are those of [l], in order, followed
    by those of the appended items, in order; and no cell of the old heap
    was written but the head variable and the link of the old last node. *)
Lemma appends_run (fuel : nat) (HEAD : pointer) (t : list event)
    (calls : list (Z * junk * item)) :
  forall (h : gmap Z cell) (hd : pointer) (l : list (Z * item)),
    h !! HEAD = Some (PtrVar hd) -> is_list T h hd l ->
    (length l + length calls <= fuel)%nat ->
    Forall (succeeds h) calls -> NoDup calls.*1.*1 ->
    exists h' hd' l',
      appends T fuel HEAD (map call_of calls) (State h t) = Ok tt (State h' t) /\
      h' !! HEAD = Some (PtrVar hd') /\
      is_list T h' hd' l' /\
      l'.*1 = l.*1 ++ calls.*1.*1 /\
      map (fun x => name x.2) l'
      = map (fun x => name x.2) l ++ map (fun c => node_name c.1.2 (name c.2)) calls /\
      (forall a, is_Some (h !! a) -> a <> HEAD -> last l.*1 <> Some a ->
                 h' !! a = h !! a).
Proof.
  induction calls as [|[[p j] it] calls IH]; intros h hd l HH Hl Hfuel Hok Hnd.
  - exists h, hd, l. simpl. rewrite !app_nil_r. auto 10.
  - apply Forall_cons in Hok as [(Hp & Hfresh & Hlen) Hok]. simpl in Hp, Hfresh, Hlen.
    apply NoDup_cons in Hnd as [Hnotin Hnd]. simpl in Hfuel.
    set (new := Item (node_name j (name it)) NULL).
    destruct (pushed_is_list T h HEAD hd l p new HH Hl Hp Hfresh eq_refl)
      as (hd1 & HH1 & Hl1).
    destruct (IH (pushed T h HEAD l p new) hd1 (link_tail l p ++ [(p, new)]))
      as (h' & hd' & l' & Hrun & HH' & Hl' & Haddr & Hnames & Hold).
    + exact HH1.
    + exact Hl1.
    + rewrite length_app, link_tail_length. simpl. lia.
    + apply Forall_forall. intros [[p' j'] it'] Hin.
      rewrite Forall_forall in Hok. destruct (Hok _ Hin) as (Hp' & Hfresh' & Hlen').
      simpl in Hp', Hfresh', Hlen'. repeat split; try assumption. simpl.
      eapply pushed_lookup_other; try eassumption.
      intros ->. apply Hnotin.
      apply list_elem_of_fmap. exists (p, j'). split; [reflexivity|].
      apply list_elem_of_fmap. exists (p, j', it'). split; [reflexivity|exact Hin].
    + exact Hnd.
    + exists h', hd', l'. repeat split; try assumption.
      * simpl. rewrite ADD_eq.
        erewrite bind_Ok
          by (apply (LIST_PUSH_BACK_success T fuel p j HEAD it h t hd l);
                [exact HH|exact Hl|lia|split; assumption|exact Hlen]).
        exact Hrun.
      * rewrite Haddr, fmap_app, link_tail_addresses, <- app_assoc. reflexivity.
      * rewrite Hnames, map_app, link_tail_names, <- app_assoc. reflexivity.
      * intros a Ha HaH Hlast.
        assert (Hap : a <> p) by (intros ->; rewrite Hfresh in Ha; destruct Ha; discriminate).
        rewrite Hold.
        -- apply pushed_lookup_old; assumption.
        -- rewrite pushed_lookup_old by assumption. exact Ha.
        -- exact HaH.
        -- rewrite fmap_last, last_snoc. simpl. congruence.
Qed.
End Appends.

(** ** The claims about the lists *)

(** C4. An append that fails - [malloc] has no memory, or the name of the
    item has [DEFAULT_CAPACITY] = 120 characters or more - returns with the
    state it was called in: the head variable, every node of the list and
    every other cell are what they were, and the block that [malloc] handed
    out for a name too long has been given back.  Both [ADD_FLAG] and
    [ADD_OBJECT] are covered ([ADD T]). *)
Theorem append_failure_leaves_list_unchanged (T : TYPE) (fuel : nat)
    (m : malloc_result) (HEAD : pointer) (it : item) (s : state)
    (hd : pointer) (l : list (Z * item)) :
  heap s !! HEAD = Some (PtrVar hd) ->
  is_list T (heap s) hd l ->
  (length l <= fuel)%nat ->
  valid_malloc s m ->
  m = None \/ (DEFAULT_CAPACITY <= strlen (name it))%nat ->
  DEFAULT_CAPACITY = 120%nat /\
  ADD T fuel m HEAD it s = Ok tt s /\
  iterate T fuel hd s = Ok (c_names l) s.
Proof.
  intros HH Hl Hfuel Hvalid Hfail. split; [reflexivity|]. split.
  - rewrite ADD_eq. eapply LIST_PUSH_BACK_failure; eassumption.
  - apply iterate_is_list; assumption.
Qed.

Lemma append_failure_leaves_list_unchanged_witness :
  ADD flag_t 1 (Some (12, sample_junk)) 1 (FLAG long_name) one_flag = Ok tt one_flag /\
  ADD flag_t 1 None 1 (FLAG (lit "-O2")) one_flag = Ok tt one_flag.
Proof.
  split.
  - apply (append_failure_leaves_list_unchanged flag_t 1 (Some (12, sample_junk)) 1
             (FLAG long_name) one_flag 11
             [(11, Item (node_name sample_junk (lit "-Wall")) NULL)]).
    + reflexivity.
    + simpl. repeat split; unfold NULL; lia.
    + simpl. lia.
    + split; [unfold NULL; lia | reflexivity].
    + right. vm_compute. lia.
  - apply (append_failure_leaves_list_unchanged flag_t 1 None 1
             (FLAG (lit "-O2")) one_flag 11
             [(11, Item (node_name sample_junk (lit "-Wall")) NULL)]).
    + reflexivity.
    + simpl. repeat split; unfold NULL; lia.
    + simpl. lia.
    + exact I.
    + left. reflexivity.
Defined.

(** C5. Successful appends keep the order.  Let the head variable lead to
    a list [l] (the empty list when it holds NULL) and let every call of
    [calls] succeed.  Then the calls return, and the head variable leads to
    a list that consists of the nodes of [l], at their addresses, with their
    names, in their order, followed by exactly one new node for each call,
    in the order of the calls, each holding the name appended; the
    iteration over it reads the old names and then the appended names.  No
    cell of the old heap was written except the head variable and the link
    of the last node of [l]. *)
Theorem appends_keep_order (T : TYPE) (fuel : nat) (HEAD : pointer)
    (h : gmap Z cell) (t : list event) (hd : pointer) (l : list (Z * item))
    (calls : list (Z * junk * item)) :
  h !! HEAD = Some (PtrVar hd) ->
  is_list T h hd l ->
  (length l + length calls <= fuel)%nat ->
  Forall (succeeds h) calls ->
  NoDup calls.*1.*1 ->
  exists h' hd' l',
    appends T fuel HEAD (map call_of calls) (State h t) = Ok tt (State h' t) /\
    h' !! HEAD = Some (PtrVar hd') /\
    is_list T h' hd' l' /\
    length l' = (length l + length calls)%nat /\
    l'.*1 = l.*1 ++ calls.*1.*1 /\
    map (fun x => name x.2) l'
    = map (fun x => name x.2) l ++ map (fun c => node_name c.1.2 (name c.2)) calls /\
    iterate T fuel hd' (State h' t)
    = Ok (c_names l ++ map (fun c => c_str (name c.2)) calls) (State h' t) /\
    (forall a, is_Some (h !! a) -> a <> HEAD -> last l.*1 <> Some a ->
               h' !! a = h !! a).
Proof.
  intros HH Hl Hfuel Hok Hnd.
  destruct (appends_run T fuel HEAD t calls h hd l HH Hl Hfuel Hok Hnd)
    as (h' & hd' & l' & Hrun & HH' & Hl' & Haddr & Hnames & Hold).
  assert (Hlen : length l' = (length l + length calls)%nat).
  { apply (f_equal (@length Z)) in Haddr.
    rewrite length_app, !length_fmap in Haddr. exact Haddr. }
  exists h', hd', l'. repeat split; try assumption.
  rewrite (iterate_is_list T fuel (State h' t) l' hd' Hl') by lia.
  f_equal. unfold c_names.
  apply (f_equal (map c_str)) in Hnames. rewrite map_app, !map_map in Hnames.
  rewrite Hnames. f_equal.
  apply map_ext_in. intros [[p j] it] Hin. simpl.
  rewrite Forall_forall in Hok. apply list_elem_of_In in Hin.
  destruct (Hok _ Hin) as (_ & _ & Hfit). apply c_str_node_name. exact Hfit.
Qed.

Lemma appends_keep_order_witness :
  exists h' hd',
    appends flag_t 2 1
      [(Some (11, sample_junk), FLAG (lit "-Wall"));
       (Some (12, sample_junk), FLAG (lit "-Wextra"))] no_flag
    = Ok tt (State h' []) /\
    iterate flag_t 2 hd' (State h' []) = Ok [lit "-Wall"; lit "-Wextra"] (State h' []).
Proof.
  destruct (appends_keep_order flag_t 2 1 (heap no_flag) [] NULL []
              [(11, sample_junk, FLAG (lit "-Wall"));
               (12, sample_junk, FLAG (lit "-Wextra"))])
    as (h' & hd' & l' & Hrun & _ & _ & _ & _ & _ & Hiter & _).
  - reflexivity.
  - reflexivity.
  - simpl. lia.
  - repeat constructor; simpl; unfold NULL; lia.
  - apply (bool_decide_unpack _). vm_compute. exact I.
  - exists h', hd'. split; [exact Hrun | exact Hiter].
Defined.

(** ** Assembly *)

(** [MAKE_RULE] on a rule, a compiler and a non-empty dependency list. *)
Lemma MAKE_RULE_success (__rule __compiler __flags __target __dependencies : pointer)
    (out : list ascii) (h : gmap Z cell) (t : list event)
    (r : build_rule_t) (c : compiler_t) :
  __rule <> NULL -> __compiler <> NULL -> __dependencies <> NULL ->
  h !! __rule = Some (Rule r) -> h !! __compiler = Some (Compiler c) ->
  MAKE_RULE __rule __compiler __flags __target __dependencies out (State h t)
  = Ok tt (State
      (<[__rule := Rule (BuildRule __target __dependencies __compiler
                                    (strncpy (output r) out CC_CAPACITY))]>
         (<[__compiler := Compiler (CompilerT (cmd c) __flags)]> h)) t).
Proof.
  intros Hr Hc Hd Hhr Hhc.
  assert (Hne : __rule <> __compiler) by (intros ->; congruence).
  unfold MAKE_RULE. rewrite decide_False by tauto.
  erewrite bind_Ok by (apply load_rule_Some; exact Hhr).
  erewrite bind_Ok by (eapply store_rule_Some; exact Hhr).
  erewrite bind_Ok by (apply load_rule_Some; simpl; apply lookup_insert_eq).
  simpl.
  erewrite bind_Ok
    by (apply load_compiler_Some; simpl; rewrite lookup_insert_ne by exact Hne; exact Hhc).
  erewrite bind_Ok
    by (eapply store_compiler_Some; simpl; rewrite lookup_insert_ne by exact Hne; exact Hhc).
  unfold SET_OUT.
  erewrite bind_Ok.
  2:{ erewrite bind_Ok
        by (apply load_rule_Some; simpl;
            rewrite lookup_insert_ne by congruence; apply lookup_insert_eq).
      eapply store_rule_Some. simpl.
      rewrite lookup_insert_ne by congruence. apply lookup_insert_eq. }
  erewrite bind_Ok by (apply load_rule_Some; simpl; apply lookup_insert_eq).
  erewrite bind_Ok by (eapply store_rule_Some; simpl; apply lookup_insert_eq).
  erewrite bind_Ok by (apply load_rule_Some; simpl; apply lookup_insert_eq).
  erewrite store_rule_Some by (simpl; apply lookup_insert_eq).
  simpl. do 2 f_equal.
  rewrite !insert_insert_eq.
  rewrite (insert_insert_ne _ __compiler __rule) by congruence.
  rewrite insert_insert_eq. reflexivity.
Qed.

(** [MAKE_RULE] without a rule, a compiler or a dependency returns at once. *)
Lemma MAKE_RULE_rejected (__rule __compiler __flags __target __dependencies : pointer)
    (out : list ascii) (s : state) :
  __rule = NULL \/ __compiler = NULL \/ __dependencies = NULL ->
  MAKE_RULE __rule __compiler __flags __target __dependencies out s = Ok tt s.
Proof. intros H. unfold MAKE_RULE. rewrite decide_True by exact H. reflexivity. Qed.

(** C7. When the rule reference is absent, the compiler reference is absent
    or the dependency list is empty, [MAKE_RULE] returns in the state it was
    called in: the rule, the compiler descriptor and every other cell are
    what they were. *)
Theorem MAKE_RULE_rejected_is_noop
    (__rule __compiler __flags __target __dependencies : pointer)
    (out : list ascii) (s : state) :
  __rule = NULL \/ __compiler = NULL \/ __dependencies = NULL ->
  MAKE_RULE __rule __compiler __flags __target __dependencies out s = Ok tt s.
Proof. apply MAKE_RULE_rejected. Qed.

Lemma MAKE_RULE_rejected_is_noop_witness :
  MAKE_RULE 15 NULL 11 3 13 (lit "out") before_assembly = Ok tt before_assembly /\
  MAKE_RULE 15 10 11 3 NULL (lit "out") before_assembly = Ok tt before_assembly /\
  MAKE_RULE NULL 10 11 3 13 (lit "out") before_assembly = Ok tt before_assembly.
Proof.
  split; [|split].
  - apply (MAKE_RULE_rejected_is_noop 15 NULL 11 3 13 (lit "out") before_assembly).
    right. left. reflexivity.
  - apply (MAKE_RULE_rejected_is_noop 15 10 11 3 NULL (lit "out") before_assembly).
    right. right. reflexivity.
  - apply (MAKE_RULE_rejected_is_noop NULL 10 11 3 13 (lit "out") before_assembly).
    left. reflexivity.
Defined.

(** C9, as the code has it.  After a successful [MAKE_RULE] the [target]
    field of the rule is the address the caller passed: the rule refers to
    the caller's object and holds no copy of it.  [MAKE_RULE] writes the rule
    and the compiler descriptor and no other cell, so it allocates nothing
    for the target; and what the caller stores in its object afterwards is
    what is read through the rule. *)
Theorem MAKE_RULE_target_by_reference
    (__rule __compiler __flags __target __dependencies : pointer)
    (out : list ascii) (h : gmap Z cell) (t : list event)
    (r : build_rule_t) (c : compiler_t) (n n' : item) :
  __rule <> NULL -> __compiler <> NULL -> __dependencies <> NULL ->
  h !! __rule = Some (Rule r) -> h !! __compiler = Some (Compiler c) ->
  h !! __target = Some (Node object_t n) ->
  exists h',
    MAKE_RULE __rule __compiler __flags __target __dependencies out (State h t)
    = Ok tt (State h' t) /\
    (exists r', h' !! __rule = Some (Rule r') /\ target r' = __target) /\
    (forall a, a <> __rule -> a <> __compiler -> h' !! a = h !! a) /\
    target_name __rule (State h' t) = Ok (c_str (name n)) (State h' t) /\
    exists s'',
      store_item object_t __target n' (State h' t) = Ok tt s'' /\
      target_name __rule s'' = Ok (c_str (name n')) s''.
Proof.
  intros Hr Hc Hd Hhr Hhc Hht.
  assert (Htr : __target <> __rule) by (intros ->; congruence).
  assert (Htc : __target <> __compiler) by (intros ->; congruence).
  eexists. split; [apply MAKE_RULE_success; eassumption|].
  assert (Hht' : <[__rule := Rule (BuildRule __target __dependencies __compiler
                                     (strncpy (output r) out CC_CAPACITY))]>
                   (<[__compiler := Compiler (CompilerT (cmd c) __flags)]> h) !! __target
                 = Some (Node object_t n)).
  { rewrite !lookup_insert_ne by congruence. exact Hht. }
  split; [|split; [|split]].
  - eexists. split; [apply lookup_insert_eq|reflexivity].
  - intros a Har Hac. rewrite !lookup_insert_ne by congruence. reflexivity.
  - unfold target_name.
    erewrite bind_Ok by (apply load_rule_Some; simpl; apply lookup_insert_eq).
    simpl. erewrite bind_Ok by (apply load_item_Some; simpl; exact Hht').
    reflexivity.
  - eexists. split; [eapply store_item_Some; simpl; exact Hht'|].
    unfold target_name.
    erewrite bind_Ok
      by (apply load_rule_Some; simpl;
          rewrite lookup_insert_ne by congruence; apply lookup_insert_eq).
    simpl. erewrite bind_Ok by (apply load_item_Some; simpl; apply lookup_insert_eq).
    reflexivity.
Qed.

Lemma MAKE_RULE_target_by_reference_witness :
  exists h',
    MAKE_RULE 15 10 11 3 13 (lit "out") before_assembly = Ok tt (State h' []) /\
    exists s'',
      store_item object_t 3 (OBJECT (lit "other.c")) (State h' []) = Ok tt s'' /\
      target_name 15 s'' = Ok (lit "other.c") s''.
Proof.
  destruct (MAKE_RULE_target_by_reference 15 10 11 3 13 (lit "out")
              (heap before_assembly) []
              (BuildRule NULL NULL NULL (memset (junk_buf sample_junk) NUL 1))
              (CompilerT (strncpy (memset (junk_buf sample_junk) NUL 1) (lit "gcc") CC_CAPACITY)
                         NULL)
              (OBJECT (lit "test/main.c")) (OBJECT (lit "other.c")))
    as (h' & Hrun & _ & _ & _ & s'' & Hstore & Hread).
  - unfold NULL; lia.
  - unfold NULL; lia.
  - unfold NULL; lia.
  - vm_compute. reflexivity.
  - vm_compute. reflexivity.
  - vm_compute. reflexivity.
  - exists h'. split; [exact Hrun|]. exists s''. split; [exact Hstore | exact Hread].
Defined.

(** The claim C9 as the specification words it fails in [main] of example.c:
    after the assembly the caller overwrites its [target], and the name read
    through the rule changes with it. *)
Lemma target_not_copied :
  exists s'',
    final (MAKE_RULE 15 10 11 3 13 (lit "out") before_assembly) = Some assembled /\
    returned (target_name 15 assembled) = Some (lit "test/main.c") /\
    store_item object_t 3 (OBJECT (lit "other.c")) assembled = Ok tt s'' /\
    returned (target_name 15 s'') = Some (lit "other.c") /\
    returned (target_name 15 s'') <> returned (target_name 15 assembled).
Proof.
  eexists. split; [vm_compute; reflexivity|].
  split; [vm_compute; reflexivity|].
  split; [vm_compute; reflexivity|].
  split; [vm_compute; reflexivity|].
  vm_compute. discriminate.
Qed.

(** ** The setters *)

Lemma strncpy_short (dst src : list ascii) (n : nat) :
  (strlen src < n)%nat -> length dst = n ->
  strncpy dst src n = c_str src ++ repeat NUL (n - strlen src).
Proof.
  intros Hlen Hdst. unfold strncpy.
  rewrite firstn_all2 by (rewrite length_c_str; lia).
  rewrite skipn_all2 by lia. rewrite app_nil_r. reflexivity.
Qed.

Lemma strncpy_long (dst src : list ascii) (n : nat) :
  (n <= strlen src)%nat -> length dst = n ->
  strncpy dst src n = firstn n src.
Proof.
  intros Hlen Hdst. unfold strncpy, c_str.
  rewrite firstn_firstn, Nat.min_l by lia.
  replace (n - strlen src)%nat with 0%nat by lia.
  rewrite skipn_all2 by lia. simpl. apply app_nil_r.
Qed.

Lemma strncpy_long_unterminated (dst src : list ascii) (n : nat) :
  (n <= strlen src)%nat -> length dst = n ->
  length (strncpy dst src n) = n /\ terminated (strncpy dst src n) = false.
Proof.
  intros Hlen Hdst. rewrite strncpy_long by assumption.
  pose proof (strlen_le_length src) as Hle.
  assert (Hl : length (firstn n src) = n) by (rewrite length_firstn; lia).
  split; [exact Hl|].
  unfold terminated. apply Nat.ltb_ge.
  assert (E : firstn n src = firstn n (c_str src)).
  { unfold c_str. rewrite firstn_firstn, Nat.min_l by lia. reflexivity. }
  rewrite E at 2. rewrite strlen_firstn_c_str, <- E. lia.
Qed.

Lemma SET_CC_run (__CC_PTR__ : pointer) (src : list ascii) (s : state) (c : compiler_t) :
  heap s !! __CC_PTR__ = Some (Compiler c) ->
  SET_CC __CC_PTR__ src s
  = Ok tt (State (<[__CC_PTR__ := Compiler (CompilerT (strncpy (cmd c) src CC_CAPACITY)
                                                       (flags c))]> (heap s))
                 (trace s)).
Proof.
  intros H. unfold SET_CC.
  rewrite (bind_Ok _ _ _ _ _ (load_compiler_Some _ _ _ H)).
  apply store_compiler_Some with (c := c). exact H.
Qed.

(** What C10 says of a name that fits holds: the command field then holds
    the name, terminated, and reads as the name. *)
Lemma SET_CC_short (__CC_PTR__ : pointer) (src : list ascii) (s : state) (c : compiler_t) :
  heap s !! __CC_PTR__ = Some (Compiler c) ->
  length (cmd c) = CC_CAPACITY ->
  (strlen src < CC_CAPACITY)%nat ->
  exists s' c',
    SET_CC __CC_PTR__ src s = Ok tt s' /\
    heap s' !! __CC_PTR__ = Some (Compiler c') /\
    cmd c' = c_str src ++ repeat NUL (CC_CAPACITY - strlen src) /\
    terminated (cmd c') = true /\
    c_str (cmd c') = c_str src.
Proof.
  intros H Hlen Hfit. eexists. eexists. split; [apply SET_CC_run; exact H|].
  simpl. split; [apply lookup_insert_eq|]. simpl.
  rewrite strncpy_short by assumption. split; [reflexivity|].
  destruct (CC_CAPACITY - strlen src)%nat as [|k] eqn:E; [lia|]. simpl.
  split.
  - unfold terminated. rewrite strlen_c_str_app, length_app, length_c_str. simpl.
    apply Nat.ltb_lt. lia.
  - apply c_str_app_nul.
Qed.

(** C10, where the code departs from it.  For a name of [CC_CAPACITY] = 120
    characters or more, [SET_CC] fills the whole command field with the first
    120 characters of the name and writes no terminator: the field is not
    the name cut at 119 characters, and it is no C string. *)
Theorem SET_CC_long_unterminated (__CC_PTR__ : pointer) (src : list ascii)
    (s : state) (c : compiler_t) :
  heap s !! __CC_PTR__ = Some (Compiler c) ->
  length (cmd c) = CC_CAPACITY ->
  (CC_CAPACITY <= strlen src)%nat ->
  exists s' c',
    SET_CC __CC_PTR__ src s = Ok tt s' /\
    heap s' !! __CC_PTR__ = Some (Compiler c') /\
    cmd c' = firstn 120 src /\
    length (cmd c') = 120%nat /\
    terminated (cmd c') = false /\
    cmd c' <> firstn 119 src ++ [NUL] /\
    load_string (heap s') (CharCmd __CC_PTR__) = None.
Proof.
  intros H Hlen Hlong. eexists. eexists. split; [apply SET_CC_run; exact H|].
  simpl. split; [apply lookup_insert_eq|]. simpl.
  destruct (strncpy_long_unterminated (cmd c) src CC_CAPACITY Hlong Hlen) as [Hl Ht].
  split; [apply strncpy_long; assumption|].
  split; [exact Hl|]. split; [exact Ht|]. split.
  - intros E. rewrite E in Ht. unfold terminated in Ht.
    apply Nat.ltb_ge in Ht.
    assert (E' : firstn 119 src = firstn 119 (c_str src)).
    { unfold c_str. rewrite firstn_firstn, Nat.min_l; [reflexivity|].
      change CC_CAPACITY with 120%nat in Hlong. lia. }
    rewrite E' in Ht.
    rewrite strlen_no_nul_app in Ht by apply strlen_firstn_c_str.
    rewrite length_app in Ht. simpl in Ht. lia.
  - rewrite lookup_insert_eq. simpl. rewrite Ht. reflexivity.
Qed.

Lemma SET_CC_long_unterminated_witness :
  exists s' c',
    SET_CC 10 long_name before_assembly = Ok tt s' /\
    heap s' !! 10 = Some (Compiler c') /\
    cmd c' = long_name /\
    terminated (cmd c') = false.
Proof.
  destruct (SET_CC_long_unterminated 10 long_name before_assembly
              (CompilerT (strncpy (memset (junk_buf sample_junk) NUL 1) (lit "gcc") CC_CAPACITY)
                         NULL))
    as (s' & c' & Hrun & Hc & Hcmd & _ & Ht & _).
  - vm_compute. reflexivity.
  - vm_compute. reflexivity.
  - vm_compute. lia.
  - exists s', c'. repeat split; assumption.
Defined.

(** ** Release *)

Section Release.
Variable T : TYPE.

Lemma is_list_suffix (h : gmap Z cell) (p : pointer) (l : list (Z * item)) (q : Z) :
  is_list T h p l -> q ∈ l.*1 ->
  exists l2, is_list T h q l2 /\ (length l2 <= length l)%nat.
Proof.
  revert p. induction l as [|[a na] l IH]; intros p Hl Hin.
  - inversion Hin.
  - destruct Hl as (<- & Ha & Hn & Hl). simpl in Hin.
    apply elem_of_cons in Hin as [->|Hin].
    + exists ((p, na) :: l). simpl. auto.
    + destruct (IH _ Hl Hin) as (l2 & Hl2 & Hlen). exists l2. simpl. split; [exact Hl2|lia].
Qed.

(** A list that ends in NULL passes no node twice. *)
Lemma is_list_NoDup (h : gmap Z cell) (p : pointer) (l : list (Z * item)) :
  is_list T h p l -> NoDup l.*1.
Proof.
  revert p. induction l as [|[a na] l IH]; intros p Hl; [constructor|].
  pose proof Hl as (<- & Ha & Hn & Hl'). simpl. constructor.
  - intros Hin. destruct (is_list_suffix _ _ _ _ Hl' Hin) as (l2 & Hl2 & Hlen).
    pose proof (is_list_unique T _ _ _ _ Hl Hl2) as <-. simpl in Hlen. lia.
  - eapply IH. exact Hl'.
Qed.

Lemma is_list_delete (h : gmap Z cell) (p : pointer) (l : list (Z * item)) (a : Z) :
  is_list T h p l -> a ∉ l.*1 -> is_list T (delete a h) p l.
Proof.
  revert p. induction l as [|[q n] l IH]; intros p; simpl; [tauto|].
  intros (<- & Hq & Hn & Hl) Hnotin.
  apply not_elem_of_cons in Hnotin as [Hne Hnotin].
  repeat split; try assumption.
  - rewrite lookup_delete_ne by congruence. exact Hn.
  - apply IH; assumption.
Qed.

(** A [while] loop of [cleanup] frees the nodes of its list and nothing
    else. *)
Lemma cleanup_loop_frees (fuel : nat) (l : list (Z * item)) :
  forall (s : state) (p : pointer),
    is_list T (heap s) p l -> (length l <= fuel)%nat ->
    exists h',
      cleanup_loop T fuel p s = Ok tt (State h' (trace s)) /\
      (forall a, a ∈ l.*1 -> h' !! a = None) /\
      (forall a, a ∉ l.*1 -> h' !! a = heap s !! a).
Proof.
  revert fuel. induction l as [|[q n] l IH]; intros fuel s p Hl Hfuel.
  - simpl in Hl. subst p. exists (heap s). split; [|split].
    + destruct fuel; simpl; rewrite state_eta; reflexivity.
    + intros a Ha. inversion Ha.
    + reflexivity.
  - pose proof (is_list_NoDup _ _ _ Hl) as Hnd. simpl in Hnd.
    apply NoDup_cons in Hnd as [Hq' _].
    destruct Hl as (<- & Hq & Hn & Hl).
    destruct fuel as [|fuel]; [simpl in Hfuel; lia|]. simpl in Hfuel.
    destruct (IH fuel (State (delete p (heap s)) (trace s)) (__next n))
      as (h' & Hrun & Hgone & Hkept).
    + simpl. apply is_list_delete; assumption.
    + lia.
    + exists h'. split; [|split].
      * simpl. rewrite decide_False by exact Hq.
        rewrite (bind_Ok _ _ _ _ _ (load_item_Some _ _ _ _ Hn)).
        unfold bind at 1. unfold free.
        rewrite decide_False by exact Hq. rewrite Hn. exact Hrun.
      * intros a Ha. simpl in Ha. apply elem_of_cons in Ha as [->|Ha].
        -- rewrite Hkept by exact Hq'. simpl. apply lookup_delete_eq.
        -- apply Hgone. exact Ha.
      * intros a Ha. simpl in Ha. apply not_elem_of_cons in Ha as [Hne Ha].
        rewrite Hkept by exact Ha. simpl. apply lookup_delete_ne. congruence.
Qed.
End Release.

(** A list is found again in any heap that agrees on its nodes. *)
Lemma is_list_agree (T : TYPE) (h h' : gmap Z cell) (p : pointer) (l : list (Z * item)) :
  is_list T h p l -> (forall a, a ∈ l.*1 -> h' !! a = h !! a) -> is_list T h' p l.
Proof.
  revert p. induction l as [|[q n] l IH]; intros p; simpl; [tauto|].
  intros (<- & Hq & Hn & Hl) Hagree. repeat split; try assumption.
  - rewrite Hagree by (apply elem_of_cons; left; reflexivity). exact Hn.
  - apply IH; [exact Hl|]. intros a Ha. apply Hagree. apply elem_of_cons. right. exact Ha.
Qed.

(** [cleanup] on a complete rule frees the dependencies, the flags, the
    compiler and the rule, each once, and leaves every other cell - the
    target among them, unless it is one of the dependencies. *)
Lemma cleanup_complete (fuel : nat) (rule : pointer) (h : gmap Z cell)
    (t : list event) (r : build_rule_t) (c : compiler_t) (fl dl : list (Z * item)) :
  complete h rule r c fl dl ->
  (length fl <= fuel)%nat -> (length dl <= fuel)%nat ->
  exists h',
    cleanup fuel rule (State h t) = Ok tt (State h' t) /\
    (forall a, a ∈ dl.*1 \/ a ∈ fl.*1 \/ a = cc r \/ a = rule -> h' !! a = None) /\
    (forall a, a ∉ dl.*1 -> a ∉ fl.*1 -> a <> cc r -> a <> rule -> h' !! a = h !! a).
Proof.
  intros [Hrn Hr Hcn Hcc Htn Hdn Hfl Hdl] Hff Hfd.
  assert (Hrc : rule <> cc r) by (intros E; rewrite <- E in Hcc; congruence).
  assert (Hnot : forall T l p q x, is_list T h p l -> h !! q = Some x ->
                   (forall n, x <> Node T n) -> q ∉ l.*1).
  { intros T l p q x Hl Hq Hx. eapply is_list_not_elem; [exact Hl|].
    intros n. rewrite Hq. intros [= E]. exact (Hx n E). }
  assert (Hr_dl : rule ∉ dl.*1) by (eapply Hnot; [exact Hdl|exact Hr|discriminate]).
  assert (Hr_fl : rule ∉ fl.*1) by (eapply Hnot; [exact Hfl|exact Hr|discriminate]).
  assert (Hc_dl : cc r ∉ dl.*1) by (eapply Hnot; [exact Hdl|exact Hcc|discriminate]).
  assert (Hc_fl : cc r ∉ fl.*1) by (eapply Hnot; [exact Hfl|exact Hcc|discriminate]).
  assert (Hdisj : forall a, a ∈ fl.*1 -> a ∉ dl.*1).
  { intros a Ha. apply list_elem_of_fmap in Ha as ([q n] & -> & Hin).
    destruct (is_list_lookup _ _ _ _ _ _ Hfl Hin) as [_ Hq]. simpl.
    eapply Hnot; [exact Hdl|exact Hq|]. intros n' [= E]. }
  unfold cleanup. rewrite decide_False by exact Hrn.
  rewrite (bind_Ok _ _ _ _ _ (load_rule_Some rule r (State h t) Hr)).
  destruct (cleanup_loop_frees object_t fuel dl (State h t) _ Hdl Hfd)
    as (h1 & Hrun1 & Hgone1 & Hkept1). simpl in Hrun1, Hkept1.
  rewrite (bind_Ok _ _ _ _ _ Hrun1).
  assert (Hr1 : h1 !! rule = Some (Rule r)) by (rewrite Hkept1 by exact Hr_dl; exact Hr).
  assert (Hcc1 : h1 !! cc r = Some (Compiler c)) by (rewrite Hkept1 by exact Hc_dl; exact Hcc).
  assert (Hfl1 : is_list flag_t h1 (flags c) fl).
  { eapply is_list_agree; [exact Hfl|]. intros a Ha. apply Hkept1, Hdisj, Ha. }
  rewrite (bind_Ok _ _ _ _ _ (load_rule_Some rule r (State h1 t) Hr1)).
  rewrite (bind_Ok _ _ _ _ _ (load_compiler_Some (cc r) c (State h1 t) Hcc1)).
  destruct (cleanup_loop_frees flag_t fuel fl (State h1 t) _ Hfl1 Hff)
    as (h2 & Hrun2 & Hgone2 & Hkept2). simpl in Hrun2, Hkept2.
  rewrite (bind_Ok _ _ _ _ _ Hrun2).
  assert (Hr2 : h2 !! rule = Some (Rule r)) by (rewrite Hkept2 by exact Hr_fl; exact Hr1).
  assert (Hcc2 : h2 !! cc r = Some (Compiler c)) by (rewrite Hkept2 by exact Hc_fl; exact Hcc1).
  rewrite (bind_Ok _ _ _ _ _ (load_rule_Some rule r (State h2 t) Hr2)).
  rewrite decide_True by exact Hcn.
  unfold bind, free. simpl.
  rewrite decide_False by exact Hcn. rewrite Hcc2. simpl.
  rewrite decide_False by exact Hrn.
  rewrite lookup_delete_ne by congruence. rewrite Hr2.
  eexists. split; [reflexivity|]. split.
  - intros a [Ha|[Ha|[->| ->]]].
    + assert (rule <> a) by (intros E; rewrite <- E in Ha; contradiction).
      assert (cc r <> a) by (intros E; rewrite <- E in Ha; contradiction).
      rewrite !lookup_delete_ne by assumption.
      destruct (decide (a ∈ fl.*1)) as [Hin|Hout]; [apply Hgone2; exact Hin|].
      rewrite Hkept2 by exact Hout. apply Hgone1. exact Ha.
    + assert (rule <> a) by (intros E; rewrite <- E in Ha; contradiction).
      assert (cc r <> a) by (intros E; rewrite <- E in Ha; contradiction).
      rewrite !lookup_delete_ne by assumption.
      apply Hgone2. exact Ha.
    + rewrite lookup_delete_ne by congruence. apply lookup_delete_eq.
    + apply lookup_delete_eq.
  - intros a Hdl' Hfl' Hc' Hr'.
    rewrite !lookup_delete_ne by congruence.
    rewrite Hkept2 by exact Hfl'. apply Hkept1. exact Hdl'.
Qed.

(** C8, where the code departs from it.  On a rule whose compiler
    reference is absent - a rule fresh from [INIT_RULE], or one that
    [MAKE_RULE] refused to assemble - [cleanup] frees the dependencies and
    then reads [rule->cc->flags] through the NULL pointer: the behaviour is
    undefined.  The test [if (rule->cc)] that guards [free] comes after the
    access. *)
Theorem cleanup_dereferences_absent_compiler (fuel : nat) (rule : pointer)
    (s : state) (r : build_rule_t) (l : list (Z * item)) :
  heap s !! NULL = None ->
  rule <> NULL ->
  heap s !! rule = Some (Rule r) ->
  cc r = NULL ->
  is_list object_t (heap s) (dependencies r) l ->
  (length l <= fuel)%nat ->
  cleanup fuel rule s = Fault.
Proof.
  intros Hnull Hrule Hr Hcc Hl Hfuel.
  unfold cleanup. rewrite decide_False by exact Hrule.
  rewrite (bind_Ok _ _ _ _ _ (load_rule_Some _ _ _ Hr)).
  destruct (cleanup_loop_frees object_t fuel l s _ Hl Hfuel) as (h' & Hrun & _ & Hkept).
  rewrite (bind_Ok _ _ _ _ _ Hrun).
  assert (Hr' : h' !! rule = Some (Rule r)).
  { rewrite Hkept; [exact Hr|].
    eapply is_list_not_elem; [exact Hl|]. intros n. rewrite Hr. discriminate. }
  assert (Hnull' : h' !! NULL = None).
  { rewrite Hkept; [exact Hnull|].
    intros Hin. apply list_elem_of_fmap in Hin as ([q n] & Hq & Hin). simpl in Hq. subst q.
    destruct (is_list_lookup _ _ _ _ _ _ Hl Hin) as [Hne _]. congruence. }
  erewrite bind_Ok by (apply load_rule_Some; simpl; exact Hr').
  rewrite Hcc. unfold bind, load_compiler. simpl. rewrite Hnull'. reflexivity.
Qed.

Lemma cleanup_dereferences_absent_compiler_witness :
  cleanup 0 15 before_assembly = Fault.
Proof.
  apply (cleanup_dereferences_absent_compiler 0 15 before_assembly
           (BuildRule NULL NULL NULL (memset (junk_buf sample_junk) NUL 1)) []).
  - vm_compute. reflexivity.
  - unfold NULL. lia.
  - vm_compute. reflexivity.
  - reflexivity.
  - reflexivity.
  - simpl. lia.
Defined.

(** ** The argument vector *)

Section Loops.
Variable T : TYPE.

Lemma count_loop_run (fuel : nat) (s : state) (l : list (Z * item)) :
  forall (p : pointer) (argc : Z),
    is_list T (heap s) p l -> (length l <= fuel)%nat ->
    argc + Z.of_nat (length l) <= INT_MAX ->
    count_loop T fuel p argc s = Ok (argc + Z.of_nat (length l)) s.
Proof.
  revert fuel. induction l as [|[q n] l IH]; intros fuel p argc Hl Hfuel Hmax.
  - simpl in Hl. subst p. simpl. rewrite Z.add_0_r. destruct fuel; reflexivity.
  - destruct Hl as (<- & Hq & Hn & Hl).
    destruct fuel as [|fuel]; [simpl in Hfuel; lia|]. simpl in Hfuel.
    simpl count_loop. rewrite decide_False by exact Hq.
    rewrite (bind_Ok _ _ _ _ _ (int_add_ok argc 1 s ltac:(simpl length in Hmax; lia))).
    rewrite (bind_Ok _ _ _ _ _ (load_item_Some _ _ _ _ Hn)).
    rewrite IH; [|exact Hl|lia|simpl length in Hmax; lia].
    f_equal. simpl length. lia.
Qed.

Lemma store_slot_next (a : pointer) (v : charp) (pre : list charp) (k : nat)
    (h : gmap Z cell) (t : list event) :
  store_slot a (Z.of_nat (length pre)) v
    (State (<[a := Argv (pre ++ replicate (S k) CharNull)]> h) t)
  = Ok tt (State (<[a := Argv ((pre ++ [v]) ++ replicate k CharNull)]> h) t).
Proof.
  erewrite store_slot_Some; [|simpl; apply lookup_insert_eq|].
  - simpl. rewrite insert_insert_eq. rewrite Nat2Z.id.
    replace (length pre) with (length pre + 0)%nat at 1 by lia.
    rewrite insert_app_r. simpl. rewrite <- app_assoc. reflexivity.
  - rewrite length_app. simpl. rewrite ?length_replicate. lia.
Qed.

Lemma fill_loop_run (fuel : nat) (a : pointer) (h : gmap Z cell) (t : list event)
    (l : list (Z * item)) :
  forall (p : pointer) (pre : list charp) (k : nat),
    is_list T h p l -> a ∉ l.*1 ->
    (length l <= fuel)%nat -> (length l <= k)%nat ->
    Z.of_nat (length pre + length l) <= INT_MAX ->
    fill_loop T fuel a p (Z.of_nat (length pre))
      (State (<[a := Argv (pre ++ replicate k CharNull)]> h) t)
    = Ok (Z.of_nat (length pre + length l))
         (State (<[a := Argv ((pre ++ map CharName l.*1)
                                ++ replicate (k - length l) CharNull)]> h) t).
Proof.
  revert fuel. induction l as [|[q n] l IH]; intros fuel p pre k Hl Ha Hfuel Hk Hmax.
  - simpl in Hl. subst p. simpl. rewrite Nat.add_0_r, Nat.sub_0_r, app_nil_r.
    destruct fuel; reflexivity.
  - destruct Hl as (<- & Hq & Hn & Hl). simpl in Ha.
    apply not_elem_of_cons in Ha as [Hne Ha].
    destruct fuel as [|fuel]; [simpl in Hfuel; lia|]. simpl in Hfuel.
    destruct k as [|k]; [simpl in Hk; lia|]. simpl in Hk. simpl length in Hmax.
    simpl fill_loop. rewrite decide_False by exact Hq.
    rewrite (bind_Ok _ _ _ _ _ (store_slot_next a (CharName p) pre k h t)).
    erewrite bind_Ok by (apply int_add_ok; lia).
    erewrite bind_Ok
      by (apply load_item_Some; simpl; rewrite lookup_insert_ne by congruence; exact Hn).
    replace (Z.of_nat (length pre) + 1) with (Z.of_nat (length (pre ++ [CharName p])))
      by (rewrite length_app; simpl; lia).
    rewrite IH; [|exact Hl|exact Ha|lia|lia|rewrite length_app; simpl; lia].
    f_equal.
    + rewrite length_app. simpl. f_equal. lia.
    + simpl. rewrite <- !app_assoc. reflexivity.
Qed.
End Loops.

Lemma calloc_run (a : pointer) (n : Z) (h : gmap Z cell) (t : list event) :
  calloc (Some a) n (State h t)
  = Ok a (State (<[a := Argv (replicate (Z.to_nat n) CharNull)]> h) t).
Proof. reflexivity. Qed.

Lemma __build_argv_run (fuel : nat) (w : world) (rule : pointer)
    (h : gmap Z cell) (t : list event) (r : build_rule_t) (c : compiler_t)
    (fl dl : list (Z * item)) (a : pointer) :
  complete h rule r c fl dl ->
  w_calloc w = Some a -> a <> NULL -> h !! a = None ->
  (length fl <= fuel)%nat -> (length dl <= fuel)%nat ->
  Z.of_nat (length fl + length dl + 5) <= INT_MAX ->
  __build_argv fuel w rule (State h t)
  = Ok a (State (<[a := Argv (expected_argv rule r fl dl)]> h) t).
Proof.
  intros [Hrn Hr Hcn Hc Htn Hdn Hfl Hdl] Hw Ha Hfresh Hff Hfd Hmax.
  assert (Har : a <> rule) by (intros ->; congruence).
  assert (Hac : a <> cc r) by (intros ->; congruence).
  assert (Hafl : a ∉ fl.*1) by (eapply is_list_fresh; eassumption).
  assert (Hadl : a ∉ dl.*1) by (eapply is_list_fresh; eassumption).
  unfold __build_argv.
  rewrite (bind_Ok _ _ _ _ _ (load_rule_Some rule r (State h t) Hr)).
  rewrite (bind_Ok _ _ _ _ _ (load_compiler_Some (cc r) c (State h t) Hc)).
  rewrite (bind_Ok _ _ _ _ _
             (count_loop_run flag_t fuel (State h t) fl (flags c) 0 Hfl Hff ltac:(lia))).
  rewrite (bind_Ok _ _ _ _ _ (load_rule_Some rule r (State h t) Hr)).
  rewrite (bind_Ok _ _ _ _ _
             (count_loop_run object_t fuel (State h t) dl (dependencies r)
                (0 + Z.of_nat (length fl)) Hdl Hfd ltac:(lia))).
  rewrite (bind_Ok _ _ _ _ _
             (int_add_ok (0 + Z.of_nat (length fl) + Z.of_nat (length dl)) (1 + 1 + 1 + 1 + 1)
                (State h t) ltac:(lia))).
  rewrite Hw. rewrite (bind_Ok _ _ _ _ _ (calloc_run a _ h t)).
  rewrite decide_False by exact Ha.
  set (k1 := (length fl + S (S (S (length dl + 1))))%nat).
  replace (Z.to_nat (0 + Z.of_nat (length fl) + Z.of_nat (length dl) + (1 + 1 + 1 + 1 + 1)))
    with (S k1) by (unfold k1; lia).
  change (replicate (S k1) CharNull) with ([] ++ replicate (S k1) CharNull).
  assert (Hr' : forall x, (<[a := x]> h) !! rule = Some (Rule r))
    by (intros x; rewrite lookup_insert_ne by exact Har; exact Hr).
  assert (Hc' : forall x, (<[a := x]> h) !! cc r = Some (Compiler c))
    by (intros x; rewrite lookup_insert_ne by exact Hac; exact Hc).
  erewrite bind_Ok by (apply load_rule_Some; simpl; apply Hr').
  rewrite (bind_Ok _ _ _ _ _ (store_slot_next a (CharCmd (cc r)) [] k1 h t)).
  erewrite bind_Ok by (apply int_add_ok; unfold INT_MAX; lia).
  erewrite bind_Ok by (apply load_rule_Some; simpl; apply Hr').
  erewrite bind_Ok by (apply load_compiler_Some; simpl; apply Hc').
  change (0 + 1) with (Z.of_nat (length ([] ++ [CharCmd (cc r)]))).
  rewrite (bind_Ok _ _ _ _ _
             (fill_loop_run flag_t fuel a h t fl (flags c) ([] ++ [CharCmd (cc r)]) k1
                Hfl Hafl Hff ltac:(unfold k1; lia) ltac:(simpl length; lia))).
  replace (k1 - length fl)%nat with (S (S (S (length dl + 1)))) by (unfold k1; lia).
  remember (([] ++ [CharCmd (cc r)]) ++ map CharName fl.*1) as pre1 eqn:E1.
  assert (Hpre1 : length pre1 = S (length fl))
    by (subst pre1; rewrite !length_app, length_map, length_fmap; simpl; lia).
  replace (length ([] ++ [CharCmd (cc r)]) + length fl)%nat with (length pre1)
    by (rewrite Hpre1; simpl; lia).
  rewrite (bind_Ok _ _ _ _ _ (store_slot_next a (CharLit (lit "-o")) pre1 _ h t)).
  erewrite bind_Ok by (apply int_add_ok; lia).
  remember (pre1 ++ [CharLit (lit "-o")]) as pre2 eqn:E2.
  assert (Hpre2 : length pre2 = S (S (length fl)))
    by (subst pre2; rewrite length_app, Hpre1; simpl; lia).
  replace (Z.of_nat (length pre1) + 1) with (Z.of_nat (length pre2)) by lia.
  rewrite (bind_Ok _ _ _ _ _ (store_slot_next a (CharOutput rule) pre2 _ h t)).
  erewrite bind_Ok by (apply int_add_ok; lia).
  erewrite bind_Ok by (apply load_rule_Some; simpl; apply Hr').
  remember (pre2 ++ [CharOutput rule]) as pre3 eqn:E3.
  assert (Hpre3 : length pre3 = S (S (S (length fl))))
    by (subst pre3; rewrite length_app, Hpre2; simpl; lia).
  replace (Z.of_nat (length pre2) + 1) with (Z.of_nat (length pre3)) by lia.
  rewrite (bind_Ok _ _ _ _ _ (store_slot_next a (CharName (target r)) pre3 _ h t)).
  erewrite bind_Ok by (apply int_add_ok; lia).
  erewrite bind_Ok by (apply load_rule_Some; simpl; apply Hr').
  remember (pre3 ++ [CharName (target r)]) as pre4 eqn:E4.
  assert (Hpre4 : length pre4 = S (S (S (S (length fl)))))
    by (subst pre4; rewrite length_app, Hpre3; simpl; lia).
  replace (Z.of_nat (length pre3) + 1) with (Z.of_nat (length pre4)) by lia.
  rewrite (bind_Ok _ _ _ _ _
             (fill_loop_run object_t fuel a h t dl (dependencies r) pre4
                (length dl + 1)%nat Hdl Hadl Hfd ltac:(lia) ltac:(lia))).
  replace (length dl + 1 - length dl)%nat with 1%nat by lia.
  remember (pre4 ++ map CharName dl.*1) as pre5 eqn:E5.
  replace (length pre4 + length dl)%nat with (length pre5)
    by (subst pre5; rewrite length_app, length_map, length_fmap; reflexivity).
  rewrite (bind_Ok _ _ _ _ _ (store_slot_next a CharNull pre5 0 h t)).
  unfold ret. do 4 f_equal.
  subst pre5 pre4 pre3 pre2 pre1. unfold expected_argv. simpl.
  rewrite <- !app_assoc. simpl. rewrite ?app_nil_r. reflexivity.
Qed.

(** The strings behind the slots that point to the names of a list. *)
Lemma argv_strings_names (T : TYPE) (h : gmap Z cell) (l : list (Z * item)) :
  forall (p : pointer) (rest : list charp) (x : list (list ascii)),
    is_list T h p l ->
    Forall (fun n => terminated (name n.2) = true) l ->
    argv_strings h rest = Some x ->
    argv_strings h (map CharName l.*1 ++ rest) = Some (c_names l ++ x).
Proof.
  induction l as [|[q n] l IH]; intros p rest x Hl Hterm Hrest; [exact Hrest|].
  destruct Hl as (<- & Hq & Hn & Hl). apply Forall_cons in Hterm as [Ht Hterm].
  simpl in Ht. simpl. rewrite Hn, Ht. simpl.
  change (list_fmap (Z * item)%type Z fst l) with (l.*1).
  rewrite (IH _ rest x Hl Hterm Hrest). reflexivity.
Qed.

(** In the child [__build] does not return: the image is replaced, or the
    child leaves with [EXIT_FAILURE], the code [child_termination] gives
    the parent for a failed [execvp]. *)
Lemma __build_run_child (w : world) (a : pointer) (slots : list charp)
    (h : gmap Z cell) (t : list event) :
  w_fork w = 0 -> h !! a = Some (Argv slots) ->
  __build_run w a (State h t)
  = Halt (State h (t ++ [Fork 0; Execvp (default CharNull (slots !! 0%nat)) slots]
                    ++ match w_execvp w with
                       | Some _ => []
                       | None => [Perror "execvp"; Exit EXIT_FAILURE]
                       end)) /\
  (w_execvp w = None -> child_termination w = Exited EXIT_FAILURE).
Proof.
  intros Hpid Ha. split.
  - unfold __build_run. rewrite Hpid. unfold bind at 1. unfold emit at 1. simpl.
    erewrite bind_Ok by (apply load_argv_Some; simpl; exact Ha).
    unfold bind at 1. unfold emit at 1. simpl.
    destruct (w_execvp w); unfold halt, bind, emit; simpl; rewrite <- !app_assoc; reflexivity.
  - intros E. unfold child_termination. rewrite E. reflexivity.
Qed.

(** [__build] in the child: the vector it passes to [execvp]. *)
Lemma __build_child (fuel : nat) (w : world) (rule : pointer)
    (h : gmap Z cell) (t : list event) (r : build_rule_t) (c : compiler_t)
    (fl dl : list (Z * item)) (a : pointer) :
  complete h rule r c fl dl ->
  w_calloc w = Some a -> a <> NULL -> h !! a = None ->
  (length fl <= fuel)%nat -> (length dl <= fuel)%nat ->
  Z.of_nat (length fl + length dl + 5) <= INT_MAX ->
  w_fork w = 0 ->
  __build fuel w rule (State h t)
  = Halt (State (<[a := Argv (expected_argv rule r fl dl)]> h)
                (t ++ [Fork 0; Execvp (CharCmd (cc r)) (expected_argv rule r fl dl)]
                   ++ match w_execvp w with
                      | Some _ => []
                      | None => [Perror "execvp"; Exit EXIT_FAILURE]
                      end)).
Proof.
  intros Hc Hw Ha Hfresh Hff Hfd Hmax Hpid.
  pose proof Hc as [Hrn Hr Hcn Hcc Htn Hdn Hfl Hdl].
  unfold __build. rewrite decide_False by exact Hrn.
  rewrite (bind_Ok _ _ _ _ _ (load_rule_Some rule r (State h t) Hr)).
  rewrite decide_False by tauto.
  rewrite (bind_Ok _ _ _ _ _
             (__build_argv_run fuel w rule h t r c fl dl a Hc Hw Ha Hfresh Hff Hfd Hmax)).
  rewrite decide_False by exact Ha.
  destruct (__build_run_child w a (expected_argv rule r fl dl)
              (<[a := Argv (expected_argv rule r fl dl)]> h) t Hpid
              (lookup_insert_eq _ _ _)) as [E _].
  exact E.
Qed.

(** C1. For a complete rule with [n] flags and [m] dependencies the
    serialization of [__build] asks [calloc] for [n + m + 5] slots and fills
    them, in this order, with the compiler command, the name of each flag
    in list order, ["-o"], the output field, the name of the target, the
    name of each dependency in list order, and NULL in the last slot.
    Where the buffers hold C strings, the vector reads as the [n + m + 4]
    arguments CC F1 .. Fn -o O T D1 .. Dm; and it is this vector, with the
    compiler command as the file, that the child passes to [execvp]. *)
Theorem __build_argv_shape (fuel : nat) (w : world) (rule : pointer)
    (h : gmap Z cell) (t : list event) (r : build_rule_t) (c : compiler_t)
    (tn : item) (fl dl : list (Z * item)) (a : pointer) :
  complete h rule r c fl dl ->
  readable h r c tn fl dl ->
  w_calloc w = Some a -> a <> NULL -> h !! a = None ->
  (length fl <= fuel)%nat -> (length dl <= fuel)%nat ->
  Z.of_nat (length fl + length dl + 5) <= INT_MAX ->
  exists slots,
    __build_argv fuel w rule (State h t) = Ok a (State (<[a := Argv slots]> h) t) /\
    slots = [CharCmd (cc r)] ++ map CharName fl.*1
            ++ [CharLit (lit "-o"); CharOutput rule; CharName (target r)]
            ++ map CharName dl.*1 ++ [CharNull] /\
    length slots = (length fl + length dl + 5)%nat /\
    last slots = Some CharNull /\
    argv_strings (<[a := Argv slots]> h) slots
    = Some ([c_str (cmd c)] ++ c_names fl
            ++ [lit "-o"; c_str (output r); c_str (name tn)] ++ c_names dl) /\
    (w_fork w = 0 ->
     exists rest,
       __build fuel w rule (State h t)
       = Halt (State (<[a := Argv slots]> h)
                     (t ++ [Fork 0; Execvp (CharCmd (cc r)) slots] ++ rest))).
Proof.
  intros Hc [Hcmd Hout Htgt Htn Hfl Hdl] Hw Ha Hfresh Hff Hfd Hmax.
  exists (expected_argv rule r fl dl).
  split; [apply __build_argv_run with (c := c); assumption|].
  split; [reflexivity|].
  assert (Hchild : w_fork w = 0 ->
            exists rest,
              __build fuel w rule (State h t)
              = Halt (State (<[a := Argv (expected_argv rule r fl dl)]> h)
                            (t ++ [Fork 0; Execvp (CharCmd (cc r)) (expected_argv rule r fl dl)]
                               ++ rest))).
  { intros Hpid. eexists.
    apply (__build_child fuel w rule h t r c fl dl a); assumption. }
  destruct Hc as [Hrn Hr Hcn Hcc Htgn Hdn Hlf Hld].
  split; [|split; [|split; [|exact Hchild]]].
  - unfold expected_argv. rewrite !length_app, !length_map, ?length_fmap. simpl. lia.
  - unfold expected_argv.
    rewrite !app_assoc. apply last_snoc.
  - set (h' := <[a := Argv (expected_argv rule r fl dl)]> h).
    assert (Hx : forall q, q <> a -> h' !! q = h !! q)
      by (intros q Hq; apply lookup_insert_ne; congruence).
    assert (Hlf' : is_list flag_t h' (flags c) fl)
      by (apply is_list_insert; [exact Hlf|eapply is_list_fresh; eassumption]).
    assert (Hld' : is_list object_t h' (dependencies r) dl)
      by (apply is_list_insert; [exact Hld|eapply is_list_fresh; eassumption]).
    assert (Hcc' : h' !! cc r = Some (Compiler c))
      by (rewrite Hx by (intros E; rewrite E in Hcc; congruence); exact Hcc).
    assert (Hr' : h' !! rule = Some (Rule r))
      by (rewrite Hx by (intros E; rewrite E in Hr; congruence); exact Hr).
    assert (Htgt' : h' !! target r = Some (Node object_t tn))
      by (rewrite Hx by (intros E; rewrite E in Htgt; congruence); exact Htgt).
    unfold expected_argv.
    change ([CharCmd (cc r)] ++ map CharName fl.*1 ++
            [CharLit (lit "-o"); CharOutput rule; CharName (target r)] ++
            map CharName dl.*1 ++ [CharNull])
      with (CharCmd (cc r) :: (map CharName fl.*1 ++
            (CharLit (lit "-o") :: CharOutput rule :: CharName (target r) ::
             (map CharName dl.*1 ++ [CharNull])))).
    assert (E2 : argv_strings h' (map CharName dl.*1 ++ [CharNull]) = Some (c_names dl ++ []))
      by (apply (argv_strings_names object_t h' dl (dependencies r));
          [exact Hld'|exact Hdl|reflexivity]).
    rewrite app_nil_r in E2.
    assert (E1 : argv_strings h'
                   (CharLit (lit "-o") :: CharOutput rule :: CharName (target r)
                    :: (map CharName dl.*1 ++ [CharNull]))
                 = Some ([lit "-o"; c_str (output r); c_str (name tn)] ++ c_names dl)).
    { cbn [argv_strings load_string].
      rewrite Hr', Hout, Htgt', Htn, E2. reflexivity. }
    cbn [argv_strings load_string].
    rewrite Hcc', Hcmd. cbn [mbind option_bind].
    rewrite (argv_strings_names flag_t h' fl (flags c) _ _ Hlf' Hfl E1). reflexivity.
Qed.

Lemma example_complete :
  complete (heap assembled) 15 example_rule example_compiler example_flags example_deps.
Proof.
  split; try (unfold NULL; simpl; lia); try (vm_compute; reflexivity).
  - simpl. repeat split; try (unfold NULL; lia); vm_compute; reflexivity.
  - simpl. repeat split; try (unfold NULL; lia); vm_compute; reflexivity.
Defined.

Lemma example_readable :
  readable (heap assembled) example_rule example_compiler (OBJECT (lit "test/main.c"))
           example_flags example_deps.
Proof.
  split; try (vm_compute; reflexivity).
  - repeat constructor.
  - repeat constructor.
Defined.

Lemma __build_argv_shape_witness :
  exists slots,
    __build_argv 2 (World (Some 20) 7 (Some (Exited 0))) 15 assembled
    = Ok 20 (State (<[20 := Argv slots]> (heap assembled)) []) /\
    slots = [CharCmd 10; CharName 11; CharName 12; CharLit (lit "-o"); CharOutput 15;
             CharName 3; CharName 13; CharName 14; CharNull] /\
    length slots = 9%nat /\
    argv_strings (<[20 := Argv slots]> (heap assembled)) slots
    = Some [lit "gcc"; lit "-Wall"; lit "-Wextra"; lit "-o"; lit "out";
            lit "test/main.c"; lit "test/foo.c"; lit "test/bar.c"].
Proof.
  destruct (__build_argv_shape 2 (World (Some 20) 7 (Some (Exited 0))) 15
              (heap assembled) [] example_rule example_compiler
              (OBJECT (lit "test/main.c")) example_flags example_deps 20
              example_complete example_readable)
    as (slots & Hrun & Hslots & Hlen & _ & Hstr & _).
  - reflexivity.
  - unfold NULL. lia.
  - vm_compute. reflexivity.
  - simpl. lia.
  - simpl. lia.
  - vm_compute. discriminate.
  - exists slots. split; [exact Hrun|]. split; [exact Hslots|].
    split; [exact Hlen|]. rewrite Hstr. vm_compute. reflexivity.
Defined.

(** ** Fork, exec and wait *)





Lemma __build_run_parent (w : world) (a : pointer) (slots : list charp)
    (h : gmap Z cell) (t : list event) :
  a <> NULL -> h !! a = None -> w_fork w <> 0 ->
  __build_run w a (State (<[a := Argv slots]> h) t)
  = Ok (if decide (w_fork w < 0) then -1
        else if WIFEXITED (wstatus (child_termination w))
                && (WEXITSTATUS (wstatus (child_termination w)) =? 0) then 0 else -1)
       (State h (t ++ (if decide (w_fork w < 0) then [Fork (w_fork w); Perror "fork"]
                       else [Fork (w_fork w)]))).
Proof.
  intros Ha Hfresh Hpid. unfold __build_run.
  unfold bind at 1. unfold emit at 1. simpl.
  assert (Hfree : forall t', free a (State (<[a := Argv slots]> h) t') = Ok tt (State h t')).
  { intros t'. unfold free. rewrite decide_False by exact Ha. simpl.
    rewrite lookup_insert_eq, delete_insert_eq, delete_id by exact Hfresh. reflexivity. }
  destruct (decide (w_fork w < 0)) as [Hneg|Hpos].
  - unfold bind at 1. unfold emit at 1. simpl.
    rewrite (bind_Ok _ _ _ _ _ (Hfree _)). unfold ret. rewrite <- app_assoc. reflexivity.
  - rewrite decide_False by exact Hpid.
    rewrite (bind_Ok _ _ _ _ _ (Hfree _)).
    destruct (WIFEXITED _ && _); reflexivity.
Qed.

Lemma __build_argv_no_memory (fuel : nat) (w : world) (rule : pointer)
    (h : gmap Z cell) (t : list event) (r : build_rule_t) (c : compiler_t)
    (fl dl : list (Z * item)) :
  complete h rule r c fl dl ->
  w_calloc w = None ->
  (length fl <= fuel)%nat -> (length dl <= fuel)%nat ->
  Z.of_nat (length fl + length dl + 5) <= INT_MAX ->
  __build_argv fuel w rule (State h t) = Ok NULL (State h (t ++ [Perror "calloc"])).
Proof.
  intros [Hrn Hr Hcn Hcc Htn Hdn Hfl Hdl] Hw Hff Hfd Hmax.
  unfold __build_argv.
  rewrite (bind_Ok _ _ _ _ _ (load_rule_Some rule r (State h t) Hr)).
  rewrite (bind_Ok _ _ _ _ _ (load_compiler_Some (cc r) c (State h t) Hcc)).
  rewrite (bind_Ok _ _ _ _ _
             (count_loop_run flag_t fuel (State h t) fl (flags c) 0 Hfl Hff ltac:(lia))).
  rewrite (bind_Ok _ _ _ _ _ (load_rule_Some rule r (State h t) Hr)).
  rewrite (bind_Ok _ _ _ _ _
             (count_loop_run object_t fuel (State h t) dl (dependencies r)
                (0 + Z.of_nat (length fl)) Hdl Hfd ltac:(lia))).
  rewrite (bind_Ok _ _ _ _ _
             (int_add_ok (0 + Z.of_nat (length fl) + Z.of_nat (length dl))
                (1 + 1 + 1 + 1 + 1) (State h t) ltac:(lia))).
  rewrite Hw. reflexivity.
Qed.

(** [BUILD] on a complete rule, from call to return. *)
Lemma BUILD_run (fuel : nat) (w : world) (rule : pointer)
    (h : gmap Z cell) (t : list event) (r : build_rule_t) (c : compiler_t)
    (fl dl : list (Z * item)) :
  complete h rule r c fl dl ->
  (forall a, w_calloc w = Some a -> a <> NULL /\ h !! a = None) ->
  w_fork w <> 0 ->
  (length fl <= fuel)%nat -> (length dl <= fuel)%nat ->
  Z.of_nat (length fl + length dl + 5) <= INT_MAX ->
  BUILD fuel w rule (State h t) = Ok (build_result w) (State h (t ++ build_trace w)) /\
  __build fuel w rule (State h t) = Ok (build_result w) (State h (t ++ build_trace w)).
Proof.
  intros Hc Hcalloc Hpid Hff Hfd Hmax.
  assert (E : __build fuel w rule (State h t)
              = Ok (build_result w) (State h (t ++ build_trace w))).
  { pose proof Hc as [Hrn Hr Hcn Hcc Htn Hdn Hfl Hdl].
    unfold __build. rewrite decide_False by exact Hrn.
    rewrite (bind_Ok _ _ _ _ _ (load_rule_Some rule r (State h t) Hr)).
    rewrite decide_False by tauto.
    unfold build_result, build_trace, spawned.
    destruct (w_calloc w) as [a|] eqn:Hw.
    - destruct (Hcalloc a eq_refl) as [Ha Hfresh].
      rewrite (bind_Ok _ _ _ _ _
                 (__build_argv_run fuel w rule h t r c fl dl a Hc Hw Ha Hfresh Hff Hfd Hmax)).
      rewrite decide_False by exact Ha.
      rewrite (__build_run_parent w a _ h t Ha Hfresh Hpid).
      destruct (decide (w_fork w < 0)); reflexivity.
    - rewrite (bind_Ok _ _ _ _ _
                 (__build_argv_no_memory fuel w rule h t r c fl dl Hc Hw Hff Hfd Hmax)).
      reflexivity. }
  split; [|exact E].
  destruct Hc as [Hrn Hr Hcn Hcc Htn Hdn Hfl Hdl].
  unfold BUILD. rewrite decide_False by exact Hrn.
  rewrite (bind_Ok _ _ _ _ _ (load_rule_Some rule r (State h t) Hr)).
  rewrite decide_False by tauto. exact E.
Qed.



(** ** Malformed rules and the reporting of errors *)

Lemma BUILD_malformed (fuel : nat) (w : world) (rule : pointer) (s : state) :
  malformed (heap s) rule ->
  BUILD fuel w rule s = Ok (-1) s /\ __build fuel w rule s = Ok (-1) s.
Proof.
  intros [->|(r & Hr & Hbad)]; [split; reflexivity|].
  assert (E : __build fuel w rule s = Ok (-1) s).
  { unfold __build. destruct (decide (rule = NULL)); [reflexivity|].
    rewrite (bind_Ok _ _ _ _ _ (load_rule_Some _ _ _ Hr)).
    rewrite decide_True by exact Hbad. reflexivity. }
  split; [|exact E].
  unfold BUILD. destruct (decide (rule = NULL)); [reflexivity|].
  rewrite (bind_Ok _ _ _ _ _ (load_rule_Some _ _ _ Hr)).
  rewrite decide_True by exact Hbad. reflexivity.
Qed.

(** C3, as the code has it.  For an absent rule and for a rule without
    compiler, without target or without dependencies, [BUILD] (and [__build]
    behind it) returns -1 in the state it was called in: nothing is
    allocated, nothing is printed and [fork] is not called.  The value is
    the -1 of every other failure. *)
Theorem BUILD_malformed_rule (fuel : nat) (w : world) (rule : pointer) (s : state) :
  malformed (heap s) rule ->
  BUILD fuel w rule s = Ok (-1) s /\
  __build fuel w rule s = Ok (-1) s /\
  (forall s', final (BUILD fuel w rule s) = Some s' -> trace s' = trace s).
Proof.
  intros H. destruct (BUILD_malformed fuel w rule s H) as [E1 E2].
  split; [exact E1|]. split; [exact E2|].
  rewrite E1. intros s' [= <-]. reflexivity.
Qed.

Lemma BUILD_malformed_rule_witness :
  BUILD 2 (World (Some 20) 7 (Some (Exited 0))) 15 before_assembly
  = Ok (-1) before_assembly /\
  BUILD 2 (World (Some 20) 7 (Some (Exited 0))) NULL before_assembly
  = Ok (-1) before_assembly.
Proof.
  split.
  - apply (BUILD_malformed_rule 2 (World (Some 20) 7 (Some (Exited 0))) 15 before_assembly).
    right. exists (BuildRule NULL NULL NULL (memset (junk_buf sample_junk) NUL 1)).
    split; [vm_compute; reflexivity|]. left. reflexivity.
  - apply (BUILD_malformed_rule 2 (World (Some 20) 7 (Some (Exited 0))) NULL before_assembly).
    left. reflexivity.
Defined.

(** The claim C3 as the specification words it asks for a condition of its
    own for the malformed rule.  [BUILD] has none: the rule of example.c
    before its assembly, and the assembled rule whose compiler exits with
    code 1, or for which [calloc] or [fork] fails, all yield -1. *)
Lemma malformed_rule_not_distinct :
  malformed (heap before_assembly) 15 /\
  returned (BUILD 2 (World (Some 20) 7 (Some (Exited 0))) 15 before_assembly) = Some (-1) /\
  returned (BUILD 2 (World (Some 20) 7 (Some (Exited 1))) 15 assembled) = Some (-1) /\
  returned (BUILD 2 (World None 7 (Some (Exited 0))) 15 assembled) = Some (-1) /\
  returned (BUILD 2 (World (Some 20) (-1) (Some (Exited 0))) 15 assembled) = Some (-1) /\
  ~ (returned (BUILD 2 (World (Some 20) 7 (Some (Exited 0))) 15 before_assembly)
     <> returned (BUILD 2 (World (Some 20) 7 (Some (Exited 1))) 15 assembled)).
Proof.
  split.
  - right. exists (BuildRule NULL NULL NULL (memset (junk_buf sample_junk) NUL 1)).
    split; [vm_compute; reflexivity|]. left. reflexivity.
  - repeat split; try (vm_compute; reflexivity).
    intros H. apply H. vm_compute. reflexivity.
Qed.

(** C6, as the code has it.  The append operations and the assembly return
    nothing.  On an error - no memory, a name of 120 characters or more, an
    absent rule or compiler, an empty dependency list - they return as on
    success, and the state is the one they were called in: the error shows
    only in the list or the rule that did not change.  Of the operations of
    the core [BUILD] alone reports an error to its caller, by -1. *)
Theorem errors_reported_by_BUILD_only (T : TYPE) (fuel : nat) (m : malloc_result)
    (HEAD : pointer) (it : item) (s : state) (hd : pointer) (l : list (Z * item))
    (w : world) (__rule __compiler __flags __target __dependencies : pointer)
    (out : list ascii) (rule : pointer) :
  heap s !! HEAD = Some (PtrVar hd) ->
  is_list T (heap s) hd l ->
  (length l <= fuel)%nat ->
  valid_malloc s m ->
  m = None \/ (DEFAULT_CAPACITY <= strlen (name it))%nat ->
  __rule = NULL \/ __compiler = NULL \/ __dependencies = NULL ->
  malformed (heap s) rule ->
  ADD T fuel m HEAD it s = Ok tt s /\
  MAKE_RULE __rule __compiler __flags __target __dependencies out s = Ok tt s /\
  BUILD fuel w rule s = Ok (-1) s /\ -1 <> 0.
Proof.
  intros HH Hl Hfuel Hvalid Hfail Hrej Hmal.
  split; [rewrite ADD_eq; eapply LIST_PUSH_BACK_failure; eassumption|].
  split; [apply MAKE_RULE_rejected; exact Hrej|].
  split; [apply BUILD_malformed; exact Hmal | lia].
Qed.

Lemma errors_reported_by_BUILD_only_witness :
  ADD flag_t 1 (Some (12, sample_junk)) 1 (FLAG long_name) one_flag = Ok tt one_flag /\
  MAKE_RULE NULL 10 11 3 13 (lit "out") one_flag = Ok tt one_flag /\
  BUILD 1 (World (Some 20) 7 (Some (Exited 0))) NULL one_flag = Ok (-1) one_flag /\
  -1 <> 0.
Proof.
  apply (errors_reported_by_BUILD_only flag_t 1 (Some (12, sample_junk)) 1
           (FLAG long_name) one_flag 11
           [(11, Item (node_name sample_junk (lit "-Wall")) NULL)]
           (World (Some 20) 7 (Some (Exited 0))) NULL 10 11 3 13 (lit "out") NULL).
  - reflexivity.
  - simpl. repeat split; unfold NULL; lia.
  - simpl. lia.
  - split; [unfold NULL; lia | reflexivity].
  - right. vm_compute. lia.
  - left. reflexivity.
  - left. reflexivity.
Defined.

(** The claim C6 as the specification words it fails on both operations:
    the append of a name too long and the append of a name that fits return
    the same, and so do the assembly that is refused and the one that is
    carried out; the failed calls leave no trace in the state. *)
Lemma append_and_assembly_signal_nothing :
  returned (ADD_FLAG 1 (Some (12, sample_junk)) 1 (FLAG long_name) one_flag)
  = returned (ADD_FLAG 1 (Some (12, sample_junk)) 1 (FLAG (lit "-O2")) one_flag) /\
  final (ADD_FLAG 1 (Some (12, sample_junk)) 1 (FLAG long_name) one_flag) = Some one_flag /\
  returned (ADD_OBJECT 2 None 2 (OBJECT (lit "a.c")) before_assembly)
  = returned (ADD_OBJECT 2 (Some (16, sample_junk)) 2 (OBJECT (lit "a.c")) before_assembly) /\
  returned (MAKE_RULE 15 NULL 11 3 13 (lit "out") before_assembly)
  = returned (MAKE_RULE 15 10 11 3 13 (lit "out") before_assembly) /\
  final (MAKE_RULE 15 NULL 11 3 13 (lit "out") before_assembly) = Some before_assembly /\
  final (MAKE_RULE 15 10 11 3 13 (lit "out") before_assembly) = Some assembled /\
  assembled <> before_assembly.
Proof.
  repeat split; try (vm_compute; reflexivity).
  intros E. apply (f_equal (fun s => heap s !! 15)) in E. vm_compute in E. discriminate.
Qed.

(** ** The run of example.c *)

(** [main] passes its four assertions, builds, releases and returns 0; the
    parent has forked once, and only the three locals are left of the heap. *)
Example main_returns :
  exists s,
    main 2 sample_frame (sample_answers (World (Some 20) 7 (Some (Exited 0)))) empty_state
    = Ok 0 s /\
    trace s = [Fork 7] /\
    size (heap s) = 3%nat /\
    heap s !! 1 = Some (PtrVar 11) /\
    heap s !! 2 = Some (PtrVar 13) /\
    heap s !! 3 = Some (Node object_t (OBJECT (lit "test/main.c"))).
Proof.
  eexists. split; [vm_compute; reflexivity|].
  repeat split; vm_compute; reflexivity.
Qed.

(** With [malloc] out of memory for the compiler descriptor, [INIT_CC]
    writes through NULL. *)
Example main_without_memory :
  main 2 sample_frame
       (Answers None None None None None None (World None 7 None)) empty_state
  = Fault.
Proof. vm_compute. reflexivity. Qed.

(** * Further properties of the code *)

(** ** Assembly, execution and release together *)

Lemma MAKE_RULE_assembly (__rule __compiler __flags __target __dependencies : pointer)
    (out : list ascii) (h : gmap Z cell) (t : list event)
    (r : build_rule_t) (c : compiler_t) :
  __rule <> NULL -> __compiler <> NULL -> __dependencies <> NULL ->
  h !! __rule = Some (Rule r) -> h !! __compiler = Some (Compiler c) ->
  MAKE_RULE __rule __compiler __flags __target __dependencies out (State h t)
  = Ok tt (State (assembly h __rule __compiler __flags __target __dependencies out r c) t).
Proof. apply MAKE_RULE_success. Qed.

Lemma assembly_lookup (h : gmap Z cell)
    (__rule __compiler __flags __target __dependencies : pointer)
    (out : list ascii) (r : build_rule_t) (c : compiler_t) (a : Z) :
  a <> __rule -> a <> __compiler ->
  assembly h __rule __compiler __flags __target __dependencies out r c !! a = h !! a.
Proof. intros H1 H2. unfold assembly. rewrite !lookup_insert_ne by congruence. reflexivity. Qed.

Lemma assembly_is_list (T : TYPE) (h : gmap Z cell)
    (__rule __compiler __flags __target __dependencies : pointer)
    (out : list ascii) (r : build_rule_t) (c : compiler_t)
    (p : pointer) (l : list (Z * item)) :
  h !! __rule = Some (Rule r) -> h !! __compiler = Some (Compiler c) ->
  is_list T h p l ->
  is_list T (assembly h __rule __compiler __flags __target __dependencies out r c) p l.
Proof.
  intros Hr Hc Hl. unfold assembly.
  apply is_list_insert; [apply is_list_insert; [exact Hl|]|].
  - eapply is_list_not_elem; [exact Hl|]. intros n. rewrite Hc. discriminate.
  - eapply is_list_not_elem; [exact Hl|]. intros n. rewrite Hr. discriminate.
Qed.

(** What [MAKE_RULE] assembles with a target is a rule [BUILD] accepts. *)
Lemma assembly_complete (h : gmap Z cell)
    (__rule __compiler __flags __target __dependencies : pointer)
    (out : list ascii) (r : build_rule_t) (c : compiler_t) (fl dl : list (Z * item)) :
  __rule <> NULL -> __compiler <> NULL -> __dependencies <> NULL -> __target <> NULL ->
  h !! __rule = Some (Rule r) -> h !! __compiler = Some (Compiler c) ->
  is_list flag_t h __flags fl -> is_list object_t h __dependencies dl ->
  complete (assembly h __rule __compiler __flags __target __dependencies out r c) __rule
           (BuildRule __target __dependencies __compiler (strncpy (output r) out CC_CAPACITY))
           (CompilerT (cmd c) __flags) fl dl.
Proof.
  intros Hrn Hcn Hdn Htn Hr Hc Hfl Hdl.
  assert (Hne : __rule <> __compiler) by (intros E; rewrite E in Hr; congruence).
  split; simpl; try assumption.
  - unfold assembly. apply lookup_insert_eq.
  - unfold assembly. rewrite lookup_insert_ne by exact Hne. apply lookup_insert_eq.
  - apply assembly_is_list; assumption.
  - apply assembly_is_list; assumption.
Qed.



(** [MAKE_RULE] does not look at the target.  With a NULL target it
    assembles the rule all the same - compiler, flags, output and
    dependencies are stored - and it is [BUILD] that turns the rule away,
    with -1 and without a process. *)
Theorem MAKE_RULE_accepts_absent_target (fuel : nat) (w : world)
    (__rule __compiler __flags __dependencies : pointer)
    (out : list ascii) (h : gmap Z cell) (t : list event)
    (r : build_rule_t) (c : compiler_t) :
  __rule <> NULL -> __compiler <> NULL -> __dependencies <> NULL ->
  h !! __rule = Some (Rule r) -> h !! __compiler = Some (Compiler c) ->
  MAKE_RULE __rule __compiler __flags NULL __dependencies out (State h t)
  = Ok tt (State (assembly h __rule __compiler __flags NULL __dependencies out r c) t) /\
  assembly h __rule __compiler __flags NULL __dependencies out r c !! __rule
  = Some (Rule (BuildRule NULL __dependencies __compiler
                          (strncpy (output r) out CC_CAPACITY))) /\
  BUILD fuel w __rule
    (State (assembly h __rule __compiler __flags NULL __dependencies out r c) t)
  = Ok (-1) (State (assembly h __rule __compiler __flags NULL __dependencies out r c) t).
Proof.
  intros Hrn Hcn Hdn Hr Hc.
  split; [apply MAKE_RULE_assembly; assumption|].
  assert (E : assembly h __rule __compiler __flags NULL __dependencies out r c !! __rule
              = Some (Rule (BuildRule NULL __dependencies __compiler
                                      (strncpy (output r) out CC_CAPACITY))))
    by (unfold assembly; apply lookup_insert_eq).
  split; [exact E|].
  apply BUILD_malformed. right. eexists. split; [exact E|]. right. left. reflexivity.
Qed.

Lemma MAKE_RULE_accepts_absent_target_witness :
  exists s r',
    MAKE_RULE 15 10 11 NULL 13 (lit "out") before_assembly = Ok tt s /\
    heap s !! 15 = Some (Rule r') /\
    target r' = NULL /\ dependencies r' = 13 /\ cc r' = 10 /\
    BUILD 2 (World (Some 20) 7 (Some (Exited 0))) 15 s = Ok (-1) s.
Proof.
  destruct (MAKE_RULE_accepts_absent_target 2 (World (Some 20) 7 (Some (Exited 0)))
              15 10 11 13 (lit "out") (heap before_assembly) []
              (BuildRule NULL NULL NULL (memset (junk_buf sample_junk) NUL 1))
              (CompilerT (strncpy (memset (junk_buf sample_junk) NUL 1) (lit "gcc") CC_CAPACITY)
                         NULL))
    as (Hrun & Hlook & Hbuild).
  - unfold NULL; lia.
  - unfold NULL; lia.
  - unfold NULL; lia.
  - vm_compute. reflexivity.
  - vm_compute. reflexivity.
  - eexists. eexists. split; [exact Hrun|]. split; [exact Hlook|].
    split; [reflexivity|]. split; [reflexivity|]. split; [reflexivity|]. exact Hbuild.
Defined.

(** ** Release *)







(** ** The initialisers *)

Lemma memset_one (b : list ascii) :
  (0 < length b)%nat ->
  memset b NUL 1 = NUL :: skipn 1 b /\
  length (memset b NUL 1) = length b /\
  c_str (memset b NUL 1) = [] /\
  terminated (memset b NUL 1) = true.
Proof.
  intros Hb. unfold memset. simpl repeat. simpl app.
  split; [reflexivity|]. split.
  - simpl. rewrite length_skipn. lia.
  - split; [reflexivity|]. unfold terminated. simpl. reflexivity.
Qed.

(** [INIT_RULE] with memory at hand yields an empty rule: target,
    dependencies and compiler are NULL.  Of the output field only the first
    character is cleared - the other 119 are what [malloc] left there - and
    that is enough for the field to read as the empty string.  [BUILD]
    turns the fresh rule away. *)
Theorem INIT_RULE_gives_empty_rule (fuel : nat) (w : world) (p : pointer) (j : junk)
    (h : gmap Z cell) (t : list event) :
  p <> NULL ->
  exists out s',
    INIT_RULE (Some (p, j)) (State h t) = Ok p s' /\
    s' = State (<[p := Rule (BuildRule NULL NULL NULL out)]> h) t /\
    length out = OUT_CAPACITY /\
    skipn 1 out = skipn 1 (junk_buf j) /\
    terminated out = true /\ c_str out = [] /\
    BUILD fuel w p s' = Ok (-1) s'.
Proof.
  intros Hp. pose proof (length_junk_buf j) as Hj.
  destruct (memset_one (junk_buf j)) as (Hm & Hlen & Hstr & Hterm).
  { rewrite Hj. unfold DEFAULT_CAPACITY. lia. }
  exists (memset (junk_buf j) NUL 1). eexists. split.
  - unfold INIT_RULE, malloc.
    unfold bind at 1. unfold bind at 1. simpl.
    repeat (erewrite bind_Ok by (apply load_rule_Some; simpl; apply lookup_insert_eq);
            erewrite bind_Ok by (eapply store_rule_Some; simpl; apply lookup_insert_eq)).
    simpl. unfold ret. rewrite !insert_insert_eq. reflexivity.
  - split; [reflexivity|]. split; [rewrite Hlen; exact Hj|].
    split; [rewrite Hm; reflexivity|]. split; [exact Hterm|]. split; [exact Hstr|].
    apply BUILD_malformed. right. eexists. split; [simpl; apply lookup_insert_eq|].
    left. reflexivity.
Qed.

Lemma INIT_RULE_gives_empty_rule_witness :
  exists out s',
    INIT_RULE (Some (15, sample_junk)) empty_state = Ok 15 s' /\
    heap s' !! 15 = Some (Rule (BuildRule NULL NULL NULL out)) /\
    c_str out = [] /\
    BUILD 1 (World (Some 20) 7 (Some (Exited 0))) 15 s' = Ok (-1) s'.
Proof.
  destruct (INIT_RULE_gives_empty_rule 1 (World (Some 20) 7 (Some (Exited 0))) 15
              sample_junk ∅ [])
    as (out & s' & Hrun & Hs & _ & _ & _ & Hstr & Hbuild).
  - unfold NULL. lia.
  - exists out, s'. split; [exact Hrun|]. split; [|split; [exact Hstr|exact Hbuild]].
    rewrite Hs. simpl. apply lookup_insert_eq.
Defined.

(** [INIT_CC] with memory at hand yields a compiler without flags whose
    command reads as the empty string; as in [INIT_RULE], one character of
    the field is cleared and the rest is left as [malloc] gave it. *)
Theorem INIT_CC_gives_empty_compiler (p : pointer) (j : junk)
    (h : gmap Z cell) (t : list event) :
  p <> NULL ->
  exists command,
    INIT_CC (Some (p, j)) (State h t)
    = Ok p (State (<[p := Compiler (CompilerT command NULL)]> h) t) /\
    length command = CC_CAPACITY /\
    skipn 1 command = skipn 1 (junk_buf j) /\
    terminated command = true /\ c_str command = [].
Proof.
  intros Hp. pose proof (length_junk_buf j) as Hj.
  destruct (memset_one (junk_buf j)) as (Hm & Hlen & Hstr & Hterm).
  { rewrite Hj. unfold DEFAULT_CAPACITY. lia. }
  exists (memset (junk_buf j) NUL 1). split.
  - unfold INIT_CC, malloc.
    unfold bind at 1. unfold bind at 1. simpl.
    repeat (erewrite bind_Ok by (apply load_compiler_Some; simpl; apply lookup_insert_eq);
            erewrite bind_Ok by (eapply store_compiler_Some; simpl; apply lookup_insert_eq)).
    simpl. unfold ret. rewrite !insert_insert_eq. reflexivity.
  - split; [rewrite Hlen; exact Hj|].
    split; [rewrite Hm; reflexivity|]. split; [exact Hterm|exact Hstr].
Qed.

Lemma INIT_CC_gives_empty_compiler_witness :
  exists command,
    INIT_CC (Some (10, sample_junk)) empty_state
    = Ok 10 (State (<[10 := Compiler (CompilerT command NULL)]> ∅) []) /\
    c_str command = [].
Proof.
  destruct (INIT_CC_gives_empty_compiler 10 sample_junk ∅ [])
    as (command & Hrun & _ & _ & _ & Hstr).
  - unfold NULL. lia.
  - exists command. split; [exact Hrun|exact Hstr].
Defined.

(** Neither initialiser looks at what [malloc] returned: without memory the
    first assignment goes through NULL. *)
Theorem INIT_without_memory_faults (s : state) :
  heap s !! NULL = None ->
  INIT_CC None s = Fault /\ INIT_RULE None s = Fault.
Proof.
  intros H. split.
  - unfold INIT_CC, malloc, bind, ret, load_compiler. rewrite H. reflexivity.
  - unfold INIT_RULE, malloc, bind, ret, load_rule. rewrite H. reflexivity.
Qed.

Lemma INIT_without_memory_faults_witness :
  INIT_CC None empty_state = Fault /\ INIT_RULE None empty_state = Fault.
Proof. apply (INIT_without_memory_faults empty_state). reflexivity. Defined.

(** ** The setters, once more *)

(** [strncpy] with the size of the array as bound rewrites the whole array:
    the result does not depend on what the array held. *)
Lemma strncpy_full (dst src : list ascii) (n : nat) :
  (length dst <= n)%nat ->
  strncpy dst src n = firstn n (c_str src) ++ repeat NUL (n - strlen src) /\
  length (strncpy dst src n) = n.
Proof.
  intros Hd. unfold strncpy. rewrite skipn_all2 by exact Hd. rewrite app_nil_r.
  split; [reflexivity|].
  rewrite length_app, length_firstn, length_c_str, repeat_length. lia.
Qed.

Lemma strncpy_terminated_iff (dst src : list ascii) (n : nat) :
  (length dst <= n)%nat ->
  (terminated (strncpy dst src n) = true <-> (strlen src < n)%nat).
Proof.
  intros Hd. destruct (strncpy_full dst src n Hd) as [E Hlen].
  unfold terminated. rewrite Hlen, Nat.ltb_lt, E.
  destruct (le_lt_dec n (strlen src)) as [Hlong|Hshort].
  - replace (n - strlen src)%nat with 0%nat by lia. simpl. rewrite app_nil_r.
    rewrite strlen_firstn_c_str, length_firstn, length_c_str. lia.
  - rewrite firstn_all2 by (rewrite length_c_str; lia).
    destruct (n - strlen src)%nat as [|k] eqn:Ek; [lia|]. simpl.
    rewrite strlen_c_str_app. lia.
Qed.

Lemma SET_OUT_run (__RULE_PTR__ : pointer) (src : list ascii) (s : state) (r : build_rule_t) :
  heap s !! __RULE_PTR__ = Some (Rule r) ->
  SET_OUT __RULE_PTR__ src s
  = Ok tt (State (<[__RULE_PTR__ := Rule (BuildRule (target r) (dependencies r) (cc r)
                                            (strncpy (output r) src CC_CAPACITY))]> (heap s))
                 (trace s)).
Proof.
  intros H. unfold SET_OUT.
  rewrite (bind_Ok _ _ _ _ _ (load_rule_Some _ _ _ H)).
  apply store_rule_Some with (r := r). exact H.
Qed.

(** [SET_OUT] never writes outside the output field and touches no other
    field of the rule.  The field afterwards holds the first 120 characters
    of the path, padded with NUL; it is a C string exactly when the path has
    fewer than 120 characters, and then it reads back as the path. *)
Theorem SET_OUT_bounded (__RULE_PTR__ : pointer) (src : list ascii)
    (s : state) (r : build_rule_t) :
  heap s !! __RULE_PTR__ = Some (Rule r) ->
  length (output r) = OUT_CAPACITY ->
  exists s' out,
    SET_OUT __RULE_PTR__ src s = Ok tt s' /\
    heap s' !! __RULE_PTR__
    = Some (Rule (BuildRule (target r) (dependencies r) (cc r) out)) /\
    (forall a, a <> __RULE_PTR__ -> heap s' !! a = heap s !! a) /\
    length out = OUT_CAPACITY /\
    out = firstn 120 (c_str src) ++ repeat NUL (120 - strlen src) /\
    (terminated out = true <-> (strlen src < 120)%nat) /\
    ((strlen src < 120)%nat -> c_str out = c_str src).
Proof.
  intros H Hlen.
  assert (Hd : (length (output r) <= CC_CAPACITY)%nat) by (rewrite Hlen; reflexivity).
  destruct (strncpy_full (output r) src CC_CAPACITY Hd) as [E Hl].
  eexists. eexists. split; [apply SET_OUT_run; exact H|]. simpl.
  split; [apply lookup_insert_eq|].
  split; [intros a Ha; apply lookup_insert_ne; congruence|].
  split; [exact Hl|]. split; [exact E|].
  split; [apply (strncpy_terminated_iff (output r) src CC_CAPACITY Hd)|].
  intros Hfit. rewrite strncpy_short; [|exact Hfit|exact Hlen].
  destruct (CC_CAPACITY - strlen src)%nat as [|k] eqn:Ek.
  - change CC_CAPACITY with 120%nat in Ek. lia.
  - simpl. apply c_str_app_nul.
Qed.

Lemma SET_OUT_bounded_witness :
  exists s' out,
    SET_OUT 15 (lit "build/a.out") before_assembly = Ok tt s' /\
    heap s' !! 15 = Some (Rule (BuildRule NULL NULL NULL out)) /\
    c_str out = lit "build/a.out".
Proof.
  destruct (SET_OUT_bounded 15 (lit "build/a.out") before_assembly
              (BuildRule NULL NULL NULL (memset (junk_buf sample_junk) NUL 1)))
    as (s' & out & Hrun & Hlook & _ & _ & _ & _ & Hread).
  - vm_compute. reflexivity.
  - vm_compute. reflexivity.
  - exists s', out. split; [exact Hrun|]. split; [exact Hlook|].
    rewrite Hread; [reflexivity|]. vm_compute. lia.
Defined.

(** [SET_CC] called again replaces the command altogether: since [strncpy]
    fills the field to its end, nothing of an earlier, longer command
    shows behind a later, shorter one. *)
Theorem SET_CC_last_write_wins (__CC_PTR__ : pointer) (first second : list ascii)
    (s : state) (c : compiler_t) :
  heap s !! __CC_PTR__ = Some (Compiler c) ->
  length (cmd c) = CC_CAPACITY ->
  (SET_CC __CC_PTR__ first ;;; SET_CC __CC_PTR__ second) s = SET_CC __CC_PTR__ second s.
Proof.
  intros H Hlen.
  rewrite (bind_Ok _ _ _ _ _ (SET_CC_run __CC_PTR__ first s c H)).
  erewrite SET_CC_run by (simpl; apply lookup_insert_eq).
  rewrite (SET_CC_run __CC_PTR__ second s c H). simpl.
  rewrite insert_insert_eq.
  destruct (strncpy_full (cmd c) first CC_CAPACITY) as [_ Hl1]; [rewrite Hlen; reflexivity|].
  destruct (strncpy_full (strncpy (cmd c) first CC_CAPACITY) second CC_CAPACITY) as [E1 _];
    [rewrite Hl1; reflexivity|].
  destruct (strncpy_full (cmd c) second CC_CAPACITY) as [E2 _]; [rewrite Hlen; reflexivity|].
  rewrite E1, E2. reflexivity.
Qed.

Lemma SET_CC_last_write_wins_witness :
  (SET_CC 10 (lit "x86_64-linux-gnu-gcc") ;;; SET_CC 10 (lit "cc")) before_assembly
  = SET_CC 10 (lit "cc") before_assembly.
Proof.
  apply (SET_CC_last_write_wins 10 (lit "x86_64-linux-gnu-gcc") (lit "cc") before_assembly
           (CompilerT (strncpy (memset (junk_buf sample_junk) NUL 1) (lit "gcc") CC_CAPACITY)
                      NULL)).
  - vm_compute. reflexivity.
  - vm_compute. reflexivity.
Defined.

Lemma SET_CC_short_witness :
  exists s' c',
    SET_CC 10 (lit "clang") before_assembly = Ok tt s' /\
    heap s' !! 10 = Some (Compiler c') /\
    c_str (cmd c') = lit "clang".
Proof.
  destruct (SET_CC_short 10 (lit "clang") before_assembly
              (CompilerT (strncpy (memset (junk_buf sample_junk) NUL 1) (lit "gcc") CC_CAPACITY)
                         NULL))
    as (s' & c' & Hrun & Hlook & _ & _ & Hread).
  - vm_compute. reflexivity.
  - vm_compute. reflexivity.
  - vm_compute. lia.
  - exists s', c'. split; [exact Hrun|]. split; [exact Hlook|exact Hread].
Defined.

(** ** What the append operations build *)

(** A [name] array as the lists keep it: [DEFAULT_CAPACITY] characters with
    a NUL among them. *)
Lemma Forall_names (P : list ascii -> Prop) (l : list (Z * item)) :
  Forall (fun x => P (name x.2)) l <-> Forall P (map (fun x => name x.2) l).
Proof. rewrite Forall_map. reflexivity. Qed.

(** Every node that the append operations add holds a C string in an
    array of 120 characters: a list built by them from the empty list, or
    from a list whose names are such, can be read by [BUILD] without leaving
    an array. *)
Theorem appended_names_are_strings (T : TYPE) (fuel : nat) (HEAD : pointer)
    (h : gmap Z cell) (t : list event) (hd : pointer) (l : list (Z * item))
    (calls : list (Z * junk * item)) :
  h !! HEAD = Some (PtrVar hd) ->
  is_list T h hd l ->
  (length l + length calls <= fuel)%nat ->
  Forall (succeeds h) calls ->
  NoDup calls.*1.*1 ->
  Forall (fun x => terminated (name x.2) = true /\ length (name x.2) = DEFAULT_CAPACITY) l ->
  exists h' hd' l',
    appends T fuel HEAD (map call_of calls) (State h t) = Ok tt (State h' t) /\
    h' !! HEAD = Some (PtrVar hd') /\
    is_list T h' hd' l' /\
    Forall (fun x => terminated (name x.2) = true /\ length (name x.2) = DEFAULT_CAPACITY) l'.
Proof.
  intros HH Hl Hfuel Hok Hnd Hold.
  destruct (appends_run T fuel HEAD t calls h hd l HH Hl Hfuel Hok Hnd)
    as (h' & hd' & l' & Hrun & HH' & Hl' & _ & Hnames & _).
  exists h', hd', l'. repeat split; try assumption.
  apply (Forall_names (fun b => terminated b = true /\ length b = DEFAULT_CAPACITY)).
  rewrite Hnames. apply Forall_app. split.
  - apply (Forall_names (fun b => terminated b = true /\ length b = DEFAULT_CAPACITY)).
    exact Hold.
  - apply Forall_map. eapply Forall_impl; [exact Hok|].
    intros [[p j] it] (_ & _ & Hfit). simpl in *. split.
    + apply terminated_node_name. exact Hfit.
    + apply length_node_name. exact Hfit.
Qed.

Lemma appended_names_are_strings_witness :
  exists h' hd' l',
    appends object_t 2 2
      [(Some (13, sample_junk), OBJECT (lit "test/foo.c"));
       (Some (14, sample_junk), OBJECT (lit "test/bar.c"))]
      (State {[ 2 := PtrVar NULL ]} [])
    = Ok tt (State h' []) /\
    is_list object_t h' hd' l' /\
    Forall (fun x => terminated (name x.2) = true) l'.
Proof.
  destruct (appended_names_are_strings object_t 2 2 {[ 2 := PtrVar NULL ]} [] NULL []
              [(13, sample_junk, OBJECT (lit "test/foo.c"));
               (14, sample_junk, OBJECT (lit "test/bar.c"))])
    as (h' & hd' & l' & Hrun & _ & Hl & Hall).
  - reflexivity.
  - reflexivity.
  - simpl. lia.
  - repeat constructor; simpl; try (unfold NULL; lia); vm_compute; lia.
  - apply (bool_decide_unpack _). vm_compute. exact I.
  - constructor.
  - exists h', hd', l'. split; [exact Hrun|]. split; [exact Hl|].
    eapply Forall_impl; [exact Hall|]. intros x [Hx _]. exact Hx.
Defined.

(** *** Literals at the boundary *)

Lemma nul_free_strlen_app (s r : list ascii) :
  nul_free s -> strlen (s ++ NUL :: r) = length s.
Proof.
  unfold nul_free. intros H. rewrite strlen_no_nul_app by exact H. simpl. lia.
Qed.

Lemma nul_free_c_str (s : list ascii) : nul_free s -> c_str s = s.
Proof. unfold nul_free, c_str. intros ->. apply firstn_all. Qed.

Lemma nul_free_firstn (s : list ascii) (n : nat) : nul_free s -> nul_free (firstn n s).
Proof.
  intros H. unfold nul_free. rewrite <- (nul_free_c_str s H).
  apply strlen_firstn_c_str.
Qed.

Lemma firstn_repeat_le {A} (x : A) (k n : nat) :
  (k <= n)%nat -> firstn k (repeat x n) = repeat x k.
Proof.
  revert n. induction k as [|k IH]; intros n Hk; [reflexivity|].
  destruct n as [|n]; [lia|]. simpl. f_equal. apply IH. lia.
Qed.

Lemma char_array_short (s : list ascii) :
  (length s < DEFAULT_CAPACITY)%nat ->
  char_array s = s ++ repeat NUL (DEFAULT_CAPACITY - length s).
Proof.
  intros H. unfold char_array. rewrite firstn_app.
  rewrite firstn_all2 by lia. f_equal.
  apply firstn_repeat_le. lia.
Qed.

Lemma char_array_long (s : list ascii) :
  (DEFAULT_CAPACITY <= length s)%nat ->
  char_array s = firstn DEFAULT_CAPACITY s.
Proof.
  intros H. unfold char_array. rewrite firstn_app.
  replace (DEFAULT_CAPACITY - length s)%nat with 0%nat by lia.
  simpl. apply app_nil_r.
Qed.

Lemma strlen_char_array (s : list ascii) :
  nul_free s -> strlen (char_array s) = Nat.min DEFAULT_CAPACITY (length s).
Proof.
  intros H. destruct (le_lt_dec DEFAULT_CAPACITY (length s)) as [Hlong|Hshort].
  - rewrite char_array_long by exact Hlong.
    rewrite (nul_free_firstn s DEFAULT_CAPACITY H), length_firstn. reflexivity.
  - rewrite char_array_short by exact Hshort. rewrite Nat.min_r by lia.
    destruct (DEFAULT_CAPACITY - length s)%nat as [|k] eqn:Ek; [lia|].
    apply nul_free_strlen_app. exact H.
Qed.

(** [ADD_FLAG(&list, FLAG(s))] and [ADD_OBJECT(&list, OBJECT(s))] for a
    literal [s], with memory at hand.  A literal of at most 119 characters
    is appended, and the iteration then reads the names the list had and [s]
    itself behind them, nothing cut.  A literal of 120 characters or more
    is not appended, not even in part: the state is what it was. *)
Theorem literal_appended_whole_or_not_at_all (T : TYPE) (fuel : nat)
    (p : pointer) (j : junk) (HEAD : pointer) (s : list ascii)
    (h : gmap Z cell) (t : list event) (hd : pointer) (l : list (Z * item)) :
  h !! HEAD = Some (PtrVar hd) ->
  is_list T h hd l ->
  (length l < fuel)%nat ->
  valid_malloc (State h t) (Some (p, j)) ->
  nul_free s ->
  ((length s <= 119)%nat ->
   exists h' hd',
     ADD T fuel (Some (p, j)) HEAD (FLAG s) (State h t) = Ok tt (State h' t) /\
     h' !! HEAD = Some (PtrVar hd') /\
     iterate T fuel hd' (State h' t) = Ok (c_names l ++ [s]) (State h' t)) /\
  ((120 <= length s)%nat ->
   ADD T fuel (Some (p, j)) HEAD (FLAG s) (State h t) = Ok tt (State h t)) /\
  OBJECT s = FLAG s.
Proof.
  intros HH Hl Hfuel Hvalid Hs. pose proof DEFAULT_CAPACITY_eq as Hcap.
  pose proof (strlen_char_array s Hs) as Hlen.
  split; [|split; [|reflexivity]].
  - intros Hfit. destruct Hvalid as [Hp Hfresh]. simpl in Hfresh.
    assert (Hlt : (strlen (name (FLAG s)) < DEFAULT_CAPACITY)%nat) by (simpl; lia).
    set (new := Item (node_name j (name (FLAG s))) NULL).
    destruct (pushed_is_list T h HEAD hd l p new HH Hl Hp Hfresh eq_refl)
      as (hd' & HH' & Hl').
    exists (pushed T h HEAD l p new), hd'. split; [|split; [exact HH'|]].
    + rewrite ADD_eq. apply LIST_PUSH_BACK_success with (hd := hd);
        [exact HH|exact Hl|lia|split; assumption|exact Hlt].
    + rewrite (iterate_is_list T fuel (State (pushed T h HEAD l p new) t) _ hd' Hl')
        by (rewrite length_app, link_tail_length; simpl; lia).
      f_equal. unfold c_names. rewrite map_app.
      fold (c_names (link_tail l p)). rewrite link_tail_c_names. f_equal.
      simpl. rewrite c_str_node_name by exact Hlt.
      rewrite char_array_short by lia.
      destruct (DEFAULT_CAPACITY - length s)%nat as [|k] eqn:Ek; [lia|]. simpl.
      rewrite <- (nul_free_c_str s Hs) at 1. rewrite c_str_app_nul.
      rewrite nul_free_c_str by exact Hs. reflexivity.
  - intros Hlong. rewrite ADD_eq.
    apply (LIST_PUSH_BACK_failure T fuel (Some (p, j)) HEAD (FLAG s) (State h t) hd l);
      [exact HH|exact Hl|lia|exact Hvalid|].
    right. simpl. lia.
Qed.

Lemma literal_appended_whole_or_not_at_all_witness :
  (exists h' hd',
     ADD flag_t 2 (Some (12, sample_junk)) 1 (FLAG (lit "-O2")) one_flag
     = Ok tt (State h' []) /\
     iterate flag_t 2 hd' (State h' []) = Ok [lit "-Wall"; lit "-O2"] (State h' [])) /\
  ADD flag_t 2 (Some (12, sample_junk)) 1 (FLAG long_name) one_flag = Ok tt one_flag.
Proof.
  split.
  - destruct (literal_appended_whole_or_not_at_all flag_t 2 12 sample_junk 1 (lit "-O2")
                (heap one_flag) [] 11
                [(11, Item (node_name sample_junk (lit "-Wall")) NULL)])
      as [Hshort _].
    + reflexivity.
    + simpl. repeat split; unfold NULL; lia.
    + simpl. lia.
    + split; [unfold NULL; lia | reflexivity].
    + reflexivity.
    + destruct Hshort as (h' & hd' & Hrun & _ & Hiter); [simpl; lia|].
      exists h', hd'. split; [exact Hrun|exact Hiter].
  - destruct (literal_appended_whole_or_not_at_all flag_t 2 12 sample_junk 1 long_name
                (heap one_flag) [] 11
                [(11, Item (node_name sample_junk (lit "-Wall")) NULL)])
      as (_ & Hlong & _).
    + reflexivity.
    + simpl. repeat split; unfold NULL; lia.
    + simpl. lia.
    + split; [unfold NULL; lia | reflexivity].
    + reflexivity.
    + apply Hlong. simpl. lia.
Defined.

(** ** What [BUILD] leaves behind *)

(** [BUILD] on a complete rule returns with the heap it was called in - the
    argument vector is freed on the three paths that allocated it - and it
    has called [fork] at most once, and not at all when [calloc] failed.  It
    prints through [perror] exactly when [calloc] or [fork] failed, naming
    the call; a compiler that fails draws no message from [BUILD]. *)
Theorem BUILD_effects (fuel : nat) (w : world) (rule : pointer)
    (h : gmap Z cell) (t : list event) (r : build_rule_t) (c : compiler_t)
    (fl dl : list (Z * item)) :
  complete h rule r c fl dl ->
  (forall a, w_calloc w = Some a -> a <> NULL /\ h !! a = None) ->
  w_fork w <> 0 ->
  (length fl <= fuel)%nat -> (length dl <= fuel)%nat ->
  Z.of_nat (length fl + length dl + 5) <= INT_MAX ->
  exists v tr,
    BUILD fuel w rule (State h t) = Ok v (State h (t ++ tr)) /\
    (w_calloc w = None -> tr = [Perror "calloc"] /\ v = -1) /\
    (w_calloc w <> None -> w_fork w < 0 ->
     tr = [Fork (w_fork w); Perror "fork"] /\ v = -1) /\
    (w_calloc w <> None -> 0 < w_fork w -> tr = [Fork (w_fork w)]).
Proof.
  intros Hc Hcalloc Hpid Hff Hfd Hmax.
  destruct (BUILD_run fuel w rule h t r c fl dl Hc Hcalloc Hpid Hff Hfd Hmax) as [E _].
  exists (build_result w), (build_trace w). split; [exact E|].
  unfold build_trace, build_result, spawned.
  destruct (w_calloc w) as [a|].
  - split; [discriminate|]. split.
    + intros _ Hneg. rewrite !decide_True by exact Hneg. split; reflexivity.
    + intros _ Hpos. rewrite decide_False by lia. reflexivity.
  - split; [intros _; split; reflexivity|]. split; intros H; contradiction.
Qed.

Lemma BUILD_effects_witness :
  BUILD 2 (World None 7 (Some (Exited 0))) 15 assembled
  = Ok (-1) (State (heap assembled) [Perror "calloc"]) /\
  BUILD 2 (World (Some 20) (-1) (Some (Exited 0))) 15 assembled
  = Ok (-1) (State (heap assembled) [Fork (-1); Perror "fork"]).
Proof.
  split.
  - destruct (BUILD_effects 2 (World None 7 (Some (Exited 0))) 15 (heap assembled) []
                example_rule example_compiler example_flags example_deps example_complete)
      as (v & tr & Hrun & Hnone & _).
    + intros a [=].
    + simpl. lia.
    + simpl. lia.
    + simpl. lia.
    + vm_compute. discriminate.
    + destruct (Hnone eq_refl) as [-> ->]. exact Hrun.
  - destruct (BUILD_effects 2 (World (Some 20) (-1) (Some (Exited 0))) 15 (heap assembled) []
                example_rule example_compiler example_flags example_deps example_complete)
      as (v & tr & Hrun & _ & Hfork & _).
    + intros a [= <-]. split; [unfold NULL; lia | vm_compute; reflexivity].
    + simpl. lia.
    + simpl. lia.
    + simpl. lia.
    + vm_compute. discriminate.
    + destruct Hfork as [-> ->]; [discriminate|simpl; lia|]. exact Hrun.
Defined.

(** In the child [BUILD] never returns to its caller.  The child calls
    [execvp] with the compiler command as file and the argument vector; then
    its image is the compiler, or, [execvp] having failed, it prints and
    leaves with [EXIT_FAILURE] rather than run on in the code of the
    parent. *)
Theorem BUILD_never_returns_in_child (fuel : nat) (w : world) (rule : pointer)
    (h : gmap Z cell) (t : list event) (r : build_rule_t) (c : compiler_t)
    (fl dl : list (Z * item)) (a : pointer) :
  complete h rule r c fl dl ->
  w_calloc w = Some a -> a <> NULL -> h !! a = None ->
  (length fl <= fuel)%nat -> (length dl <= fuel)%nat ->
  Z.of_nat (length fl + length dl + 5) <= INT_MAX ->
  w_fork w = 0 ->
  exists s',
    BUILD fuel w rule (State h t) = Halt s' /\
    returned (BUILD fuel w rule (State h t)) = None /\
    (w_execvp w <> None ->
     trace s' = t ++ [Fork 0; Execvp (CharCmd (cc r)) (expected_argv rule r fl dl)]) /\
    (w_execvp w = None ->
     trace s' = t ++ [Fork 0; Execvp (CharCmd (cc r)) (expected_argv rule r fl dl);
                      Perror "execvp"; Exit EXIT_FAILURE]).
Proof.
  intros Hc Hw Ha Hfresh Hff Hfd Hmax Hpid.
  pose proof (__build_child fuel w rule h t r c fl dl a Hc Hw Ha Hfresh Hff Hfd Hmax Hpid) as E.
  destruct Hc as [Hrn Hr Hcn Hcc Htn Hdn Hfl Hdl].
  assert (EB : BUILD fuel w rule (State h t) = __build fuel w rule (State h t)).
  { unfold BUILD. rewrite decide_False by exact Hrn.
    rewrite (bind_Ok _ _ _ _ _ (load_rule_Some rule r (State h t) Hr)).
    rewrite decide_False by tauto. reflexivity. }
  eexists. rewrite EB, E. split; [reflexivity|]. split; [reflexivity|]. simpl.
  destruct (w_execvp w); split; intros H; try reflexivity; try discriminate.
  contradiction.
Qed.

Lemma BUILD_never_returns_in_child_witness :
  exists s',
    BUILD 2 (World (Some 20) 0 None) 15 assembled = Halt s' /\
    trace s'
    = [Fork 0;
       Execvp (CharCmd 10)
         [CharCmd 10; CharName 11; CharName 12; CharLit (lit "-o"); CharOutput 15;
          CharName 3; CharName 13; CharName 14; CharNull];
       Perror "execvp"; Exit 1].
Proof.
  destruct (BUILD_never_returns_in_child 2 (World (Some 20) 0 None) 15 (heap assembled) []
              example_rule example_compiler example_flags example_deps 20 example_complete)
    as (s' & Hrun & _ & _ & Hfail).
  - reflexivity.
  - unfold NULL. lia.
  - vm_compute. reflexivity.
  - simpl. lia.
  - simpl. lia.
  - vm_compute. discriminate.
  - reflexivity.
  - exists s'. split; [exact Hrun|]. rewrite Hfail by reflexivity. reflexivity.
Defined.

(** ** The diagnostic mode *)

Lemma nul_free_app (a b : list ascii) : nul_free a -> nul_free b -> nul_free (a ++ b).
Proof.
  unfold nul_free. intros Ha Hb. rewrite strlen_no_nul_app by exact Ha.
  rewrite length_app. lia.
Qed.

Lemma nul_free_c_str_of (s : list ascii) : nul_free (c_str s).
Proof. unfold nul_free. rewrite strlen_c_str, length_c_str. reflexivity. Qed.

Lemma nul_free_concat (l : list (list ascii)) :
  Forall nul_free l -> nul_free (concat l).
Proof.
  induction 1 as [|x l Hx Hl IH]; [reflexivity|]. simpl. apply nul_free_app; assumption.
Qed.

Lemma firstn_firstn_app {A} (n : nat) (a b : list A) :
  firstn n (firstn n a ++ b) = firstn n (a ++ b).
Proof.
  destruct (le_lt_dec (length a) n) as [Hle|Hgt].
  - rewrite (firstn_all2 a) by exact Hle. reflexivity.
  - rewrite !firstn_app. rewrite length_firstn.
    replace (n - Nat.min n (length a))%nat with 0%nat by lia.
    replace (n - length a)%nat with 0%nat by lia.
    simpl. rewrite firstn_firstn, Nat.min_id. reflexivity.
Qed.

(** [strncat] with the room left as bound never writes outside the array:
    it appends what fits. *)
Lemma strncat_room (x src : list ascii) (s : state) :
  nul_free x -> terminated src = true ->
  strncat (firstn 1023 x) src (room (firstn 1023 x)) s
  = Ok (firstn 1023 (x ++ c_str src)) s.
Proof.
  intros Hx Hsrc. unfold strncat. rewrite decide_True by (left; exact Hsrc).
  pose proof (nul_free_firstn x 1023 Hx) as Hf. unfold nul_free in Hf.
  assert (Hlen : (length (firstn 1023 x) <= 1023)%nat) by (rewrite length_firstn; lia).
  assert (Hroom : room (firstn 1023 x) = Z.of_nat (1023 - length (firstn 1023 x))).
  { unfold room, COMMAND_SIZE. rewrite Hf. rewrite Z.mod_small; lia. }
  rewrite Hroom, Nat2Z.id.
  assert (E : firstn 1023 x ++ firstn (1023 - length (firstn 1023 x)) (c_str src)
              = firstn 1023 (x ++ c_str src)).
  { rewrite <- (firstn_firstn_app 1023 x (c_str src)).
    rewrite (firstn_app 1023 (firstn 1023 x)).
    rewrite (firstn_all2 (firstn 1023 x)) by exact Hlen. reflexivity. }
  rewrite E. rewrite decide_True; [reflexivity|].
  rewrite length_firstn. unfold COMMAND_SIZE. lia.
Qed.

Lemma strncat_room_literal (x : list ascii) (lt : string) (s : state) :
  nul_free x -> nul_free (lit lt) ->
  strncat (firstn 1023 x) (literal lt) (room (firstn 1023 x)) s
  = Ok (firstn 1023 (x ++ lit lt)) s.
Proof.
  intros Hx Hl.
  assert (Hc : c_str (literal lt) = lit lt).
  { unfold literal. rewrite <- (nul_free_c_str (lit lt) Hl) at 1.
    rewrite c_str_app_nul. apply nul_free_c_str. exact Hl. }
  assert (Ht : terminated (literal lt) = true).
  { unfold terminated, literal. apply Nat.ltb_lt.
    rewrite nul_free_strlen_app by exact Hl. rewrite length_app. simpl. lia. }
  rewrite strncat_room by assumption. rewrite Hc. reflexivity.
Qed.

Lemma DEBUG_loop_run (T : TYPE) (fuel : nat) (s : state) (l : list (Z * item)) :
  forall (p : pointer) (x : list ascii),
    is_list T (heap s) p l -> (length l <= fuel)%nat ->
    Forall (fun n => terminated (name n.2) = true) l ->
    nul_free x ->
    DEBUG_loop T fuel p (firstn 1023 x) s
    = Ok (firstn 1023 (x ++ concat (map (fun y => y ++ lit " ") (c_names l)))) s.
Proof.
  revert fuel. induction l as [|[q n] l IH]; intros fuel p x Hl Hfuel Hterm Hx.
  - simpl in Hl. subst p. simpl. rewrite app_nil_r. destruct fuel; reflexivity.
  - destruct Hl as (<- & Hq & Hn & Hl). apply Forall_cons in Hterm as [Ht Hterm].
    simpl in Ht. destruct fuel as [|fuel]; [simpl in Hfuel; lia|]. simpl in Hfuel.
    simpl DEBUG_loop. rewrite decide_False by exact Hq.
    rewrite (bind_Ok _ _ _ _ _ (load_item_Some _ _ _ _ Hn)).
    rewrite (bind_Ok _ _ _ _ _ (strncat_room x (name n) s Hx Ht)).
    assert (Hx1 : nul_free (x ++ c_str (name n)))
      by (apply nul_free_app; [exact Hx|apply nul_free_c_str_of]).
    rewrite (bind_Ok _ _ _ _ _ (strncat_room_literal _ " " s Hx1 eq_refl)).
    rewrite IH; [|exact Hl|lia|exact Hterm|apply nul_free_app; [exact Hx1|reflexivity]].
    simpl. rewrite <- !app_assoc. reflexivity.
Qed.

Lemma DEBUG_command_run (fuel : nat) (rule : pointer) (h : gmap Z cell) (t : list event)
    (r : build_rule_t) (c : compiler_t) (tn : item) (fl dl : list (Z * item)) :
  complete h rule r c fl dl ->
  readable h r c tn fl dl ->
  (length fl <= fuel)%nat -> (length dl <= fuel)%nat ->
  DEBUG_command fuel rule (State h t)
  = Ok (firstn 1023 (debug_text (c_str (cmd c)) (c_names fl) (c_str (output r))
                                (c_str (name tn)) (c_names dl)))
       (State h t).
Proof.
  intros [Hrn Hr Hcn Hcc Htn Hdn Hfl Hdl] [Hcmd Hout Htgt Htterm Hflt Hdlt] Hff Hfd.
  unfold DEBUG_command.
  rewrite (bind_Ok _ _ _ _ _ (load_rule_Some rule r (State h t) Hr)).
  rewrite (bind_Ok _ _ _ _ _ (load_compiler_Some (cc r) c (State h t) Hcc)).
  unfold snprintf_s_space at 1. rewrite Hcmd.
  unfold bind at 1. unfold ret at 1.
  change (COMMAND_SIZE - 1)%nat with 1023%nat.
  rewrite (bind_Ok _ _ _ _ _ (load_rule_Some rule r (State h t) Hr)).
  rewrite (bind_Ok _ _ _ _ _ (load_compiler_Some (cc r) c (State h t) Hcc)).
  assert (N0 : nul_free (c_str (cmd c) ++ lit " "))
    by (apply nul_free_app; [apply nul_free_c_str_of|reflexivity]).
  rewrite (bind_Ok _ _ _ _ _
             (DEBUG_loop_run flag_t fuel (State h t) fl (flags c) _ Hfl Hff Hflt N0)).
  assert (Hsp : forall l : list (Z * item),
            nul_free (concat (map (fun y => y ++ lit " ") (c_names l)))).
  { intros l. apply nul_free_concat. apply Forall_map. unfold c_names. apply Forall_map.
    apply Forall_forall. intros y _. simpl.
    apply nul_free_app; [apply nul_free_c_str_of|reflexivity]. }
  assert (N1 : nul_free ((c_str (cmd c) ++ lit " ")
                         ++ concat (map (fun y => y ++ lit " ") (c_names fl))))
    by (apply nul_free_app; [exact N0|apply Hsp]).
  rewrite (bind_Ok _ _ _ _ _ (strncat_room_literal _ "-o " (State h t) N1 eq_refl)).
  rewrite (bind_Ok _ _ _ _ _ (load_rule_Some rule r (State h t) Hr)).
  assert (N2 : nul_free (((c_str (cmd c) ++ lit " ")
                          ++ concat (map (fun y => y ++ lit " ") (c_names fl)))
                         ++ lit "-o "))
    by (apply nul_free_app; [exact N1|reflexivity]).
  rewrite (bind_Ok _ _ _ _ _ (strncat_room _ (output r) (State h t) N2 Hout)).
  assert (N3 : nul_free ((((c_str (cmd c) ++ lit " ")
                           ++ concat (map (fun y => y ++ lit " ") (c_names fl)))
                          ++ lit "-o ") ++ c_str (output r)))
    by (apply nul_free_app; [exact N2|apply nul_free_c_str_of]).
  rewrite (bind_Ok _ _ _ _ _ (strncat_room_literal _ " " (State h t) N3 eq_refl)).
  rewrite (bind_Ok _ _ _ _ _ (load_rule_Some rule r (State h t) Hr)).
  rewrite (bind_Ok _ _ _ _ _ (load_item_Some object_t (target r) tn (State h t) Htgt)).
  assert (N4 : nul_free (((((c_str (cmd c) ++ lit " ")
                            ++ concat (map (fun y => y ++ lit " ") (c_names fl)))
                           ++ lit "-o ") ++ c_str (output r)) ++ lit " "))
    by (apply nul_free_app; [exact N3|reflexivity]).
  rewrite (bind_Ok _ _ _ _ _ (strncat_room _ (name tn) (State h t) N4 Htterm)).
  rewrite (bind_Ok _ _ _ _ _ (load_rule_Some rule r (State h t) Hr)).
  assert (N5 : nul_free ((((((c_str (cmd c) ++ lit " ")
                             ++ concat (map (fun y => y ++ lit " ") (c_names fl)))
                            ++ lit "-o ") ++ c_str (output r)) ++ lit " ")
                         ++ c_str (name tn)))
    by (apply nul_free_app; [exact N4|apply nul_free_c_str_of]).
  rewrite (bind_Ok _ _ _ _ _
             (DEBUG_loop_run object_t fuel (State h t) dl (dependencies r) _ Hdl Hfd Hdlt N5)).
  unfold ret, debug_text. rewrite <- !app_assoc. reflexivity.
Qed.

(** With [DEBUG], the line [BUILD] composes for a complete rule is the
    command line cut at 1023 characters: the array of 1024 is never
    overrun, whatever the number and length of the names.  A command line
    that fits is printed whole - with a space behind the compiler, each
    flag, ["-o"], the output and each dependency, and with the target and
    the first dependency run together, for the block appends no space
    behind the target. *)
Theorem DEBUG_prints_command_line (fuel : nat) (rule : pointer)
    (h : gmap Z cell) (t : list event) (r : build_rule_t) (c : compiler_t)
    (tn : item) (fl dl : list (Z * item)) :
  complete h rule r c fl dl ->
  readable h r c tn fl dl ->
  (length fl <= fuel)%nat -> (length dl <= fuel)%nat ->
  exists command,
    DEBUG_command fuel rule (State h t) = Ok command (State h t) /\
    (length command <= 1023)%nat /\
    command = firstn 1023 (debug_text (c_str (cmd c)) (c_names fl) (c_str (output r))
                                      (c_str (name tn)) (c_names dl)) /\
    ((length (debug_text (c_str (cmd c)) (c_names fl) (c_str (output r))
                         (c_str (name tn)) (c_names dl)) <= 1023)%nat ->
     command = c_str (cmd c) ++ lit " "
               ++ concat (map (fun x => x ++ lit " ") (c_names fl))
               ++ lit "-o " ++ c_str (output r) ++ lit " "
               ++ c_str (name tn)
               ++ concat (map (fun x => x ++ lit " ") (c_names dl))).
Proof.
  intros Hc Hr Hff Hfd. eexists.
  split; [apply (DEBUG_command_run fuel rule h t r c tn fl dl); assumption|].
  split; [rewrite length_firstn; lia|]. split; [reflexivity|].
  intros Hfit. apply firstn_all2. exact Hfit.
Qed.

Lemma DEBUG_prints_command_line_witness :
  DEBUG_command 2 15 assembled
  = Ok (lit "gcc -Wall -Wextra -o out test/main.ctest/foo.c test/bar.c ") assembled.
Proof.
  destruct (DEBUG_prints_command_line 2 15 (heap assembled) [] example_rule example_compiler
              (OBJECT (lit "test/main.c")) example_flags example_deps
              example_complete example_readable)
    as (command & Hrun & _ & _ & Htext).
  - simpl. lia.
  - simpl. lia.
  - change assembled with (State (heap assembled) []). rewrite Hrun. f_equal.
    rewrite Htext; [vm_compute; reflexivity|]. vm_compute. lia.
Defined.

(** [DEBUG] changes what [BUILD] prints and nothing else: on a complete
    rule whose buffers hold C strings, [BUILD] with [DEBUG] prints the
    command line and a newline, and its result and the state it returns in
    are those of [BUILD] without [DEBUG]. *)
Theorem BUILD_DEBUG_only_prints (fuel : nat) (w : world) (rule : pointer)
    (h : gmap Z cell) (t : list event) (r : build_rule_t) (c : compiler_t)
    (tn : item) (fl dl : list (Z * item)) :
  complete h rule r c fl dl ->
  readable h r c tn fl dl ->
  (forall a, w_calloc w = Some a -> a <> NULL /\ h !! a = None) ->
  w_fork w <> 0 ->
  (length fl <= fuel)%nat -> (length dl <= fuel)%nat ->
  Z.of_nat (length fl + length dl + 5) <= INT_MAX ->
  exists v s',
    BUILD fuel w rule (State h t) = Ok v s' /\
    BUILD_DEBUG fuel w rule (State h t)
    = Ok (firstn 1023 (debug_text (c_str (cmd c)) (c_names fl) (c_str (output r))
                                  (c_str (name tn)) (c_names dl)) ++ [LF], v) s'.
Proof.
  intros Hc Hr Hcalloc Hpid Hff Hfd Hmax.
  destruct (BUILD_run fuel w rule h t r c fl dl Hc Hcalloc Hpid Hff Hfd Hmax) as [E1 E2].
  eexists. eexists. split; [exact E1|].
  unfold BUILD_DEBUG.
  pose proof Hc as [Hrn Hrule Hcn Hcc Htn Hdn Hfl Hdl].
  rewrite decide_False by exact Hrn.
  rewrite (bind_Ok _ _ _ _ _ (load_rule_Some rule r (State h t) Hrule)).
  rewrite decide_False by tauto.
  rewrite (bind_Ok _ _ _ _ _ (DEBUG_command_run fuel rule h t r c tn fl dl Hc Hr Hff Hfd)).
  rewrite (bind_Ok _ _ _ _ _ E2). reflexivity.
Qed.

Lemma BUILD_DEBUG_only_prints_witness :
  BUILD_DEBUG 2 (World (Some 20) 7 (Some (Exited 0))) 15 assembled
  = Ok (lit "gcc -Wall -Wextra -o out test/main.ctest/foo.c test/bar.c " ++ [LF], 0)
       (State (heap assembled) [Fork 7]).
Proof.
  destruct (BUILD_DEBUG_only_prints 2 (World (Some 20) 7 (Some (Exited 0))) 15
              (heap assembled) [] example_rule example_compiler
              (OBJECT (lit "test/main.c")) example_flags example_deps
              example_complete example_readable)
    as (v & s' & Hb & Hd).
  - intros a [= <-]. split; [unfold NULL; lia | vm_compute; reflexivity].
  - simpl. lia.
  - simpl. lia.
  - simpl. lia.
  - vm_compute. discriminate.
  - change assembled with (State (heap assembled) []). rewrite Hd.
    assert (Hv : Ok v s' = Ok 0 (State (heap assembled) [Fork 7]))
      by (rewrite <- Hb; vm_compute; reflexivity).
    injection Hv as -> ->. vm_compute. reflexivity.
Defined.

(** ** example.c, in every environment *)

Lemma INIT_CC_run (p : pointer) (j : junk) (h : gmap Z cell) (t : list event) :
  INIT_CC (Some (p, j)) (State h t)
  = Ok p (State (<[p := Compiler (CompilerT (memset (junk_buf j) NUL 1) NULL)]> h) t).
Proof.
  unfold INIT_CC, malloc.
  unfold bind at 1. unfold bind at 1. simpl.
  repeat (erewrite bind_Ok by (apply load_compiler_Some; simpl; apply lookup_insert_eq);
          erewrite bind_Ok by (eapply store_compiler_Some; simpl; apply lookup_insert_eq)).
  simpl. unfold ret. rewrite !insert_insert_eq. reflexivity.
Qed.

Lemma INIT_RULE_run (p : pointer) (j : junk) (h : gmap Z cell) (t : list event) :
  INIT_RULE (Some (p, j)) (State h t)
  = Ok p (State (<[p := Rule (BuildRule NULL NULL NULL (memset (junk_buf j) NUL 1))]> h) t).
Proof.
  unfold INIT_RULE, malloc.
  unfold bind at 1. unfold bind at 1. simpl.
  repeat (erewrite bind_Ok by (apply load_rule_Some; simpl; apply lookup_insert_eq);
          erewrite bind_Ok by (eapply store_rule_Some; simpl; apply lookup_insert_eq)).
  simpl. unfold ret. rewrite !insert_insert_eq. reflexivity.
Qed.

Lemma put_run (p : pointer) (c : cell) (h : gmap Z cell) (t : list event) :
  put p c (State h t) = Ok tt (State (<[p := c]> h) t).
Proof. reflexivity. Qed.

Lemma strcmp_eq_node_name (j : junk) (s : list ascii) :
  (length s < DEFAULT_CAPACITY)%nat -> nul_free s ->
  strcmp_eq (node_name j (char_array s)) s = true.
Proof.
  intros Hlen Hs. unfold strcmp_eq. apply bool_decide_eq_true.
  assert (Hc : strlen (char_array s) = length s)
    by (rewrite strlen_char_array by exact Hs; lia).
  rewrite c_str_node_name by lia.
  rewrite char_array_short by exact Hlen.
  destruct (DEFAULT_CAPACITY - length s)%nat as [|k] eqn:Ek; [lia|]. simpl.
  rewrite <- (nul_free_c_str s Hs) at 1. rewrite c_str_app_nul. reflexivity.
Qed.

Ltac distinct_addresses :=
  repeat match goal with
         | H : NoDup (_ :: _) |- _ => apply NoDup_cons in H as [? H]
         end;
  repeat match goal with
         | H : _ ∉ _ :: _ |- _ => apply not_elem_of_cons in H as [? H]
         end.

Ltac lookup_heap :=
  repeat first [ rewrite lookup_insert_eq
               | rewrite lookup_insert_ne by congruence ].

Ltac fresh_in_heap := simpl; lookup_heap; apply lookup_empty.

Lemma main_setup_run (fuel : nat) (F1 F2 F3 pcc pf1 pf2 pd1 pd2 pr : pointer)
    (jcc jf1 jf2 jd1 jd2 jr : junk) (w : world) :
  NoDup [NULL; F1; F2; F3; pcc; pf1; pf2; pd1; pd2; pr] ->
  (2 <= fuel)%nat ->
  exists h,
    main_setup fuel (Frame F1 F2 F3)
      (Answers (Some (pcc, jcc)) (Some (pf1, jf1)) (Some (pf2, jf2))
               (Some (pd1, jd1)) (Some (pd2, jd2)) (Some (pr, jr)) w) empty_state
    = Ok (pcc, pr) (State h []) /\
    h !! pcc = Some (Compiler (CompilerT (strncpy (memset (junk_buf jcc) NUL 1) (lit "gcc")
                                                  CC_CAPACITY) NULL)) /\
    h !! F1 = Some (PtrVar pf1) /\
    h !! pf1 = Some (Node flag_t (Item (node_name jf1 (char_array (lit "-Wall"))) pf2)) /\
    h !! pf2 = Some (Node flag_t (Item (node_name jf2 (char_array (lit "-Wextra"))) NULL)) /\
    h !! F2 = Some (Node object_t (OBJECT (lit "test/main.c"))) /\
    h !! F3 = Some (PtrVar pd1) /\
    h !! pd1 = Some (Node object_t (Item (node_name jd1 (char_array (lit "test/foo.c"))) pd2)) /\
    h !! pd2 = Some (Node object_t (Item (node_name jd2 (char_array (lit "test/bar.c"))) NULL)) /\
    h !! pr = Some (Rule (BuildRule NULL NULL NULL (memset (junk_buf jr) NUL 1))) /\
    (forall a, a ∉ [F1; F2; F3; pcc; pf1; pf2; pd1; pd2; pr] -> h !! a = None).
Proof.
  intros Hnd Hfuel. distinct_addresses.
  unfold main_setup, empty_state.
  cbn [a_cc a_flag1 a_flag2 a_dep1 a_dep2 a_rule a_world flag_list_at target_at dependencies_at].
  rewrite (bind_Ok _ _ _ _ _ (INIT_CC_run pcc jcc ∅ [])).
  erewrite bind_Ok by (apply SET_CC_run; cbn [heap]; apply lookup_insert_eq).
  cbn [heap trace cmd flags].
  rewrite insert_insert_eq.
  erewrite bind_Ok by apply put_run.
  unfold ADD_FLAG, ADD_OBJECT.
  erewrite bind_Ok.
  2:{ apply (LIST_PUSH_BACK_success flag_t fuel pf1 jf1 F1 _ _ _ NULL []);
      [apply lookup_insert_eq|reflexivity|simpl; clear - Hfuel; lia
      |split; [congruence|cbn [heap]; lookup_heap; apply lookup_empty]
      |vm_compute; clear; lia]. }
  unfold pushed. cbn [last].
  erewrite bind_Ok by (apply load_var_Some; cbn [heap]; apply lookup_insert_eq).
  erewrite bind_Ok by (apply load_item_Some; cbn [heap]; lookup_heap; reflexivity).
  cbn [name FLAG OBJECT].
  rewrite strcmp_eq_node_name by (vm_compute; first [clear; lia|reflexivity]).
  unfold assert at 1. unfold bind at 1. unfold ret at 1.
  erewrite bind_Ok.
  2:{ apply (LIST_PUSH_BACK_success flag_t fuel pf2 jf2 F1 _ _ _ pf1
               [(pf1, Item (node_name jf1 (char_array (lit "-Wall"))) NULL)]);
      [apply lookup_insert_eq
      |simpl; repeat split; [congruence|lookup_heap; reflexivity]
      |simpl; clear - Hfuel; lia
      |split; [congruence|cbn [heap]; lookup_heap; apply lookup_empty]
      |vm_compute; clear; lia]. }
  unfold pushed. cbn [last].
  cbn [name FLAG OBJECT].
  erewrite bind_Ok by (apply load_var_Some; cbn [heap]; lookup_heap; reflexivity).
  erewrite bind_Ok by (apply load_item_Some; cbn [heap]; lookup_heap; reflexivity).
  cbn [__next].
  erewrite bind_Ok by (apply load_item_Some; cbn [heap]; lookup_heap; reflexivity).
  cbn [name FLAG OBJECT].
  rewrite strcmp_eq_node_name by (vm_compute; first [clear; lia|reflexivity]).
  unfold assert at 1. unfold bind at 1. unfold ret at 1.
  erewrite bind_Ok by apply put_run.
  erewrite bind_Ok by apply put_run.
  erewrite bind_Ok.
  2:{ apply (LIST_PUSH_BACK_success object_t fuel pd1 jd1 F3 _ _ _ NULL []);
      [apply lookup_insert_eq|reflexivity|simpl; clear - Hfuel; lia
      |split; [congruence|cbn [heap]; lookup_heap; apply lookup_empty]
      |vm_compute; clear; lia]. }
  unfold pushed. cbn [last].
  erewrite bind_Ok by (apply load_var_Some; cbn [heap]; apply lookup_insert_eq).
  erewrite bind_Ok by (apply load_item_Some; cbn [heap]; lookup_heap; reflexivity).
  cbn [name FLAG OBJECT].
  rewrite strcmp_eq_node_name by (vm_compute; first [clear; lia|reflexivity]).
  unfold assert at 1. unfold bind at 1. unfold ret at 1.
  erewrite bind_Ok.
  2:{ apply (LIST_PUSH_BACK_success object_t fuel pd2 jd2 F3 _ _ _ pd1
               [(pd1, Item (node_name jd1 (char_array (lit "test/foo.c"))) NULL)]);
      [apply lookup_insert_eq
      |simpl; repeat split; [congruence|lookup_heap; reflexivity]
      |simpl; clear - Hfuel; lia
      |split; [congruence|cbn [heap]; lookup_heap; apply lookup_empty]
      |vm_compute; clear; lia]. }
  unfold pushed. cbn [last].
  cbn [name FLAG OBJECT].
  erewrite bind_Ok by (apply load_var_Some; cbn [heap]; lookup_heap; reflexivity).
  erewrite bind_Ok by (apply load_item_Some; cbn [heap]; lookup_heap; reflexivity).
  cbn [__next].
  erewrite bind_Ok by (apply load_item_Some; cbn [heap]; lookup_heap; reflexivity).
  cbn [name FLAG OBJECT].
  rewrite strcmp_eq_node_name by (vm_compute; first [clear; lia|reflexivity]).
  unfold assert at 1. unfold bind at 1. unfold ret at 1.
  erewrite bind_Ok by apply INIT_RULE_run.
  eexists. split; [reflexivity|].
  repeat (split; [lookup_heap; reflexivity|]).
  intros a Ha.
  repeat (apply not_elem_of_cons in Ha as [? Ha]).
  lookup_heap. apply lookup_empty.
Qed.

(** [main] of example.c in every environment in which its six calls of
    [malloc] succeed: the four assertions hold, and [main] returns 0
    whatever becomes of the build - failed [calloc], failed [fork], a
    compiler that is not found, fails or is killed - for it does not look at
    the result of [BUILD].  At the end the six blocks are freed, and the
    locals [flag_list] and [dependencies] still hold the addresses of freed
    nodes. *)
Theorem main_returns_zero_whatever_the_build (fuel : nat)
    (F1 F2 F3 pcc pf1 pf2 pd1 pd2 pr : pointer)
    (jcc jf1 jf2 jd1 jd2 jr : junk) (w : world) :
  NoDup [NULL; F1; F2; F3; pcc; pf1; pf2; pd1; pd2; pr] ->
  (2 <= fuel)%nat ->
  (forall a, w_calloc w = Some a -> a ∉ [NULL; F1; F2; F3; pcc; pf1; pf2; pd1; pd2; pr]) ->
  w_fork w <> 0 ->
  exists s,
    main fuel (Frame F1 F2 F3)
      (Answers (Some (pcc, jcc)) (Some (pf1, jf1)) (Some (pf2, jf2))
               (Some (pd1, jd1)) (Some (pd2, jd2)) (Some (pr, jr)) w) empty_state
    = Ok 0 s /\
    trace s = build_trace w /\
    (forall a, a ∈ [pcc; pf1; pf2; pd1; pd2; pr] -> heap s !! a = None) /\
    heap s !! F1 = Some (PtrVar pf1) /\
    heap s !! F3 = Some (PtrVar pd1) /\
    heap s !! F2 = Some (Node object_t (OBJECT (lit "test/main.c"))).
Proof.
  intros Hnd Hfuel Hcalloc Hpid.
  destruct (main_setup_run fuel F1 F2 F3 pcc pf1 pf2 pd1 pd2 pr jcc jf1 jf2 jd1 jd2 jr w
              Hnd Hfuel)
    as (h & Hrun & Hcc & HF1 & Hf1 & Hf2 & HF2 & HF3 & Hd1 & Hd2 & Hr & Hnone).
  distinct_addresses.
  set (fl := [(pf1, Item (node_name jf1 (char_array (lit "-Wall"))) pf2);
              (pf2, Item (node_name jf2 (char_array (lit "-Wextra"))) NULL)]).
  set (dl := [(pd1, Item (node_name jd1 (char_array (lit "test/foo.c"))) pd2);
              (pd2, Item (node_name jd2 (char_array (lit "test/bar.c"))) NULL)]).
  assert (Hfl : is_list flag_t h pf1 fl)
    by (simpl; repeat split; first [congruence|assumption]).
  assert (Hdl : is_list object_t h pd1 dl)
    by (simpl; repeat split; first [congruence|assumption]).
  pose proof (assembly_complete h pr pcc pf1 F2 pd1 (lit "out") _ _ fl dl
                ltac:(congruence) ltac:(congruence) ltac:(congruence) ltac:(congruence)
                Hr Hcc Hfl Hdl) as Hcomp.
  set (h1 := assembly h pr pcc pf1 F2 pd1 (lit "out")
               (BuildRule NULL NULL NULL (memset (junk_buf jr) NUL 1))
               (CompilerT (strncpy (memset (junk_buf jcc) NUL 1) (lit "gcc") CC_CAPACITY)
                          NULL)) in *.
  assert (Hfresh : forall a, w_calloc w = Some a -> a <> NULL /\ h1 !! a = None).
  { intros a Ha. specialize (Hcalloc a Ha).
    apply not_elem_of_cons in Hcalloc as [Hnn Hrest]. split; [exact Hnn|].
    pose proof (Hnone a Hrest) as Hn.
    unfold h1. rewrite assembly_lookup; [exact Hn| |]; intros ->; congruence. }
  destruct (BUILD_run fuel w pr h1 [] _ _ fl dl Hcomp Hfresh Hpid
              Hfuel Hfuel ltac:(vm_compute; discriminate))
    as [Hbuild _].
  destruct (cleanup_complete fuel pr h1 ([] ++ build_trace w) _ _ fl dl Hcomp
              Hfuel Hfuel)
    as (h2 & Hclean & Hgone & Hkept). simpl in Hgone, Hkept.
  exists (State h2 (build_trace w)). split.
  { unfold main. rewrite (bind_Ok _ _ _ _ _ Hrun). simpl.
    rewrite (bind_Ok _ _ _ _ _ (load_var_Some F1 pf1 (State h []) HF1)).
    rewrite (bind_Ok _ _ _ _ _ (load_var_Some F3 pd1 (State h []) HF3)).
    rewrite (bind_Ok _ _ _ _ _
               (MAKE_RULE_assembly pr pcc pf1 F2 pd1 (lit "out") h [] _ _
                  ltac:(congruence) ltac:(congruence) ltac:(congruence) Hr Hcc)).
    fold h1.
    replace (pr =? NULL) with false by (symmetry; apply Z.eqb_neq; congruence).
    change (negb false) with true.
    rewrite (bind_Ok _ _ _ _ _ (eq_refl : assert true (State h1 []) = Ok tt (State h1 []))).
    rewrite (bind_Ok _ _ _ _ _ Hbuild).
    rewrite (bind_Ok _ _ _ _ _ Hclean). reflexivity. }
  split; [reflexivity|]. simpl.
  assert (Hin : forall a, a ∈ [F1; F2; F3] -> h2 !! a = h !! a).
  { intros a Ha.
    rewrite Hkept.
    - unfold h1. apply assembly_lookup.
      + intros ->. repeat (apply elem_of_cons in Ha as [Ha|Ha]; [congruence|]). inversion Ha.
      + intros ->. repeat (apply elem_of_cons in Ha as [Ha|Ha]; [congruence|]). inversion Ha.
    - unfold dl. simpl. intros Hb.
      repeat (apply elem_of_cons in Hb as [Hb|Hb];
              [subst a; repeat (apply elem_of_cons in Ha as [Ha|Ha]; [congruence|]);
               inversion Ha|]). inversion Hb.
    - unfold fl. simpl. intros Hb.
      repeat (apply elem_of_cons in Hb as [Hb|Hb];
              [subst a; repeat (apply elem_of_cons in Ha as [Ha|Ha]; [congruence|]);
               inversion Ha|]). inversion Hb.
    - intros ->. repeat (apply elem_of_cons in Ha as [Ha|Ha]; [congruence|]). inversion Ha.
    - intros ->. repeat (apply elem_of_cons in Ha as [Ha|Ha]; [congruence|]). inversion Ha. }
  split.
  { intros a Ha. apply Hgone. unfold fl, dl. simpl.
    repeat (apply elem_of_cons in Ha as [->|Ha];
            [first [ right; right; left; reflexivity
                   | right; right; right; reflexivity
                   | right; left; apply elem_of_cons; left; reflexivity
                   | right; left; apply elem_of_cons; right; apply elem_of_cons; left;
                     reflexivity
                   | left; apply elem_of_cons; left; reflexivity
                   | left; apply elem_of_cons; right; apply elem_of_cons; left; reflexivity ]|]).
    inversion Ha. }
  split; [rewrite Hin; [exact HF1|apply elem_of_cons; left; reflexivity]|].
  split; [rewrite Hin; [exact HF3|]|rewrite Hin; [exact HF2|]].
  - apply elem_of_cons; right; apply elem_of_cons; right; apply elem_of_cons; left; reflexivity.
  - apply elem_of_cons; right; apply elem_of_cons; left; reflexivity.
Qed.

Lemma main_returns_zero_whatever_the_build_witness :
  exists s,
    main 2 sample_frame (sample_answers (World (Some 20) 7 (Some (Exited 1)))) empty_state
    = Ok 0 s /\
    trace s = [Fork 7].
Proof.
  destruct (main_returns_zero_whatever_the_build 2 1 3 2 10 11 12 13 14 15
              sample_junk sample_junk sample_junk sample_junk sample_junk sample_junk
              (World (Some 20) 7 (Some (Exited 1))))
    as (s & Hrun & Htrace & _).
  - apply (bool_decide_unpack _). vm_compute. exact I.
  - lia.
  - intros a [= <-]. apply (bool_decide_unpack _). vm_compute. exact I.
  - simpl. lia.
  - exists s. split; [exact Hrun|exact Htrace].
Defined.

(** ** Lists without an end *)

Lemma LIST_PUSH_BACK_loop_endless (T : TYPE) (s : state) (S : Z -> Prop) (fuel : nat) :
  endless T (heap s) S ->
  forall p prev, S p -> LIST_PUSH_BACK_loop T fuel p prev s = Timeout.
Proof.
  intros Hend. induction fuel as [|fuel IH]; intros p prev Hp;
    destruct (Hend p Hp) as (Hnn & n & Hn & Hnext); simpl;
    rewrite decide_False by exact Hnn; [reflexivity|].
  rewrite (bind_Ok _ _ _ _ _ (load_item_Some _ _ _ _ Hn)). apply IH. exact Hnext.
Qed.

(** The append operations look for the end of the list and for nothing
    else: on a list that runs into a cycle they walk for ever - however much
    fuel the walk is given, it is not enough - and [malloc] is never
    reached. *)
Theorem append_to_cyclic_list_never_returns (T : TYPE) (fuel : nat) (m : malloc_result)
    (HEAD : pointer) (it : item) (s : state) (hd : pointer) (S : Z -> Prop) :
  heap s !! HEAD = Some (PtrVar hd) ->
  S hd ->
  endless T (heap s) S ->
  ADD T fuel m HEAD it s = Timeout.
Proof.
  intros HH Hhd Hend. rewrite ADD_eq. unfold LIST_PUSH_BACK.
  rewrite (bind_Ok _ _ _ _ _ (load_var_Some _ _ _ HH)).
  unfold bind. rewrite (LIST_PUSH_BACK_loop_endless T s S fuel Hend hd NULL Hhd).
  reflexivity.
Qed.

Lemma append_to_cyclic_list_never_returns_witness :
  ADD flag_t 1000 (Some (12, sample_junk)) 1 (FLAG (lit "-O2")) looping_flag = Timeout.
Proof.
  apply (append_to_cyclic_list_never_returns flag_t 1000 (Some (12, sample_junk)) 1
           (FLAG (lit "-O2")) looping_flag 11 (fun q => q = 11)).
  - reflexivity.
  - reflexivity.
  - intros q ->. split; [unfold NULL; lia|].
    eexists. split; [reflexivity|reflexivity].
Defined.

(** ** Lists shared between the caller and the rule *)

(** [MAKE_RULE] stores the head of the dependency list, not the list: the
    caller's head variable and the rule lead to the same nodes.  An object
    that the caller appends after the assembly is a dependency of the rule
    as well, and [__build] passes it to the compiler behind the others. *)
Theorem dependency_appended_after_assembly_is_built (fuel : nat) (w : world)
    (rule HEAD p a : pointer) (j : junk) (it : item)
    (h : gmap Z cell) (t : list event) (r : build_rule_t) (c : compiler_t)
    (fl dl : list (Z * item)) :
  complete h rule r c fl dl ->
  h !! HEAD = Some (PtrVar (dependencies r)) ->
  valid_malloc (State h t) (Some (p, j)) ->
  (strlen (name it) < DEFAULT_CAPACITY)%nat ->
  w_calloc w = Some a -> a <> NULL -> h !! a = None -> a <> p ->
  (length fl <= fuel)%nat -> (length dl < fuel)%nat ->
  Z.of_nat (length fl + length dl + 6) <= INT_MAX ->
  exists h' slots,
    ADD_OBJECT fuel (Some (p, j)) HEAD it (State h t) = Ok tt (State h' t) /\
    h' !! rule = Some (Rule r) /\
    __build_argv fuel w rule (State h' t) = Ok a (State (<[a := Argv slots]> h') t) /\
    slots = [CharCmd (cc r)] ++ map CharName fl.*1
            ++ [CharLit (lit "-o"); CharOutput rule; CharName (target r)]
            ++ map CharName dl.*1 ++ [CharName p; CharNull].
Proof.
  intros Hc HH [Hp Hfresh] Hfit Hw Ha Hafresh Hap Hff Hfd Hmax. simpl in Hfresh.
  pose proof Hc as [Hrn Hr Hcn Hcc Htn Hdn Hfl Hdl].
  set (new := Item (node_name j (name it)) NULL).
  destruct (last dl) as [[q nq]|] eqn:Hlast.
  2:{ apply last_None in Hlast. subst dl. simpl in Hdl. contradiction. }
  destruct (is_list_last _ _ _ _ _ _ Hdl Hlast) as (Hq & Hhq & Hnq).
  assert (Hrun : ADD_OBJECT fuel (Some (p, j)) HEAD it (State h t)
                 = Ok tt (State (pushed object_t h HEAD dl p new) t)).
  { apply (LIST_PUSH_BACK_success object_t fuel p j HEAD it h t (dependencies r) dl);
      [exact HH|exact Hdl|lia|split; assumption|exact Hfit]. }
  set (h' := pushed object_t h HEAD dl p new) in *.
  assert (Hold : forall x y, h !! x = Some y -> (forall n, y <> Node object_t n) ->
                             (forall v, y <> PtrVar v) -> h' !! x = Some y).
  { intros x y Hx Hnode Hvar.
    unfold h'. rewrite pushed_lookup_old; [exact Hx| | |].
    - intros ->. rewrite HH in Hx. injection Hx as <-. exact (Hvar _ eq_refl).
    - intros ->. congruence.
    - rewrite fmap_last, Hlast. simpl. intros [= <-].
      rewrite Hhq in Hx. injection Hx as <-. exact (Hnode _ eq_refl). }
  destruct (pushed_is_list object_t h HEAD (dependencies r) dl p new HH Hdl Hp Hfresh eq_refl)
    as (hd' & HH' & Hdl').
  assert (hd' = dependencies r) as ->.
  { unfold pushed in HH'. rewrite Hlast in HH'.
    rewrite lookup_insert_ne in HH' by (intros ->; congruence).
    rewrite lookup_insert_ne in HH' by (intros ->; congruence).
    congruence. }
  assert (Hcomp : complete h' rule r c fl (link_tail dl p ++ [(p, new)])).
  { split; try assumption.
    - apply (Hold rule _ Hr); discriminate.
    - apply (Hold (cc r) _ Hcc); discriminate.
    - eapply is_list_agree; [exact Hfl|]. intros x Hx.
      apply list_elem_of_fmap in Hx as ([x' n] & -> & Hin). simpl.
      destruct (is_list_lookup _ _ _ _ _ _ Hfl Hin) as [_ Hx].
      rewrite (Hold x' _ Hx); [symmetry; exact Hx|discriminate|discriminate]. }
  exists h'. eexists. split; [exact Hrun|].
  split; [apply (Hold rule _ Hr); discriminate|]. split.
  - apply (__build_argv_run fuel w rule h' t r c fl (link_tail dl p ++ [(p, new)]) a
             Hcomp Hw Ha).
    + unfold h'. eapply pushed_lookup_other; eassumption.
    + exact Hff.
    + rewrite length_app, link_tail_length. simpl. lia.
    + rewrite length_app, link_tail_length. simpl. lia.
  - unfold expected_argv. rewrite fmap_app, link_tail_addresses, map_app. simpl.
    rewrite <- !app_assoc. reflexivity.
Qed.

Lemma dependency_appended_after_assembly_is_built_witness :
  exists h' slots,
    ADD_OBJECT 3 (Some (16, sample_junk)) 2 (OBJECT (lit "test/baz.c")) assembled
    = Ok tt (State h' []) /\
    __build_argv 3 (World (Some 20) 7 None) 15 (State h' [])
    = Ok 20 (State (<[20 := Argv slots]> h') []) /\
    slots = [CharCmd 10; CharName 11; CharName 12; CharLit (lit "-o"); CharOutput 15;
             CharName 3; CharName 13; CharName 14; CharName 16; CharNull].
Proof.
  destruct (dependency_appended_after_assembly_is_built 3 (World (Some 20) 7 None)
              15 2 16 20 sample_junk (OBJECT (lit "test/baz.c")) (heap assembled) []
              example_rule example_compiler example_flags example_deps example_complete)
    as (h' & slots & Hrun & _ & Hargv & Hslots).
  - vm_compute. reflexivity.
  - split; [unfold NULL; lia|vm_compute; reflexivity].
  - vm_compute. lia.
  - reflexivity.
  - unfold NULL. lia.
  - vm_compute. reflexivity.
  - lia.
  - simpl. lia.
  - simpl. lia.
  - vm_compute. discriminate.
  - exists h', slots. split; [exact Hrun|]. split; [exact Hargv|exact Hslots].
Defined.

(** The sharing goes through the nodes, not through the head variable.  When
    the rule was assembled with an empty flag list, a flag the caller
    appends afterwards goes to the caller's head variable alone: the
    compiler of the rule still has no flags, and [__build] passes none. *)
Theorem flag_appended_to_empty_list_after_assembly_is_not_used (fuel : nat) (w : world)
    (rule HEAD p a : pointer) (j : junk) (it : item)
    (h : gmap Z cell) (t : list event) (r : build_rule_t) (c : compiler_t)
    (dl : list (Z * item)) :
  complete h rule r c [] dl ->
  h !! HEAD = Some (PtrVar NULL) ->
  valid_malloc (State h t) (Some (p, j)) ->
  (strlen (name it) < DEFAULT_CAPACITY)%nat ->
  w_calloc w = Some a -> a <> NULL -> h !! a = None -> a <> p ->
  (length dl <= fuel)%nat ->
  Z.of_nat (length dl + 5) <= INT_MAX ->
  exists h' slots,
    ADD_FLAG fuel (Some (p, j)) HEAD it (State h t) = Ok tt (State h' t) /\
    h' !! HEAD = Some (PtrVar p) /\
    h' !! cc r = Some (Compiler c) /\ flags c = NULL /\
    __build_argv fuel w rule (State h' t) = Ok a (State (<[a := Argv slots]> h') t) /\
    slots = [CharCmd (cc r); CharLit (lit "-o"); CharOutput rule; CharName (target r)]
            ++ map CharName dl.*1 ++ [CharNull].
Proof.
  intros Hc HH [Hp Hfresh] Hfit Hw Ha Hafresh Hap Hfd Hmax. simpl in Hfresh.
  pose proof Hc as [Hrn Hr Hcn Hcc Htn Hdn Hfl Hdl]. simpl in Hfl.
  set (new := Item (node_name j (name it)) NULL).
  assert (Hrun : ADD_FLAG fuel (Some (p, j)) HEAD it (State h t)
                 = Ok tt (State (pushed flag_t h HEAD [] p new) t)).
  { apply (LIST_PUSH_BACK_success flag_t fuel p j HEAD it h t NULL []);
      [exact HH|reflexivity|simpl; lia|split; assumption|exact Hfit]. }
  unfold pushed in Hrun. simpl in Hrun.
  set (h' := <[HEAD := PtrVar p]> (<[p := Node flag_t new]> h)) in *.
  assert (Hold : forall x y, h !! x = Some y -> (forall v, y <> PtrVar v) -> h' !! x = Some y).
  { intros x y Hx Hvar. unfold h'.
    rewrite lookup_insert_ne
      by (intros ->; rewrite HH in Hx; injection Hx as <-; exact (Hvar _ eq_refl)).
    rewrite lookup_insert_ne by (intros ->; congruence). exact Hx. }
  assert (Hcomp : complete h' rule r c [] dl).
  { split; try assumption.
    - apply (Hold rule _ Hr); discriminate.
    - apply (Hold (cc r) _ Hcc); discriminate.
    - eapply is_list_agree; [exact Hdl|]. intros x Hx.
      apply list_elem_of_fmap in Hx as ([x' n] & -> & Hin). simpl.
      destruct (is_list_lookup _ _ _ _ _ _ Hdl Hin) as [_ Hx].
      rewrite (Hold x' _ Hx); [symmetry; exact Hx|discriminate]. }
  exists h'. eexists. split; [exact Hrun|].
  split; [unfold h'; apply lookup_insert_eq|].
  split; [apply (Hold (cc r) _ Hcc); discriminate|]. split; [exact Hfl|]. split.
  - apply (__build_argv_run fuel w rule h' t r c [] dl a Hcomp Hw Ha).
    + unfold h'. rewrite lookup_insert_ne by (intros ->; congruence).
      rewrite lookup_insert_ne by congruence. exact Hafresh.
    + simpl. lia.
    + exact Hfd.
    + simpl. lia.
  - reflexivity.
Qed.

Lemma flag_appended_to_empty_list_after_assembly_is_not_used_witness :
  exists h' slots,
    ADD_FLAG 3 (Some (16, sample_junk)) 4 (FLAG (lit "-O2")) assembled_without_flags
    = Ok tt (State h' []) /\
    h' !! 4 = Some (PtrVar 16) /\
    __build_argv 3 (World (Some 20) 7 None) 15 (State h' [])
    = Ok 20 (State (<[20 := Argv slots]> h') []) /\
    slots = [CharCmd 10; CharLit (lit "-o"); CharOutput 15;
             CharName 3; CharName 13; CharName 14; CharNull].
Proof.
  destruct (flag_appended_to_empty_list_after_assembly_is_not_used 3
              (World (Some 20) 7 None) 15 4 16 20 sample_junk (FLAG (lit "-O2"))
              (heap assembled_without_flags) [] example_rule
              (CompilerT (cmd example_compiler) NULL) example_deps)
    as (h' & slots & Hrun & Hhead & _ & _ & Hargv & Hslots).
  - split; try (unfold NULL; simpl; lia); try (vm_compute; reflexivity).
    simpl. repeat split; try (unfold NULL; lia); vm_compute; reflexivity.
  - vm_compute. reflexivity.
  - split; [unfold NULL; lia|vm_compute; reflexivity].
  - vm_compute. lia.
  - reflexivity.
  - unfold NULL. lia.
  - vm_compute. reflexivity.
  - lia.
  - simpl. lia.
  - vm_compute. discriminate.
  - exists h', slots. split; [exact Hrun|]. split; [exact Hhead|].
    split; [exact Hargv|exact Hslots].
Defined.
